(** * file-service: the storage adapters and the HTTP handlers built on them

    A shallow embedding of [storage/*.go] (the [Storage] interface and its
    MinIO, OSS, OBS and Azure adapters) and of [api/server.go] (route
    registration and the request handlers), followed by the properties of
    the storage contract, the virtual-directory layer, the archive download
    and the prefix delete.

    Conventions of the embedding.
    - A Go [string] is a [string]; [int64] is [Z]; a slice is the list of its
      elements (the nil slice and the empty slice are both [[]]); a
      [map[string]string] is an [option (gmap string string)], [None] being
      the nil map.
    - An [io.Reader] / [io.ReadCloser] is represented by the bytes it yields.
    - A [time.Time] is represented by its RFC 3339 text, so
      [t.Format(time.RFC3339)] is [t] itself.
    - Calls into a provider SDK, the gin context, the zip writer and the
      clock are events of a program tree ([Prog]); a handler answers them
      from a world state, and [run] records every call with its answer. *)

From Stdlib Require Import ZArith Ascii String List Bool Lia DecimalString.
From stdpp Require Import base option list gmap strings fin_maps sorting.

Local Open Scope string_scope.
Local Open Scope list_scope.

(* ===================================================================== *)
(** * Go's [strings] and [path] packages, as far as the code uses them *)
(* ===================================================================== *)

Module GoStrings.

(** [s[n:]] for [n <= len(s)]. *)
Fixpoint drop_bytes (n : nat) (s : string) : string :=
  match n, s with
  | O, _ => s
  | S n', String _ s' => drop_bytes n' s'
  | S _, EmptyString => EmptyString
  end.

(** [s[:n]] for [n <= len(s)]. *)
Fixpoint take_bytes (n : nat) (s : string) : string :=
  match n, s with
  | O, _ => EmptyString
  | S n', String c s' => String c (take_bytes n' s')
  | S _, EmptyString => EmptyString
  end.

(** The slice expression [s[n:]]: it panics when [n > len(s)]; [None] is
    the panic. *)
Definition slice_from (s : string) (n : nat) : option string :=
  if Nat.leb n (String.length s) then Some (drop_bytes n s) else None.

(** [strings.HasPrefix(s, prefix)]. *)
Definition HasPrefix (s prefix : string) : bool := String.prefix prefix s.

(** [strings.HasSuffix(s, suffix)]:
    [len(s) >= len(suffix) && s[len(s)-len(suffix):] == suffix]. *)
Definition HasSuffix (s suffix : string) : bool :=
  Nat.leb (String.length suffix) (String.length s)
  && String.eqb (drop_bytes (String.length s - String.length suffix) s) suffix.

(** [strings.TrimSuffix(s, suffix)]. *)
Definition TrimSuffix (s suffix : string) : string :=
  if HasSuffix s suffix
  then take_bytes (String.length s - String.length suffix) s
  else s.

(** [strings.Split(s, sep)] for a one-byte separator (the code only splits
    on ["/"]): one more part than there are separators in [s]. *)
Fixpoint Split (s : string) (sep : ascii) : list string :=
  match s with
  | EmptyString => [EmptyString]
  | String c s' =>
      if Ascii.eqb c sep then EmptyString :: Split s' sep
      else match Split s' sep with
           | p :: ps => String c p :: ps
           | [] => [String c EmptyString]
           end
  end.

(** [strings.Join(elems, sep)]. *)
Fixpoint Join (elems : list string) (sep : string) : string :=
  match elems with
  | [] => EmptyString
  | [e] => e
  | e :: rest => e +:+ sep +:+ Join rest sep
  end.

Definition slash : ascii := "/"%char.

End GoStrings.

Module GoPath.
Import GoStrings.

(** One step of [path.Clean] over the path elements: [acc] holds the
    elements kept so far, last one first. *)
Definition clean_step (rooted : bool) (acc : list string) (elem : string)
  : list string :=
  if String.eqb elem "" || String.eqb elem "." then acc
  else if String.eqb elem ".." then
    match acc with
    | top :: below =>
        if String.eqb top ".." then elem :: acc else below
    | [] => if rooted then acc else [elem]
    end
  else elem :: acc.

(** [path.Clean]: multiple slashes become one, ["."] elements go, an inner
    [".."] goes with the element before it, [".."] at the start of a rooted
    path goes; the empty result is ["."]. *)
Definition Clean (p : string) : string :=
  let rooted := HasPrefix p "/" in
  let kept := rev (fold_left (clean_step rooted) (Split p slash) []) in
  let body := Join kept "/" in
  if rooted then "/" +:+ body
  else if String.eqb body "" then "." else body.

(** The [dir] result of [path.Split]: everything up to and including the
    last slash. *)
Definition split_dir (p : string) : string :=
  match rev (Split p slash) with
  | _ :: before => Join (rev (EmptyString :: before)) "/"
  | [] => EmptyString
  end.

(** [path.Dir]. *)
Definition Dir (p : string) : string := Clean (split_dir p).

(** [path.Base]: the last element, trailing slashes removed first. *)
Definition Base (p : string) : string :=
  if String.eqb p "" then "."
  else
    match List.filter (fun e => negb (String.eqb e "")) (rev (Split p slash)) with
    | e :: _ => e
    | [] => "/"
    end.

End GoPath.

Module GoStrconv.

Definition digit_of (c : ascii) : option Z :=
  let n := Z.of_nat (nat_of_ascii c) in
  if (48 <=? n)%Z && (n <=? 57)%Z then Some (n - 48)%Z else None.

(** The digits of [s] read in base 10 from the value [acc]; [None] when a
    byte is not a digit. *)
Fixpoint parse_digits (s : string) (acc : Z) : option Z :=
  match s with
  | EmptyString => Some acc
  | String c s' =>
      match digit_of c with
      | Some d => parse_digits s' (10 * acc + d)%Z
      | None => None
      end
  end.

(** [strconv.ParseInt(s, 10, 64)]: the value and whether an error is
    returned with it. A syntax error gives 0; a value out of range gives
    the nearest bound of [int64], with an error. *)
Definition ParseInt (s : string) : Z * bool :=
  let '(neg, body) :=
    match s with
    | String "-" r => (true, r)
    | String "+" r => (false, r)
    | _ => (false, s)
    end in
  match body with
  | EmptyString => (0%Z, true)
  | _ =>
      match parse_digits body 0 with
      | None => (0%Z, true)
      | Some un =>
          let cutoff := (2 ^ 63)%Z in
          if negb neg && (cutoff <=? un)%Z then ((cutoff - 1)%Z, true)
          else if neg && (cutoff <? un)%Z then ((- cutoff)%Z, true)
          else ((if neg then - un else un)%Z, false)
      end
  end.

(** [strconv.FormatInt(n, 10)]. *)
Definition FormatInt (n : Z) : string :=
  DecimalString.NilZero.string_of_int (Z.to_int n).

End GoStrconv.

Import GoStrings GoPath GoStrconv.

(* ===================================================================== *)
(** * Programs over external calls *)
(* ===================================================================== *)

(** A program is a tree of calls to the environment: [Vis e k] performs the
    call [e] and continues with [k] applied to its answer. *)
Inductive Prog (E : Type -> Type) (R : Type) : Type :=
| Ret (r : R)
| Vis {X : Type} (e : E X) (k : X -> Prog E R).

Arguments Ret {E R} r.
Arguments Vis {E R X} e k.

Fixpoint bind {E : Type -> Type} {A B : Type}
  (p : Prog E A) (f : A -> Prog E B) : Prog E B :=
  match p with
  | Ret a => f a
  | Vis e k => Vis e (fun x => bind (k x) f)
  end.

Definition call {E : Type -> Type} {X : Type} (e : E X) : Prog E X :=
  Vis e Ret.

Notation "x <- c ;; k" := (bind c (fun x => k))
  (at level 100, c at next level, right associativity).

(** One performed call, with the answer it got. *)
Record Called (E : Type -> Type) : Type :=
  mkCall { call_type : Type; call_event : E call_type; call_answer : call_type }.

Arguments mkCall {E call_type} call_event call_answer.
Arguments call_type {E} c.
Arguments call_event {E} c.
Arguments call_answer {E} c.

(** The environment: it answers each call from its state [W]. *)
Definition Handler (E : Type -> Type) (W : Type) : Type :=
  forall X : Type, E X -> W -> X * W.

(** [run h p w]: the result of [p], the final state and the calls made, in
    order. *)
Fixpoint run {E : Type -> Type} {W R : Type}
  (h : Handler E W) (p : Prog E R) (w : W) : R * W * list (Called E) :=
  match p with
  | Ret r => (r, w, [])
  | Vis e k =>
      let '(x, w1) := h _ e w in
      let '(r, w2, t) := run h (k x) w1 in
      (r, w2, mkCall e x :: t)
  end.

(** How a Go function can end, beyond returning: a run-time panic, or (for a
    loop whose exit depends on the provider's answers) no exit within the
    given number of iterations. *)
Inductive Exec (A : Type) : Type :=
| Done (a : A)
| Panic
| OutOfFuel.

Arguments Done {A} a.
Arguments Panic {A}.
Arguments OutOfFuel {A}.

(* ===================================================================== *)
(** * Errors and results *)
(* ===================================================================== *)

(** Modelled from the spec: the error kinds of the storage contract
    (sections 4.1 and 7). No type of the repository declares them. *)
Inductive ErrorKind : Type := NotFound | InvalidArgument | Backend.

(** Go's [error] interface, by the dynamic types an error value reaching the
    adapters can have. Every value carries the text of its [Error()]. *)
Inductive error : Type :=
| MinioErrorResponse (Code Message : string)            (* minio.ErrorResponse *)
| OssServiceError (Code : string) (StatusCode : Z) (Message : string)
                                                       (* oss.ServiceError *)
| ObsError (Code : string) (Message : string)           (* obs.ObsError *)
| AzureResponseError (StatusCode : Z) (ErrorCode : string)
                                                       (* *azcore.ResponseError *)
| errorString (s : string)          (* errors.New: transport, context, ... *)
| wrapError (msg : string) (inner : error)          (* fmt.Errorf with %w *)
| taxonomyError (kind : ErrorKind) (msg : string).
    (* a value of one of the spec's kinds, were the code to produce one *)

(** [err.Error()]. *)
Definition Error (e : error) : string :=
  match e with
  | MinioErrorResponse _ m => m
  | OssServiceError _ _ m => m
  | ObsError _ m => m
  | AzureResponseError _ c => c
  | errorString s => s
  | wrapError m _ => m
  | taxonomyError _ m => m
  end.

(** A [(T, error)] pair of results. *)
Inductive Result (A : Type) : Type :=
| Ok (a : A)
| Err (e : error).

Arguments Ok {A} a.
Arguments Err {A} e.

Definition Reader : Type := string.
Definition Time : Type := string.

(* ===================================================================== *)
(** * The storage interface ([FileObject] and [Storage], package storage) *)
(* ===================================================================== *)

(** [FileObject]. A field left out of a composite literal has its zero
    value: [""], [0], the nil map, [false]. *)
Record FileObject : Type := mkFileObject {
  Name : string;
  Size : Z;
  ContentType : string;
  LastModified : string;
  Metadata : option (gmap string string);
  IsDir : bool
}.

(** The [Storage] interface. [List] and [ListDirectories] are the two
    methods with loops over provider answers. *)
Class Storage (E : Type -> Type) : Type := {
  Upload : string -> string -> Reader -> Z -> string -> Prog E (option error);
  Download : string -> string -> Prog E (Result Reader);
  Delete : string -> string -> Prog E (option error);
  List : string -> string -> Prog E (Exec (Result (list FileObject)));
  GetObjectInfo : string -> string -> Prog E (Result FileObject);
  CreateDirectory : string -> string -> Prog E (option error);
  ListDirectories :
    string -> string -> Prog E (Exec (Result (list FileObject)));
  EnsurePathExists : string -> string -> Prog E (option error)
}.

(** The record of a directory built by the [ListDirectories] of the OSS, OBS
    and Azure adapters:
    [FileObject{Name: n, Size: 0, ContentType: "application/directory",
    IsDir: true}]. *)
Definition directoryRecord (n : string) : FileObject :=
  {| Name := n; Size := 0; ContentType := "application/directory";
     LastModified := ""; Metadata := None; IsDir := true |}.

(** [if !strings.HasSuffix(name, "/") { name += "/" }]. *)
Definition withTrailingSlash (name : string) : string :=
  if negb (HasSuffix name "/") then name +:+ "/" else name.

(* ===================================================================== *)
(** * The MinIO adapter ([MinIOStorage], package storage) *)
(* ===================================================================== *)

(** The part of the minio-go client the adapter uses. *)
Module minio.

Record ObjectInfo : Type := mkObjectInfo {
  Key : string;
  Size : Z;
  ContentType : string;
  LastModified : Time;
  UserMetadata : option (gmap string string);
  Err : option error
}.

Record ListObjectsOptions : Type := mkListObjectsOptions {
  Prefix : string;
  Recursive : bool
}.

(** The calls on [*minio.Client]. [ListObjects] answers with the values
    delivered on its channel until the channel is closed. *)
Inductive Call : Type -> Type :=
| PutObject (bucket objectName : string) (reader : Reader) (size : Z)
            (contentType : string) : Call (option error)
| GetObject (bucket objectName : string) : Call (Result Reader)
| RemoveObject (bucket objectName : string) : Call (option error)
| ListObjects (bucket : string) (opts : ListObjectsOptions)
    : Call (list ObjectInfo)
| StatObject (bucket objectName : string) : Call (Result ObjectInfo).

(** [minio.ToErrorResponse(err).Code]: the code of an [ErrorResponse]
    value; an error of another type has none. *)
Definition ToErrorResponse_Code (err : error) : string :=
  match err with
  | MinioErrorResponse code _ => code
  | _ => ""
  end.

End minio.

Module MinIOStorage.

(** [convertMetadata]: a fresh map with the entries of [metadata]; ranging
    over the nil map makes no iteration. *)
Definition convertMetadata (metadata : option (gmap string string))
  : option (gmap string string) :=
  Some (map_fold (fun k v (result : gmap string string) => <[k := v]> result)
                 ∅ (default ∅ metadata)).

Definition Upload (bucket objectName : string) (reader : Reader) (size : Z)
  (contentType : string) : Prog minio.Call (option error) :=
  call (minio.PutObject bucket objectName reader size contentType).

Definition Download (bucket objectName : string)
  : Prog minio.Call (Result Reader) :=
  call (minio.GetObject bucket objectName).

Definition Delete (bucket objectName : string)
  : Prog minio.Call (option error) :=
  call (minio.RemoveObject bucket objectName).

(** The body of [for object := range objectCh] in [List]. *)
Fixpoint List_loop (objectCh : list minio.ObjectInfo)
  (objects : list FileObject) : Result (list FileObject) :=
  match objectCh with
  | [] => Ok objects
  | object :: rest =>
      match minio.Err object with
      | Some err => Err err
      | None =>
          List_loop rest
            (objects ++ [ {| Name := minio.Key object;
                             Size := minio.Size object;
                             ContentType := minio.ContentType object;
                             LastModified := minio.LastModified object;
                             Metadata :=
                               convertMetadata (minio.UserMetadata object);
                             IsDir := false |} ])
      end
  end.

Definition List (bucket prefix : string)
  : Prog minio.Call (Exec (Result (list FileObject))) :=
  let opts := {| minio.Prefix := prefix; minio.Recursive := true |} in
  objectCh <- call (minio.ListObjects bucket opts) ;;
  Ret (Done (List_loop objectCh [])).

Definition GetObjectInfo (bucket objectName : string)
  : Prog minio.Call (Result FileObject) :=
  r <- call (minio.StatObject bucket objectName) ;;
  match r with
  | Err err => Ret (Err err)
  | Ok info =>
      Ret (Ok {| Name := minio.Key info;
                 Size := minio.Size info;
                 ContentType := minio.ContentType info;
                 LastModified := minio.LastModified info;
                 Metadata := convertMetadata (minio.UserMetadata info);
                 IsDir := false |})
  end.

(** The body of the loop of [ListDirectories]. *)
Fixpoint ListDirectories_loop (objectCh : list minio.ObjectInfo)
  (dirs : list FileObject) : Result (list FileObject) :=
  match objectCh with
  | [] => Ok dirs
  | object :: rest =>
      match minio.Err object with
      | Some err => Err err
      | None =>
          if HasSuffix (minio.Key object) "/" then
            ListDirectories_loop rest
              (dirs ++ [ {| Name := minio.Key object;
                            Size := minio.Size object;
                            ContentType := minio.ContentType object;
                            LastModified := minio.LastModified object;
                            Metadata :=
                              convertMetadata (minio.UserMetadata object);
                            IsDir := true |} ])
          else ListDirectories_loop rest dirs
      end
  end.

Definition ListDirectories (bucket prefix : string)
  : Prog minio.Call (Exec (Result (list FileObject))) :=
  let opts := {| minio.Prefix := prefix; minio.Recursive := false |} in
  objectCh <- call (minio.ListObjects bucket opts) ;;
  Ret (Done (ListDirectories_loop objectCh [])).

Definition CreateDirectory (bucket objectName : string)
  : Prog minio.Call (option error) :=
  let objectName := withTrailingSlash objectName in
  call (minio.PutObject bucket objectName "" 0 "application/directory").

Definition EnsurePathExists (bucket objectPath : string)
  : Prog minio.Call (option error) :=
  let dir := Dir objectPath in
  if String.eqb dir "." || String.eqb dir "/" then Ret None
  else
    let dir := withTrailingSlash dir in
    r <- call (minio.StatObject bucket dir) ;;
    match r with
    | Ok _ => Ret None
    | Err err =>
        if negb (String.eqb (minio.ToErrorResponse_Code err) "NoSuchKey")
        then Ret (Some err)
        else CreateDirectory bucket dir
    end.

End MinIOStorage.

#[export] Instance MinIO_Storage : Storage minio.Call := {|
  Upload := MinIOStorage.Upload;
  Download := MinIOStorage.Download;
  Delete := MinIOStorage.Delete;
  List := MinIOStorage.List;
  GetObjectInfo := MinIOStorage.GetObjectInfo;
  CreateDirectory := MinIOStorage.CreateDirectory;
  ListDirectories := MinIOStorage.ListDirectories;
  EnsurePathExists := MinIOStorage.EnsurePathExists
|}.

(* ===================================================================== *)
(** * The OSS adapter ([OSSStorage], storage/oss.go) *)
(* ===================================================================== *)

(** The part of the Aliyun OSS client the adapter uses. *)
Module oss.

(** A [*oss.Bucket]: the handle [client.Bucket(name)] returns. *)
Definition Bucket : Type := string.

Inductive Option : Type :=
| ContentType (value : string)
| Prefix (value : string)
| MaxKeys (value : Z)
| Delimiter (value : string)
| Marker (value : string).

Record ObjectProperties : Type := mkObjectProperties {
  Key : string;
  Size : Z;
  Type_ : string;
  LastModified : Time
}.

Record ListObjectsResult : Type := mkListObjectsResult {
  Objects : list ObjectProperties;
  CommonPrefixes : list string;
  IsTruncated : bool;
  NextMarker : string
}.

(** [http.Header]. *)
Definition Header : Type := gmap string (list string).

(** [h.Get(key)] for a key in canonical form: the first value, or [""]. *)
Definition Header_Get (h : Header) (key : string) : string :=
  match h !! key with
  | Some (v :: _) => v
  | _ => ""
  end.

(** [*oss.Client]. [client.Bucket(name)] makes no request: it checks the
    name and wraps it; the check is the client's. *)
Record Client : Type := mkClient {
  CheckBucketName : string -> option error
}.

Definition GetBucket (client : Client) (bucketName : string)
  : Result Bucket :=
  match CheckBucketName client bucketName with
  | Some err => Err err
  | None => Ok bucketName
  end.

(** The requests made through a [*oss.Bucket]. *)
Inductive Call : Type -> Type :=
| PutObject (bucket : Bucket) (objectKey : string) (reader : Reader)
            (options : list Option) : Call (option error)
| GetObject (bucket : Bucket) (objectKey : string) : Call (Result Reader)
| DeleteObject (bucket : Bucket) (objectKey : string) : Call (option error)
| ListObjects (bucket : Bucket) (options : list Option)
    : Call (Result ListObjectsResult)
| GetObjectDetailedMeta (bucket : Bucket) (objectKey : string)
    : Call (Result Header).

(** [ossErr, ok := err.(oss.ServiceError)]: the code when the assertion
    holds. *)
Definition as_ServiceError (err : error) : option string :=
  match err with
  | OssServiceError code _ _ => Some code
  | _ => None
  end.

End oss.

Module OSSStorage.

Definition Upload (o : oss.Client) (bucketName objectName : string)
  (reader : Reader) (size : Z) (contentType : string)
  : Prog oss.Call (option error) :=
  match oss.GetBucket o bucketName with
  | Err err => Ret (Some err)
  | Ok bucket =>
      let options :=
        if negb (String.eqb contentType "")
        then [oss.ContentType contentType] else [] in
      call (oss.PutObject bucket objectName reader options)
  end.

Definition Download (o : oss.Client) (bucketName objectName : string)
  : Prog oss.Call (Result Reader) :=
  match oss.GetBucket o bucketName with
  | Err err => Ret (Err err)
  | Ok bucket => call (oss.GetObject bucket objectName)
  end.

Definition Delete (o : oss.Client) (bucketName objectName : string)
  : Prog oss.Call (option error) :=
  match oss.GetBucket o bucketName with
  | Err err => Ret (Some err)
  | Ok bucket => call (oss.DeleteObject bucket objectName)
  end.

(** The record [List] appends for one listed object. *)
Definition fileRecord (object : oss.ObjectProperties) : FileObject :=
  {| Name := oss.Key object;
     Size := oss.Size object;
     ContentType := oss.Type_ object;
     LastModified := oss.LastModified object;
     Metadata := Some ∅;
     IsDir := false |}.

Definition List (o : oss.Client) (bucket prefix : string)
  : Prog oss.Call (Exec (Result (list FileObject))) :=
  match oss.GetBucket o bucket with
  | Err err => Ret (Done (Err err))
  | Ok bucketClient =>
      r <- call (oss.ListObjects bucketClient
                   [oss.Prefix prefix; oss.MaxKeys 1000]) ;;
      match r with
      | Err err => Ret (Done (Err err))
      | Ok lsRes =>
          Ret (Done (Ok (fold_left (fun objects object =>
                                      objects ++ [fileRecord object])
                                   (oss.Objects lsRes) [])))
      end
  end.

(** The metadata map of [GetObjectInfo]:
    [for k, v := range props { if len(v) > 0 { metadata[k] = v[0] } }]. *)
Definition headerMetadata (props : oss.Header) : gmap string string :=
  map_fold (fun k v (metadata : gmap string string) =>
              match v with
              | v0 :: _ => <[k := v0]> metadata
              | [] => metadata
              end) ∅ props.

Definition GetObjectInfo (o : oss.Client) (bucketName objectName : string)
  : Prog oss.Call (Result FileObject) :=
  match oss.GetBucket o bucketName with
  | Err err => Ret (Err err)
  | Ok bucket =>
      r <- call (oss.GetObjectDetailedMeta bucket objectName) ;;
      match r with
      | Err err => Ret (Err err)
      | Ok props =>
          let contentLength :=
            fst (ParseInt (oss.Header_Get props "Content-Length")) in
          Ret (Ok {| Name := objectName;
                     Size := contentLength;
                     ContentType := oss.Header_Get props "Content-Type";
                     LastModified := oss.Header_Get props "Last-Modified";
                     Metadata := Some (headerMetadata props);
                     IsDir := false |})
      end
  end.

Definition CreateDirectory (o : oss.Client) (bucket objectName : string)
  : Prog oss.Call (option error) :=
  match oss.GetBucket o bucket with
  | Err err => Ret (Some err)
  | Ok bucketClient =>
      let objectName := withTrailingSlash objectName in
      call (oss.PutObject bucketClient objectName ""
              [oss.ContentType "application/directory"])
  end.

(** The [for] loop of [ListDirectories]: one [ListObjects] request per
    iteration, from [marker]; it ends when an answer is not truncated. *)
Fixpoint ListDirectories_loop (fuel : nat) (bucketClient : oss.Bucket)
  (prefix marker : string) (dirs : list FileObject)
  : Prog oss.Call (Exec (Result (list FileObject))) :=
  match fuel with
  | O => Ret OutOfFuel
  | S fuel' =>
      r <- call (oss.ListObjects bucketClient
                   [oss.Prefix prefix; oss.Delimiter "/"; oss.Marker marker]) ;;
      match r with
      | Err err => Ret (Done (Err err))
      | Ok lsRes =>
          let dirs :=
            fold_left (fun dirs prefix => dirs ++ [directoryRecord prefix])
                      (oss.CommonPrefixes lsRes) dirs in
          if oss.IsTruncated lsRes
          then ListDirectories_loop fuel' bucketClient prefix
                                    (oss.NextMarker lsRes) dirs
          else Ret (Done (Ok dirs))
      end
  end.

Definition ListDirectories (fuel : nat) (o : oss.Client)
  (bucket prefix : string)
  : Prog oss.Call (Exec (Result (list FileObject))) :=
  match oss.GetBucket o bucket with
  | Err err => Ret (Done (Err err))
  | Ok bucketClient => ListDirectories_loop fuel bucketClient prefix "" []
  end.

Definition EnsurePathExists (o : oss.Client) (bucket objectPath : string)
  : Prog oss.Call (option error) :=
  let dir := Dir objectPath in
  if String.eqb dir "." || String.eqb dir "/" then Ret None
  else
    let dir := withTrailingSlash dir in
    match oss.GetBucket o bucket with
    | Err err => Ret (Some err)
    | Ok bucketClient =>
        r <- call (oss.GetObjectDetailedMeta bucketClient dir) ;;
        match r with
        | Ok _ => Ret None
        | Err err =>
            match oss.as_ServiceError err with
            | Some code =>
                if String.eqb code "NoSuchKey"
                then CreateDirectory o bucket dir
                else Ret (Some err)
            | None => Ret (Some err)
            end
        end
    end.

End OSSStorage.

(** The OSS adapter as a [Storage]; [fuel] bounds the iterations of the
    loop of [ListDirectories]. *)
#[export] Instance OSS_Storage (o : oss.Client) (fuel : nat)
  : Storage oss.Call := {|
  Upload := OSSStorage.Upload o;
  Download := OSSStorage.Download o;
  Delete := OSSStorage.Delete o;
  List := OSSStorage.List o;
  GetObjectInfo := OSSStorage.GetObjectInfo o;
  CreateDirectory := OSSStorage.CreateDirectory o;
  ListDirectories := OSSStorage.ListDirectories fuel o;
  EnsurePathExists := OSSStorage.EnsurePathExists o
|}.

(* ===================================================================== *)
(** * The OBS adapter ([OBStorage], package storage) *)
(* ===================================================================== *)

(** The part of the Huawei Cloud OBS client the adapter uses. *)
Module obs.

Record PutObjectInput : Type := mkPutObjectInput {
  put_Bucket : string;
  put_Key : string;
  put_Body : Reader;
  put_ContentType : string
}.

Record ListObjectsInput : Type := mkListObjectsInput {
  ls_Bucket : string;
  ls_Prefix : string;
  ls_Delimiter : string
}.

Record Content : Type := mkContent {
  Key : string;
  Size : Z;
  StorageClass : string;
  LastModified : Time
}.

Record ListObjectsOutput : Type := mkListObjectsOutput {
  Contents : list Content;
  CommonPrefixes : list string
}.

Record GetObjectMetadataOutput : Type := mkGetObjectMetadataOutput {
  ContentType : string;
  ContentLength : Z;
  md_LastModified : Time
}.

Inductive Call : Type -> Type :=
| PutObject (input : PutObjectInput) : Call (option error)
| GetObject (bucket key : string) : Call (Result Reader)
| DeleteObject (bucket key : string) : Call (option error)
| ListObjects (input : ListObjectsInput) : Call (Result ListObjectsOutput)
| GetObjectMetadata (bucket key : string)
    : Call (Result GetObjectMetadataOutput).

(** [obsError, ok := err.(obs.ObsError)]: the code when the assertion
    holds. *)
Definition as_ObsError (err : error) : option string :=
  match err with
  | ObsError code _ => Some code
  | _ => None
  end.

End obs.

Module OBStorage.

Definition Upload (bucketName objectName : string) (reader : Reader)
  (size : Z) (contentType : string) : Prog obs.Call (option error) :=
  let inputContentType :=
    if negb (String.eqb contentType "") then contentType else "" in
  call (obs.PutObject {| obs.put_Bucket := bucketName;
                         obs.put_Key := objectName;
                         obs.put_Body := reader;
                         obs.put_ContentType := inputContentType |}).

Definition Download (bucketName objectName : string)
  : Prog obs.Call (Result Reader) :=
  r <- call (obs.GetObject bucketName objectName) ;;
  match r with
  | Err err => Ret (Err err)
  | Ok body => Ret (Ok body)
  end.

Definition Delete (bucketName objectName : string)
  : Prog obs.Call (option error) :=
  call (obs.DeleteObject bucketName objectName).

(** The record [List] appends for one listed object. *)
Definition fileRecord (object : obs.Content) : FileObject :=
  let contentType := obs.StorageClass object in
  let contentType :=
    if String.eqb contentType "" then "application/octet-stream"
    else contentType in
  {| Name := obs.Key object;
     Size := obs.Size object;
     ContentType := contentType;
     LastModified := obs.LastModified object;
     Metadata := Some ∅;
     IsDir := false |}.

Definition List (bucketName prefix : string)
  : Prog obs.Call (Exec (Result (list FileObject))) :=
  r <- call (obs.ListObjects {| obs.ls_Bucket := bucketName;
                                obs.ls_Prefix := prefix;
                                obs.ls_Delimiter := "" |}) ;;
  match r with
  | Err err => Ret (Done (Err err))
  | Ok output =>
      Ret (Done (Ok (fold_left (fun objects object =>
                                  objects ++ [fileRecord object])
                               (obs.Contents output) [])))
  end.

Definition GetObjectInfo (bucketName objectName : string)
  : Prog obs.Call (Result FileObject) :=
  r <- call (obs.GetObjectMetadata bucketName objectName) ;;
  match r with
  | Err err => Ret (Err err)
  | Ok output =>
      let contentType := obs.ContentType output in
      let contentType :=
        if String.eqb contentType "" then "application/octet-stream"
        else contentType in
      Ret (Ok {| Name := objectName;
                 Size := obs.ContentLength output;
                 ContentType := contentType;
                 LastModified := obs.md_LastModified output;
                 Metadata := Some ∅;
                 IsDir := false |})
  end.

Definition ListDirectories (bucket prefix : string)
  : Prog obs.Call (Exec (Result (list FileObject))) :=
  r <- call (obs.ListObjects {| obs.ls_Bucket := bucket;
                                obs.ls_Prefix := prefix;
                                obs.ls_Delimiter := "/" |}) ;;
  match r with
  | Err err => Ret (Done (Err err))
  | Ok result =>
      Ret (Done (Ok (fold_left (fun dirs prefixInfo =>
                                  dirs ++ [directoryRecord prefixInfo])
                               (obs.CommonPrefixes result) [])))
  end.

Definition CreateDirectory (bucket objectName : string)
  : Prog obs.Call (option error) :=
  let objectName := withTrailingSlash objectName in
  call (obs.PutObject {| obs.put_Bucket := bucket;
                         obs.put_Key := objectName;
                         obs.put_Body := "";
                         obs.put_ContentType := "application/directory" |}).

Definition EnsurePathExists (bucket objectPath : string)
  : Prog obs.Call (option error) :=
  let dir := Dir objectPath in
  if String.eqb dir "." || String.eqb dir "/" then Ret None
  else
    let dir := withTrailingSlash dir in
    r <- call (obs.GetObjectMetadata bucket dir) ;;
    match r with
    | Ok _ => Ret None
    | Err err =>
        match obs.as_ObsError err with
        | Some code =>
            if String.eqb code "NoSuchKey" || String.eqb code "404"
            then CreateDirectory bucket dir
            else Ret (Some err)
        | None => Ret (Some err)
        end
    end.

End OBStorage.

#[export] Instance OBS_Storage : Storage obs.Call := {|
  Upload := OBStorage.Upload;
  Download := OBStorage.Download;
  Delete := OBStorage.Delete;
  List := OBStorage.List;
  GetObjectInfo := OBStorage.GetObjectInfo;
  CreateDirectory := OBStorage.CreateDirectory;
  ListDirectories := OBStorage.ListDirectories;
  EnsurePathExists := OBStorage.EnsurePathExists
|}.

(* ===================================================================== *)
(** * The Azure adapter ([AzureStorage], storage/azure.go) *)
(* ===================================================================== *)

(** The part of the Azure Blob client the adapter uses. Fields of pointer
    type are options, [None] being nil. *)
Module azblob.

Record BlobProperties : Type := mkBlobProperties {
  ContentType : option string;
  LastModified : option Time;
  ContentLength : option Z
}.

Record BlobItem : Type := mkBlobItem {
  Name : option string;
  Properties : option BlobProperties
}.

Record ListBlobsFlatResponse : Type := mkListBlobsFlatResponse {
  BlobItems : list BlobItem;
  NextMarker : option string
}.

(** The calls that reach the service or the clock. [ListBlobsFlatSegment] is
    the request a pager sends for one page: the first with no marker, each
    later one with the [NextMarker] of the page before. *)
Inductive Call : Type -> Type :=
| UploadStream (containerName blobName : string) (body : Reader)
               (blobContentType : option string) : Call (option error)
| DownloadStream (containerName blobName : string) : Call (Result Reader)
| DeleteBlob (containerName blobName : string) : Call (option error)
| ListBlobsFlatSegment (containerName prefix : string)
                       (marker : option string)
    : Call (Result ListBlobsFlatResponse)
| GetProperties (containerName blobName : string)
    : Call (Result BlobProperties)
| UploadBuffer (containerName blobName : string) (buffer : string)
               (blobContentType : string) : Call (option error)
| Now : Call Time.

(** A pager of [NewListBlobsFlatPager]: the page it last fetched. *)
Record Pager : Type := mkPager {
  pager_container : string;
  pager_prefix : string;
  current : option ListBlobsFlatResponse
}.

Definition NewListBlobsFlatPager (containerName prefix : string) : Pager :=
  {| pager_container := containerName; pager_prefix := prefix;
     current := None |}.

(** [pager.More()]: true before the first page, then while the last page
    names a next marker. *)
Definition More (p : Pager) : bool :=
  match current p with
  | None => true
  | Some page =>
      match NextMarker page with
      | Some m => negb (String.eqb m "")
      | None => false
      end
  end.

(** [pager.NextPage(ctx)]: fetch the page after the current one. *)
Definition NextPage (p : Pager)
  : Prog Call (Result ListBlobsFlatResponse * Pager) :=
  let marker :=
    match current p with
    | None => None
    | Some page => NextMarker page
    end in
  r <- call (ListBlobsFlatSegment (pager_container p) (pager_prefix p)
                                  marker) ;;
  match r with
  | Err err => Ret (Err err, p)
  | Ok resp =>
      Ret (Ok resp, {| pager_container := pager_container p;
                       pager_prefix := pager_prefix p;
                       current := Some resp |})
  end.

(** [errors.As(err, &respErr)] for [*azcore.ResponseError]: the status code
    of the first such error in the chain of [err]. *)
Fixpoint as_ResponseError (err : error) : option Z :=
  match err with
  | AzureResponseError status _ => Some status
  | wrapError _ inner => as_ResponseError inner
  | _ => None
  end.

End azblob.

Module AzureStorage.

Definition Upload (containerName blobName : string) (reader : Reader)
  (size : Z) (contentType : string) : Prog azblob.Call (option error) :=
  let blobContentType :=
    if negb (String.eqb contentType "") then Some contentType else None in
  call (azblob.UploadStream containerName blobName reader blobContentType).

Definition Download (containerName blobName : string)
  : Prog azblob.Call (Result Reader) :=
  r <- call (azblob.DownloadStream containerName blobName) ;;
  match r with
  | Err err => Ret (Err err)
  | Ok body => Ret (Ok body)
  end.

Definition Delete (containerName blobName : string)
  : Prog azblob.Call (option error) :=
  call (azblob.DeleteBlob containerName blobName).

(** The body of [for _, blob := range resp.Segment.BlobItems] in [List].
    [None] is the panic of dereferencing a nil [blob.Properties] or a nil
    [blob.Name]. *)
Fixpoint List_items (items : list azblob.BlobItem)
  (objects : list FileObject) : Prog azblob.Call (option (list FileObject)) :=
  match items with
  | [] => Ret (Some objects)
  | blob :: rest =>
      match azblob.Properties blob with
      | None => Ret None
      | Some props =>
          let contentType :=
            match azblob.ContentType props with
            | Some ct => ct
            | None => "application/octet-stream"
            end in
          now <- call azblob.Now ;;
          let lastModified :=
            match azblob.LastModified props with
            | Some t => t
            | None => now
            end in
          let size :=
            match azblob.ContentLength props with
            | Some n => n
            | None => 0%Z
            end in
          match azblob.Name blob with
          | None => Ret None
          | Some name =>
              List_items rest
                (objects ++ [ {| Name := name;
                                 Size := size;
                                 ContentType := contentType;
                                 LastModified := lastModified;
                                 Metadata := Some ∅;
                                 IsDir := false |} ])
          end
      end
  end.

(** The loop [for pager.More() { ... }] of [List]. *)
Fixpoint List_loop (fuel : nat) (pager : azblob.Pager)
  (objects : list FileObject)
  : Prog azblob.Call (Exec (Result (list FileObject))) :=
  match fuel with
  | O => Ret OutOfFuel
  | S fuel' =>
      if azblob.More pager then
        rp <- azblob.NextPage pager ;;
        match rp with
        | (Err err, _) => Ret (Done (Err err))
        | (Ok resp, pager') =>
            r <- List_items (azblob.BlobItems resp) objects ;;
            match r with
            | None => Ret Panic
            | Some objects' => List_loop fuel' pager' objects'
            end
        end
      else Ret (Done (Ok objects))
  end.

Definition List (fuel : nat) (containerName prefix : string)
  : Prog azblob.Call (Exec (Result (list FileObject))) :=
  let pager := azblob.NewListBlobsFlatPager containerName prefix in
  List_loop fuel pager [].

Definition GetObjectInfo (containerName blobName : string)
  : Prog azblob.Call (Result FileObject) :=
  r <- call (azblob.GetProperties containerName blobName) ;;
  match r with
  | Err err => Ret (Err err)
  | Ok resp =>
      let contentType :=
        match azblob.ContentType resp with
        | Some ct => ct
        | None => "application/octet-stream"
        end in
      now <- call azblob.Now ;;
      let lastModified :=
        match azblob.LastModified resp with
        | Some t => t
        | None => now
        end in
      let size :=
        match azblob.ContentLength resp with
        | Some n => n
        | None => 0%Z
        end in
      Ret (Ok {| Name := blobName;
                 Size := size;
                 ContentType := contentType;
                 LastModified := lastModified;
                 Metadata := Some ∅;
                 IsDir := false |})
  end.

(** The directory paths [ListDirectories] derives from one blob name:
    [strings.Join(parts[:i], "/") + "/"] for [i] from 1 to [len(parts) - 1],
    when there is more than one part. *)
Definition parentDirs (name : string) : list string :=
  let parts := Split name slash in
  if Nat.ltb 1 (length parts)
  then map (fun i => Join (take i parts) "/" +:+ "/")
           (seq 1 (length parts - 1))
  else [].

(** [if !dirMap[dirPath] { dirMap[dirPath] = true; dirs = append(...) }]. *)
Definition addDir (st : gmap string bool * list FileObject)
  (dirPath : string) : gmap string bool * list FileObject :=
  let '(dirMap, dirs) := st in
  if negb (default false (dirMap !! dirPath))
  then (<[dirPath := true]> dirMap, dirs ++ [directoryRecord dirPath])
  else (dirMap, dirs).

(** The body of [for _, blob := range resp.Segment.BlobItems] in
    [ListDirectories]. *)
Definition ListDirectories_items (items : list azblob.BlobItem)
  (st : gmap string bool * list FileObject)
  : gmap string bool * list FileObject :=
  fold_left (fun st blob =>
               match azblob.Name blob with
               | Some name => fold_left addDir (parentDirs name) st
               | None => st
               end) items st.

Fixpoint ListDirectories_loop (fuel : nat) (pager : azblob.Pager)
  (st : gmap string bool * list FileObject)
  : Prog azblob.Call (Exec (Result (list FileObject))) :=
  match fuel with
  | O => Ret OutOfFuel
  | S fuel' =>
      if azblob.More pager then
        rp <- azblob.NextPage pager ;;
        match rp with
        | (Err err, _) => Ret (Done (Err err))
        | (Ok resp, pager') =>
            ListDirectories_loop fuel' pager'
              (ListDirectories_items (azblob.BlobItems resp) st)
        end
      else Ret (Done (Ok (snd st)))
  end.

Definition ListDirectories (fuel : nat) (bucket prefix : string)
  : Prog azblob.Call (Exec (Result (list FileObject))) :=
  let pager := azblob.NewListBlobsFlatPager bucket prefix in
  ListDirectories_loop fuel pager (∅, []).

Definition CreateDirectory (bucket objectName : string)
  : Prog azblob.Call (option error) :=
  let objectName := withTrailingSlash objectName in
  call (azblob.UploadBuffer bucket objectName "" "application/directory").

Definition EnsurePathExists (bucket objectPath : string)
  : Prog azblob.Call (option error) :=
  let dir := Dir objectPath in
  if String.eqb dir "." || String.eqb dir "/" then Ret None
  else
    let dir := withTrailingSlash dir in
    r <- call (azblob.DownloadStream bucket dir) ;;
    match r with
    | Ok _ => Ret None
    | Err err =>
        match azblob.as_ResponseError err with
        | Some status =>
            if Z.eqb status 404 then CreateDirectory bucket dir
            else Ret (Some err)
        | None => Ret (Some err)
        end
    end.

End AzureStorage.

(** The Azure adapter as a [Storage]; [fuel] bounds the iterations of the
    pager loops of [List] and [ListDirectories]. *)
#[export] Instance Azure_Storage (fuel : nat) : Storage azblob.Call := {|
  Upload := AzureStorage.Upload;
  Download := AzureStorage.Download;
  Delete := AzureStorage.Delete;
  List := AzureStorage.List fuel;
  GetObjectInfo := AzureStorage.GetObjectInfo;
  CreateDirectory := AzureStorage.CreateDirectory;
  ListDirectories := AzureStorage.ListDirectories fuel;
  EnsurePathExists := AzureStorage.EnsurePathExists
|}.

(* ===================================================================== *)
(** * api/server.go *)
(* ===================================================================== *)

(** The [Config] fields the handlers read. *)
Module config.

Record Config : Type := mkConfig {
  Storage_Type : string;
  Storage_Bucket : string
}.

End config.

(** What a handler gets from [*gin.Context] about the request. Each lookup
    gives [""] when the parameter, query value or header is absent. *)
Module gin.

Record Context : Type := mkContext {
  Param : string -> string;
  Query : string -> string;
  GetHeader : string -> string;
  Request_Body : Reader
}.

(** The [gin.H] values the handlers send. *)
Inductive H : Type :=
| H_error (error : string)
| H_health (status storage : string)
| H_message (message bucket object : string)
| H_objects (bucket prefix : string) (objects : list FileObject)
| H_deleted (bucket prefix : string) (deleted errors : list string).

End gin.

Module api.

(** The calls a handler makes: the methods of [s.storage] (a
    [storage.Storage]), the response side of the gin context, the zip
    writer over the response, [io.Copy] and [Close]. *)
Inductive Call : Type -> Type :=
| StorageEnsurePathExists (bucket objectPath : string) : Call (option error)
| StorageUpload (bucket objectName : string) (reader : Reader) (size : Z)
                (contentType : string) : Call (option error)
| StorageDownload (bucket objectName : string) : Call (Result Reader)
| StorageDelete (bucket objectName : string) : Call (option error)
| StorageList (bucket prefix : string) : Call (Result (list FileObject))
| StorageGetObjectInfo (bucket objectName : string)
    : Call (Result FileObject)
| Printf (text : string) : Call unit
| Header (key value : string) : Call unit
| JSON (code : Z) (obj : gin.H) : Call unit
| Status (code : Z) : Call unit
| ZipCreate (name : string) : Call (option error)
| ZipCopy (name : string) (reader : Reader) : Call (option error)
| ZipClose : Call unit
| CopyToResponse (reader : Reader) : Call (option error)
| ReaderClose (reader : Reader) : Call unit.

Definition StatusOK : Z := 200.
Definition StatusBadRequest : Z := 400.
Definition StatusInternalServerError : Z := 500.

Record Server : Type := mkServer {
  server_config : config.Config
}.

(** The handlers of the server, by name. *)
Inductive HandlerFunc : Type :=
| healthCheck_
| uploadFile_
| downloadFile_
| deleteObjects_
| deleteFile_
| listObjects_
| getObjectInfo_.

(** One registered route: method, path pattern, whether it is in the group
    behind [AuthMiddleware], and its handler. *)
Record Route : Type := mkRoute {
  route_method : string;
  route_path : string;
  route_authorized : bool;
  route_handler : HandlerFunc
}.

(** [registerRoutes]: the routes in the order they are registered. *)
Definition registerRoutes : list Route :=
  [ mkRoute "GET" "/health" false healthCheck_;
    mkRoute "POST" "/upload/:bucket/*object" true uploadFile_;
    mkRoute "GET" "/download/:bucket/*object" true downloadFile_;
    mkRoute "DELETE" "/delete/:bucket/*object" true deleteFile_;
    mkRoute "GET" "/list/:bucket" true listObjects_;
    mkRoute "GET" "/list/" true listObjects_;
    mkRoute "HEAD" "/info/:bucket/*object" true getObjectInfo_ ].

(** The handler the engine runs for a request: that of the registered route
    with the request's method whose pattern matches the path (the first
    one, should several match). [matches] is the router's pattern
    matching. *)
Definition dispatch (matches : string -> string -> bool)
  (routes : list Route) (method path : string) : option HandlerFunc :=
  match List.filter (fun r => String.eqb (route_method r) method
                         && matches (route_path r) path) routes with
  | r :: _ => Some (route_handler r)
  | [] => None
  end.

Definition healthCheck (s : Server) (c : gin.Context) : Prog Call unit :=
  call (JSON StatusOK
          (gin.H_health "ok" (config.Storage_Type (server_config s)))).

(** [if strings.HasPrefix(object, "/") { object = object[1:] }]. *)
Definition stripLeadingSlash (object : string) : string :=
  if HasPrefix object "/" then drop_bytes 1 object else object.

Definition uploadFile (s : Server) (c : gin.Context) : Prog Call unit :=
  let bucket := gin.Param c "bucket" in
  let object := gin.Param c "object" in
  let object := stripLeadingSlash object in
  _ <- call (Printf ("Upload request - Bucket: " +:+ bucket +:+ ", Object: "
                     +:+ object +:+ String "010"%char "")) ;;
  r <- call (StorageEnsurePathExists bucket object) ;;
  match r with
  | Some err =>
      call (JSON StatusInternalServerError
              (gin.H_error ("Failed to ensure path exists: " +:+ Error err)))
  | None =>
      let contentType := gin.GetHeader c "Content-Type" in
      let contentType :=
        if String.eqb contentType "" then "application/octet-stream"
        else contentType in
      let contentLengthStr := gin.GetHeader c "Content-Length" in
      let parsed :=
        if negb (String.eqb contentLengthStr "")
        then ParseInt contentLengthStr else (0%Z, false) in
      if snd parsed then
        call (JSON StatusBadRequest
                (gin.H_error "Invalid Content-Length header"))
      else
        let contentLength := fst parsed in
        r <- call (StorageUpload bucket object (gin.Request_Body c)
                                 contentLength contentType) ;;
        match r with
        | Some err =>
            call (JSON StatusInternalServerError
                    (gin.H_error ("Failed to upload file: " +:+ Error err)))
        | None =>
            call (JSON StatusOK
                    (gin.H_message "File uploaded successfully" bucket object))
        end
  end.

(** [bucket := c.Param("bucket"); if bucket == "" { bucket =
    s.config.Storage.Bucket }]. *)
Definition bucketOrDefault (s : Server) (c : gin.Context) : string :=
  let bucket := gin.Param c "bucket" in
  if String.eqb bucket "" then config.Storage_Bucket (server_config s)
  else bucket.

(** The loop of the directory download: one iteration per listed object.
    [Panic] is the slice expression [obj.Name[len(prefix):]] out of range. *)
Fixpoint archiveObjects (bucket prefix : string) (objects : list FileObject)
  : Prog Call (Exec unit) :=
  match objects with
  | [] => Ret (Done tt)
  | obj :: rest =>
      if IsDir obj || HasSuffix (Name obj) "/" then
        archiveObjects bucket prefix rest
      else
        r <- call (StorageDownload bucket (Name obj)) ;;
        match r with
        | Err _ => archiveObjects bucket prefix rest
        | Ok reader =>
            match slice_from (Name obj) (String.length prefix) with
            | None => Ret Panic
            | Some entryName =>
                zr <- call (ZipCreate entryName) ;;
                match zr with
                | Some _ =>
                    _ <- call (ReaderClose reader) ;;
                    archiveObjects bucket prefix rest
                | None =>
                    cr <- call (ZipCopy entryName reader) ;;
                    _ <- call (ReaderClose reader) ;;
                    match cr with
                    | Some _ => archiveObjects bucket prefix rest
                    | None => archiveObjects bucket prefix rest
                    end
                end
            end
        end
  end.

(** The double quote, for the [Content-Disposition] header. *)
Definition quote : string := String "034"%char "".

Definition downloadFile (s : Server) (c : gin.Context)
  : Prog Call (Exec unit) :=
  let bucket := bucketOrDefault s c in
  let object := gin.Param c "object" in
  let object := stripLeadingSlash object in
  let isDirectory := String.eqb (gin.Query c "directory") "true" in
  if isDirectory then
    let prefix := object in
    let prefix :=
      if negb (String.eqb prefix "") && negb (HasSuffix prefix "/")
      then prefix +:+ "/" else prefix in
    r <- call (StorageList bucket prefix) ;;
    match r with
    | Err err =>
        _ <- call (JSON StatusInternalServerError
                     (gin.H_error ("Failed to list objects: " +:+ Error err))) ;;
        Ret (Done tt)
    | Ok objects =>
        _ <- call (Header "Content-Type" "application/zip") ;;
        _ <- call (Header "Content-Disposition"
                     ("attachment; filename=" +:+ quote
                      +:+ Base (TrimSuffix prefix "/") +:+ ".zip" +:+ quote)) ;;
        r <- archiveObjects bucket prefix objects ;;
        _ <- call ZipClose ;;
        Ret r
    end
  else
    r <- call (StorageDownload bucket object) ;;
    match r with
    | Err err =>
        _ <- call (JSON StatusInternalServerError
                     (gin.H_error ("Failed to download file: " +:+ Error err))) ;;
        Ret (Done tt)
    | Ok reader =>
        r <- call (StorageGetObjectInfo bucket object) ;;
        match r with
        | Err err =>
            _ <- call (JSON StatusInternalServerError
                         (gin.H_error ("Failed to get file info: "
                                       +:+ Error err))) ;;
            _ <- call (ReaderClose reader) ;;
            Ret (Done tt)
        | Ok info =>
            _ <- call (Header "Content-Type" (ContentType info)) ;;
            cr <- call (CopyToResponse reader) ;;
            match cr with
            | Some err =>
                _ <- call (JSON StatusInternalServerError
                             (gin.H_error ("Failed to stream file: "
                                           +:+ Error err))) ;;
                _ <- call (ReaderClose reader) ;;
                Ret (Done tt)
            | None =>
                _ <- call (ReaderClose reader) ;;
                Ret (Done tt)
            end
        end
    end.

(** The loop of [deleteObjects]: [deleted] and [errors] as appended to so
    far. *)
Fixpoint deleteEach (bucket : string) (objects : list FileObject)
  (deleted errors : list string) : Prog Call (list string * list string) :=
  match objects with
  | [] => Ret (deleted, errors)
  | obj :: rest =>
      r <- call (StorageDelete bucket (Name obj)) ;;
      match r with
      | Some err =>
          deleteEach bucket rest deleted
            (errors ++ ["Failed to delete " +:+ Name obj +:+ ": "
                        +:+ Error err])
      | None =>
          deleteEach bucket rest (deleted ++ [Name obj]) errors
      end
  end.

Definition deleteObjects (s : Server) (c : gin.Context) : Prog Call unit :=
  let bucket := bucketOrDefault s c in
  let prefix := gin.Param c "prefix" in
  let prefix := stripLeadingSlash prefix in
  r <- call (StorageList bucket prefix) ;;
  match r with
  | Err err =>
      call (JSON StatusInternalServerError
              (gin.H_error ("Failed to list objects: " +:+ Error err)))
  | Ok objects =>
      de <- deleteEach bucket objects [] [] ;;
      call (JSON StatusOK (gin.H_deleted bucket prefix (fst de) (snd de)))
  end.

Definition deleteFile (s : Server) (c : gin.Context) : Prog Call unit :=
  let bucket := bucketOrDefault s c in
  let object := gin.Param c "object" in
  let object := stripLeadingSlash object in
  r <- call (StorageDelete bucket object) ;;
  match r with
  | Some err =>
      call (JSON StatusInternalServerError
              (gin.H_error ("Failed to delete file: " +:+ Error err)))
  | None =>
      call (JSON StatusOK
              (gin.H_message "File deleted successfully" bucket object))
  end.

Definition listObjects (s : Server) (c : gin.Context) : Prog Call unit :=
  let bucket := bucketOrDefault s c in
  let prefix := gin.Query c "prefix" in
  let prefix :=
    if String.eqb prefix "" then stripLeadingSlash (gin.Param c "prefix")
    else prefix in
  r <- call (StorageList bucket prefix) ;;
  match r with
  | Err err =>
      call (JSON StatusInternalServerError
              (gin.H_error ("Failed to list objects: " +:+ Error err)))
  | Ok objects =>
      call (JSON StatusOK (gin.H_objects bucket prefix objects))
  end.

(** [for key, value := range info.Metadata { c.Header("X-Meta-"+key,
    value) }]; Go fixes no order for the iteration, the entries are taken
    here in the order of [map_to_list]. *)
Fixpoint metadataHeaders (entries : list (string * string))
  : Prog Call unit :=
  match entries with
  | [] => Ret tt
  | (key, value) :: rest =>
      _ <- call (Header ("X-Meta-" +:+ key) value) ;;
      metadataHeaders rest
  end.

Definition getObjectInfo (s : Server) (c : gin.Context) : Prog Call unit :=
  let bucket := bucketOrDefault s c in
  let object := gin.Param c "object" in
  let object := stripLeadingSlash object in
  r <- call (StorageGetObjectInfo bucket object) ;;
  match r with
  | Err err =>
      call (JSON StatusInternalServerError
              (gin.H_error ("Failed to get object info: " +:+ Error err)))
  | Ok info =>
      _ <- call (Header "Content-Type" (ContentType info)) ;;
      _ <- call (Header "Content-Length" (FormatInt (Size info))) ;;
      _ <- call (Header "Last-Modified" (LastModified info)) ;;
      _ <- metadataHeaders (map_to_list (default ∅ (Metadata info))) ;;
      call (Status StatusOK)
  end.

(** The function behind each handler name. *)
Definition handlerOf (f : HandlerFunc) (s : Server) (c : gin.Context)
  : Prog Call (Exec unit) :=
  match f with
  | healthCheck_ => _ <- healthCheck s c ;; Ret (Done tt)
  | uploadFile_ => _ <- uploadFile s c ;; Ret (Done tt)
  | downloadFile_ => downloadFile s c
  | deleteObjects_ => _ <- deleteObjects s c ;; Ret (Done tt)
  | deleteFile_ => _ <- deleteFile s c ;; Ret (Done tt)
  | listObjects_ => _ <- listObjects s c ;; Ret (Done tt)
  | getObjectInfo_ => _ <- getObjectInfo s c ;; Ret (Done tt)
  end.

End api.

(* ===================================================================== *)
(** * Reading a trace of provider calls *)
(* ===================================================================== *)

(** What a provider call asks of the object store, whichever SDK it belongs
    to. [OpLocal] is a call that sends no request (the clock). *)
Inductive StoreOp : Type :=
| OpStat (bucket key : string)
| OpGet (bucket key : string)
| OpPut (bucket key : string) (content contentType : string)
| OpDelete (bucket key : string)
| OpList (bucket prefix : string)
| OpLocal.

Definition result_errors {A : Type} (r : Result A) : list error :=
  match r with
  | Ok _ => []
  | Err e => [e]
  end.

(** For each SDK: the store operation of a call, and the error values its
    answer carries. *)
Class Provider (E : Type -> Type) : Type := {
  call_op : Called E -> StoreOp;
  call_errors : Called E -> list error
}.

#[export] Instance minio_Provider : Provider minio.Call := {|
  call_op c :=
    match call_event c with
    | minio.PutObject b k body _ ct => OpPut b k body ct
    | minio.GetObject b k => OpGet b k
    | minio.RemoveObject b k => OpDelete b k
    | minio.ListObjects b opts => OpList b (minio.Prefix opts)
    | minio.StatObject b k => OpStat b k
    end;
  call_errors c :=
    match call_event c in minio.Call X return X -> list error with
    | minio.PutObject _ _ _ _ _ => option_list
    | minio.GetObject _ _ => result_errors
    | minio.RemoveObject _ _ => option_list
    | minio.ListObjects _ _ => omap minio.Err
    | minio.StatObject _ _ => result_errors
    end (call_answer c)
|}.

(** The values of the options of an OSS request. *)
Definition oss_prefix (options : list oss.Option) : string :=
  default "" (head (omap (fun o => match o with
                                   | oss.Prefix v => Some v
                                   | _ => None
                                   end) options)).

Definition oss_delimiter (options : list oss.Option) : string :=
  default "" (head (omap (fun o => match o with
                                   | oss.Delimiter v => Some v
                                   | _ => None
                                   end) options)).

Definition oss_marker (options : list oss.Option) : string :=
  default "" (head (omap (fun o => match o with
                                   | oss.Marker v => Some v
                                   | _ => None
                                   end) options)).

Definition oss_maxKeys (options : list oss.Option) : option Z :=
  head (omap (fun o => match o with
                       | oss.MaxKeys v => Some v
                       | _ => None
                       end) options).

Definition oss_contentType (options : list oss.Option) : string :=
  default "" (head (omap (fun o => match o with
                                   | oss.ContentType v => Some v
                                   | _ => None
                                   end) options)).

#[export] Instance oss_Provider : Provider oss.Call := {|
  call_op c :=
    match call_event c with
    | oss.PutObject b k body options =>
        OpPut b k body (oss_contentType options)
    | oss.GetObject b k => OpGet b k
    | oss.DeleteObject b k => OpDelete b k
    | oss.ListObjects b options => OpList b (oss_prefix options)
    | oss.GetObjectDetailedMeta b k => OpStat b k
    end;
  call_errors c :=
    match call_event c in oss.Call X return X -> list error with
    | oss.PutObject _ _ _ _ => option_list
    | oss.GetObject _ _ => result_errors
    | oss.DeleteObject _ _ => option_list
    | oss.ListObjects _ _ => result_errors
    | oss.GetObjectDetailedMeta _ _ => result_errors
    end (call_answer c)
|}.

#[export] Instance obs_Provider : Provider obs.Call := {|
  call_op c :=
    match call_event c with
    | obs.PutObject input =>
        OpPut (obs.put_Bucket input) (obs.put_Key input)
              (obs.put_Body input) (obs.put_ContentType input)
    | obs.GetObject b k => OpGet b k
    | obs.DeleteObject b k => OpDelete b k
    | obs.ListObjects input => OpList (obs.ls_Bucket input) (obs.ls_Prefix input)
    | obs.GetObjectMetadata b k => OpStat b k
    end;
  call_errors c :=
    match call_event c in obs.Call X return X -> list error with
    | obs.PutObject _ => option_list
    | obs.GetObject _ _ => result_errors
    | obs.DeleteObject _ _ => option_list
    | obs.ListObjects _ => result_errors
    | obs.GetObjectMetadata _ _ => result_errors
    end (call_answer c)
|}.

#[export] Instance azblob_Provider : Provider azblob.Call := {|
  call_op c :=
    match call_event c with
    | azblob.UploadStream cn b body ct => OpPut cn b body (default "" ct)
    | azblob.DownloadStream cn b => OpGet cn b
    | azblob.DeleteBlob cn b => OpDelete cn b
    | azblob.ListBlobsFlatSegment cn p _ => OpList cn p
    | azblob.GetProperties cn b => OpStat cn b
    | azblob.UploadBuffer cn b buffer ct => OpPut cn b buffer ct
    | azblob.Now => OpLocal
    end;
  call_errors c :=
    match call_event c in azblob.Call X return X -> list error with
    | azblob.UploadStream _ _ _ _ => option_list
    | azblob.DownloadStream _ _ => result_errors
    | azblob.DeleteBlob _ _ => option_list
    | azblob.ListBlobsFlatSegment _ _ _ => result_errors
    | azblob.GetProperties _ _ => result_errors
    | azblob.UploadBuffer _ _ _ _ => option_list
    | azblob.Now => fun _ => []
    end (call_answer c)
|}.

(** The operations of a trace with the errors answered, and the writes
    among them. *)
Definition trace_ops {E : Type -> Type} `{Provider E} (t : list (Called E))
  : list (StoreOp * list error) :=
  map (fun c => (call_op c, call_errors c)) t.

Definition is_write (op : StoreOp) : bool :=
  match op with
  | OpPut _ _ _ _ => true
  | OpDelete _ _ => true
  | _ => false
  end.

Definition trace_writes {E : Type -> Type} `{Provider E} (t : list (Called E))
  : list StoreOp :=
  List.filter is_write (map call_op t).

(** The error a provider reports for a key that does not exist, as each
    SDK presents it. *)
Definition minio_notFound (e : error) : bool :=
  match e with
  | MinioErrorResponse code _ => String.eqb code "NoSuchKey"
  | _ => false
  end.

Definition oss_notFound (e : error) : bool :=
  match e with
  | OssServiceError code _ _ => String.eqb code "NoSuchKey"
  | _ => false
  end.

Definition obs_notFound (e : error) : bool :=
  match e with
  | ObsError code _ => String.eqb code "NoSuchKey" || String.eqb code "404"
  | _ => false
  end.

Definition azblob_notFound (e : error) : bool :=
  match azblob.as_ResponseError e with
  | Some status => Z.eqb status 404
  | None => false
  end.


Definition is_provider_error (e : error) : bool :=
  match e with
  | MinioErrorResponse _ _ => true
  | OssServiceError _ _ _ => true
  | ObsError _ _ => true
  | AzureResponseError _ _ => true
  | _ => false
  end.



(* ===================================================================== *)
(** * An in-memory object store, answering the calls of each SDK *)
(* ===================================================================== *)

(** A store with the behaviour the adapters expect of a provider: a written
    object is visible to the next request, keys are listed in order, and a
    listing is cut into pages of at most [pageLimit] entries. *)
Module MemStore.

Record Object : Type := mkObject {
  body : string;
  contentType : string;
  modified : Time
}.

Record World : Type := mkWorld {
  objects : gmap (string * string) Object;
  pageLimit : nat;
  clock : Time
}.

Definition put (bucket key : string) (o : Object) (w : World) : World :=
  {| objects := <[(bucket, key) := o]> (objects w);
     pageLimit := pageLimit w; clock := clock w |}.

Definition remove (bucket key : string) (w : World) : World :=
  {| objects := delete (bucket, key) (objects w);
     pageLimit := pageLimit w; clock := clock w |}.

Definition get (bucket key : string) (w : World) : option Object :=
  objects w !! (bucket, key).

(** The keys of [bucket] that start with [prefix], in order. *)
Definition keys (bucket prefix : string) (w : World) : list string :=
  merge_sort String.le
    (omap (fun '((b, k), _) =>
             if String.eqb b bucket && HasPrefix k prefix then Some k
             else None)
          (map_to_list (objects w))).

(** A listing with the delimiter ["/"]: a key with a slash after the prefix
    is replaced by its common prefix, which is listed once. *)
Definition commonPrefix (prefix key : string) : option string :=
  match Split (drop_bytes (String.length prefix) key) slash with
  | first :: _ :: _ => Some (prefix +:+ first +:+ "/")
  | _ => None
  end.

Definition grouped (prefix : string) (ks : list string) : list string :=
  remove_dups (map (fun k => default k (commonPrefix prefix k)) ks).

(** Whether an entry of a grouped listing is an object, not a common
    prefix. *)
Definition isObject (prefix : string) (delimited : bool) (entry : string)
  : bool :=
  negb delimited || negb (bool_decide (is_Some (commonPrefix prefix entry))).

(** The page of [entries] after [marker]: at most [limit] entries, and
    whether more follow. *)
Definition pageAfter (marker : string) (limit : nat) (entries : list string)
  : list string * bool :=
  let rest := List.filter (fun k => String.ltb marker k) entries in
  (take limit rest, Nat.ltb limit (length rest)).

Definition sizeOf (o : Object) : Z := Z.of_nat (String.length (body o)).

Definition stored (bucket : string) (w : World) (key : string) : Object :=
  default (mkObject "" "" "") (get bucket key w).

(** ** MinIO *)

Definition minio_missing : error :=
  MinioErrorResponse "NoSuchKey" "The specified key does not exist.".

Definition minio_info (bucket : string) (w : World) (key : string)
  : minio.ObjectInfo :=
  let o := stored bucket w key in
  {| minio.Key := key; minio.Size := sizeOf o;
     minio.ContentType := contentType o; minio.LastModified := modified o;
     minio.UserMetadata := None; minio.Err := None |}.

Definition minio_handler : Handler minio.Call World :=
  fun X e =>
    match e in minio.Call X return World -> X * World with
    | minio.PutObject b k reader _ ct =>
        fun w => (None, put b k (mkObject reader ct (clock w)) w)
    | minio.GetObject b k =>
        fun w => (match get b k w with
                  | Some o => Ok (body o)
                  | None => Err minio_missing
                  end, w)
    | minio.RemoveObject b k => fun w => (None, remove b k w)
    | minio.ListObjects b opts =>
        fun w =>
          let ks := keys b (minio.Prefix opts) w in
          let entries :=
            if minio.Recursive opts then ks
            else grouped (minio.Prefix opts) ks in
          (map (minio_info b w) entries, w)
    | minio.StatObject b k =>
        fun w => (match get b k w with
                  | Some _ => Ok (minio_info b w k)
                  | None => Err minio_missing
                  end, w)
    end.

(** ** OSS *)

Definition oss_missing : error :=
  OssServiceError "NoSuchKey" 404 "The specified key does not exist.".

(** The name check of [client.Bucket]: 3 to 63 bytes, each a lower-case
    letter, a digit or a hyphen, no hyphen first or last. *)
Definition oss_nameByte (c : ascii) : bool :=
  let n := nat_of_ascii c in
  (Nat.leb 97 n && Nat.leb n 122) || (Nat.leb 48 n && Nat.leb n 57)
  || Nat.eqb n 45.

Definition oss_client : oss.Client :=
  {| oss.CheckBucketName name :=
       let bytes := list_ascii_of_string name in
       if Nat.leb 3 (length bytes) && Nat.leb (length bytes) 63
          && forallb oss_nameByte bytes
          && negb (HasPrefix name "-") && negb (HasSuffix name "-")
       then None
       else Some (errorString ("bucket name " +:+ name +:+ " is invalid")) |}.

Definition oss_header (o : Object) : oss.Header :=
  {[ "Content-Length" := [FormatInt (sizeOf o)];
     "Content-Type" := [contentType o];
     "Last-Modified" := [modified o] ]}.

Definition oss_properties (bucket : string) (w : World) (key : string)
  : oss.ObjectProperties :=
  let o := stored bucket w key in
  {| oss.Key := key; oss.Size := sizeOf o; oss.Type_ := "Normal";
     oss.LastModified := modified o |}.

Definition oss_listing (b : oss.Bucket) (options : list oss.Option)
  (w : World) : oss.ListObjectsResult :=
  let prefix := oss_prefix options in
  let ks := keys b prefix w in
  let delimited := String.eqb (oss_delimiter options) "/" in
  let entries := if delimited then grouped prefix ks else ks in
  let limit :=
    match oss_maxKeys options with
    | Some n => Z.to_nat n
    | None => pageLimit w
    end in
  let '(page, truncated) := pageAfter (oss_marker options) limit entries in
  {| oss.Objects :=
       map (oss_properties b w)
           (List.filter (isObject prefix delimited) page);
     oss.CommonPrefixes :=
       List.filter (fun k => negb (isObject prefix delimited k)) page;
     oss.IsTruncated := truncated;
     oss.NextMarker := if truncated then default "" (last page) else "" |}.

Definition oss_handler : Handler oss.Call World :=
  fun X e =>
    match e in oss.Call X return World -> X * World with
    | oss.PutObject b k reader options =>
        fun w =>
          (None, put b k (mkObject reader (oss_contentType options)
                                   (clock w)) w)
    | oss.GetObject b k =>
        fun w => (match get b k w with
                  | Some o => Ok (body o)
                  | None => Err oss_missing
                  end, w)
    | oss.DeleteObject b k => fun w => (None, remove b k w)
    | oss.ListObjects b options => fun w => (Ok (oss_listing b options w), w)
    | oss.GetObjectDetailedMeta b k =>
        fun w => (match get b k w with
                  | Some o => Ok (oss_header o)
                  | None => Err oss_missing
                  end, w)
    end.

(** ** OBS *)

Definition obs_missing : error :=
  ObsError "NoSuchKey" "The specified key does not exist.".

Definition obs_content (bucket : string) (w : World) (key : string)
  : obs.Content :=
  let o := stored bucket w key in
  {| obs.Key := key; obs.Size := sizeOf o; obs.StorageClass := "STANDARD";
     obs.LastModified := modified o |}.

Definition obs_listing (input : obs.ListObjectsInput) (w : World)
  : obs.ListObjectsOutput :=
  let prefix := obs.ls_Prefix input in
  let ks := keys (obs.ls_Bucket input) prefix w in
  let delimited := String.eqb (obs.ls_Delimiter input) "/" in
  let entries := if delimited then grouped prefix ks else ks in
  let page := take (pageLimit w) entries in
  {| obs.Contents :=
       map (obs_content (obs.ls_Bucket input) w)
           (List.filter (isObject prefix delimited) page);
     obs.CommonPrefixes :=
       List.filter (fun k => negb (isObject prefix delimited k)) page |}.

Definition obs_handler : Handler obs.Call World :=
  fun X e =>
    match e in obs.Call X return World -> X * World with
    | obs.PutObject input =>
        fun w =>
          (None, put (obs.put_Bucket input) (obs.put_Key input)
                     (mkObject (obs.put_Body input)
                               (obs.put_ContentType input) (clock w)) w)
    | obs.GetObject b k =>
        fun w => (match get b k w with
                  | Some o => Ok (body o)
                  | None => Err obs_missing
                  end, w)
    | obs.DeleteObject b k => fun w => (None, remove b k w)
    | obs.ListObjects input => fun w => (Ok (obs_listing input w), w)
    | obs.GetObjectMetadata b k =>
        fun w => (match get b k w with
                  | Some o =>
                      Ok {| obs.ContentType := contentType o;
                            obs.ContentLength := sizeOf o;
                            obs.md_LastModified := modified o |}
                  | None => Err obs_missing
                  end, w)
    end.

(** ** Azure *)

Definition azblob_missing : error := AzureResponseError 404 "BlobNotFound".

Definition azblob_properties (o : Object) : azblob.BlobProperties :=
  {| azblob.ContentType := Some (contentType o);
     azblob.LastModified := Some (modified o);
     azblob.ContentLength := Some (sizeOf o) |}.

Definition azblob_listing (cn prefix : string) (marker : option string)
  (w : World) : azblob.ListBlobsFlatResponse :=
  let '(page, truncated) :=
    pageAfter (default "" marker) (pageLimit w) (keys cn prefix w) in
  {| azblob.BlobItems :=
       map (fun k => {| azblob.Name := Some k;
                        azblob.Properties :=
                          Some (azblob_properties (stored cn w k)) |}) page;
     azblob.NextMarker := if truncated then last page else None |}.

Definition azblob_handler : Handler azblob.Call World :=
  fun X e =>
    match e in azblob.Call X return World -> X * World with
    | azblob.UploadStream cn b reader ct =>
        fun w =>
          (None, put cn b (mkObject reader
                             (default "application/octet-stream" ct)
                             (clock w)) w)
    | azblob.DownloadStream cn b =>
        fun w => (match get cn b w with
                  | Some o => Ok (body o)
                  | None => Err azblob_missing
                  end, w)
    | azblob.DeleteBlob cn b =>
        fun w => (match get cn b w with
                  | Some _ => None
                  | None => Some azblob_missing
                  end, remove cn b w)
    | azblob.ListBlobsFlatSegment cn prefix marker =>
        fun w => (Ok (azblob_listing cn prefix marker w), w)
    | azblob.GetProperties cn b =>
        fun w => (match get cn b w with
                  | Some o => Ok (azblob_properties o)
                  | None => Err azblob_missing
                  end, w)
    | azblob.UploadBuffer cn b buffer ct =>
        fun w => (None, put cn b (mkObject buffer ct (clock w)) w)
    | azblob.Now => fun w => (clock w, w)
    end.

(** A store holding the given keys of one bucket, each with the body
    ["data"]. *)
Definition withKeys (bucket : string) (ks : list string) (limit : nat)
  : World :=
  {| objects :=
       list_to_map (map (fun k => ((bucket, k),
                                   mkObject "data" "text/plain"
                                            "2024-01-01T00:00:00Z")) ks);
     pageLimit := limit;
     clock := "2024-01-02T00:00:00Z" |}.

End MemStore.

(* ===================================================================== *)
(** * Reading a trace of handler calls *)
(* ===================================================================== *)

Module ApiTrace.
Import api.

(** The bucket a call passes to the storage, for the calls that are storage
    operations. *)
Definition storageBucket (c : Called api.Call) : option string :=
  match call_event c with
  | StorageEnsurePathExists b _ => Some b
  | StorageUpload b _ _ _ _ => Some b
  | StorageDownload b _ => Some b
  | StorageDelete b _ => Some b
  | StorageList b _ => Some b
  | StorageGetObjectInfo b _ => Some b
  | _ => None
  end.

(** A call that is not a storage operation, or one addressed to
    [bucket]. *)
Definition addressedTo (bucket : string) (c : Called api.Call) : bool :=
  match storageBucket c with
  | Some b => String.eqb b bucket
  | None => true
  end.

(** Every storage operation of the trace is addressed to [bucket], and there
    is at least one. *)
Definition allStorageCallsUse (bucket : string) (t : list (Called api.Call))
  : bool :=
  forallb (addressedTo bucket) t
  && existsb (fun c => match storageBucket c with
                       | Some _ => true
                       | None => false
                       end) t.


(** The object names [Download] was called for. *)
Definition downloadsAttempted (t : list (Called api.Call)) : list string :=
  omap (fun c =>
          match call_event c with
          | StorageDownload _ name => Some name
          | _ => None
          end) t.

(** The streams the [Download] calls returned. *)
Definition readersOpened (t : list (Called api.Call)) : list Reader :=
  omap (fun c =>
          match call_event c in api.Call X return X -> option Reader with
          | StorageDownload _ _ =>
              fun r => match r with Ok reader => Some reader | Err _ => None end
          | _ => fun _ => None
          end (call_answer c)) t.

(** The streams closed. *)
Definition readersClosed (t : list (Called api.Call)) : list Reader :=
  omap (fun c =>
          match call_event c with
          | ReaderClose reader => Some reader
          | _ => None
          end) t.

(** The responses sent with [c.JSON]. *)
Definition jsonSent (t : list (Called api.Call)) : list (Z * gin.H) :=
  omap (fun c =>
          match call_event c with
          | JSON code obj => Some (code, obj)
          | _ => None
          end) t.




(** The object's name without its first [len(prefix)] bytes. *)
Definition entryName (prefix : string) (o : FileObject) : string :=
  drop_bytes (String.length prefix) (Name o).

(** The prefix the directory download lists under. *)
Definition archivePrefix (c : gin.Context) : string :=
  let object := stripLeadingSlash (gin.Param c "object") in
  if negb (String.eqb object "") && negb (HasSuffix object "/")
  then object +:+ "/" else object.



(** The report of a prefix delete, from the answers the [Delete] calls got:
    the names deleted, and one message per failed deletion. *)
Definition deletedNames (objects : list FileObject)
  (answers : list (option error)) : list string :=
  omap (fun '(o, r) => match r with
                       | None => Some (Name o)
                       | Some _ => None
                       end) (zip objects answers).

Definition deleteErrors (objects : list FileObject)
  (answers : list (option error)) : list string :=
  omap (fun '(o, r) => match r with
                       | None => None
                       | Some err =>
                           Some ("Failed to delete " +:+ Name o +:+ ": "
                                 +:+ Error err)
                       end) (zip objects answers).

Definition deleteCalls (bucket : string) (objects : list FileObject)
  (answers : list (option error)) : list (Called api.Call) :=
  zip_with (fun o r => mkCall (StorageDelete bucket (Name o)) r)
           objects answers.

End ApiTrace.

(** A storage and response sink for the handlers, scripted by its state:
    the records a listing returns, the bodies that can be downloaded, the
    names whose deletion fails, the entry names the zip writer refuses. *)
Module Scripted.
Import api.

Record World : Type := mkWorld {
  listing : list FileObject;
  bodies : gmap string string;
  locked : list string;
  refused : list string
}.

Definition handler : Handler api.Call World :=
  fun X e =>
    match e in api.Call X return World -> X * World with
    | StorageEnsurePathExists _ _ => fun w => (None, w)
    | StorageUpload _ name reader _ _ =>
        fun w => (None, {| listing := listing w;
                           bodies := <[name := reader]> (bodies w);
                           locked := locked w; refused := refused w |})
    | StorageDownload _ name =>
        fun w => (match bodies w !! name with
                  | Some b => Ok b
                  | None => Err (errorString "object not found")
                  end, w)
    | StorageDelete _ name =>
        fun w =>
          if existsb (String.eqb name) (locked w)
          then (Some (errorString "access denied"), w)
          else (None, {| listing :=
                           List.filter
                             (fun o => negb (String.eqb (Name o) name))
                             (listing w);
                         bodies := delete name (bodies w);
                         locked := locked w; refused := refused w |})
    | StorageList _ prefix =>
        fun w => (Ok (List.filter (fun o => HasPrefix (Name o) prefix)
                                  (listing w)), w)
    | StorageGetObjectInfo _ name =>
        fun w =>
          (match List.find (fun o => String.eqb (Name o) name) (listing w) with
           | Some o => Ok o
           | None => Err (errorString "object not found")
           end, w)
    | Printf _ => fun w => (tt, w)
    | Header _ _ => fun w => (tt, w)
    | JSON _ _ => fun w => (tt, w)
    | Status _ => fun w => (tt, w)
    | ZipCreate name =>
        fun w =>
          (if existsb (String.eqb name) (refused w)
           then Some (errorString "zip: entry refused") else None, w)
    | ZipCopy _ reader =>
        fun w =>
          (if String.eqb reader ""
           then Some (errorString "unexpected EOF") else None, w)
    | ZipClose => fun w => (tt, w)
    | CopyToResponse _ => fun w => (None, w)
    | ReaderClose _ => fun w => (tt, w)
    end.

Definition file (name : string) : FileObject :=
  {| Name := name; Size := 4; ContentType := "text/plain";
     LastModified := "2024-01-01T00:00:00Z"; Metadata := Some ∅;
     IsDir := false |}.

(** A request with the given path parameters and query values. *)
Definition request (params query : list (string * string)) : gin.Context :=
  {| gin.Param name :=
       default "" (snd <$> List.find (fun kv => String.eqb (fst kv) name)
                                     params);
     gin.Query name :=
       default "" (snd <$> List.find (fun kv => String.eqb (fst kv) name)
                                     query);
     gin.GetHeader _ := "";
     gin.Request_Body := "hello" |}.

Definition server : Server :=
  {| server_config :=
       {| config.Storage_Type := "minio"; config.Storage_Bucket := "test" |} |}.

(** A bucket with two files and the marker under ["a/"], a file that is
    listed but can no longer be downloaded, and a file elsewhere; one file
    cannot be deleted. *)
Definition sample : World :=
  {| listing := [file "a/x.txt"; file "a/y.txt"; file "a/";
                 file "a/gone.txt"; file "b.txt"];
     bodies := {[ "a/x.txt" := "xx"; "a/y.txt" := "yy" ]};
     locked := ["a/y.txt"];
     refused := [] |}.

Definition sampleUnderA : list FileObject :=
  [file "a/x.txt"; file "a/y.txt"; file "a/"; file "a/gone.txt"].



End Scripted.

(* ===================================================================== *)
(** * Properties of the storage contract, for any adapter *)
(* ===================================================================== *)

(** Sample stores. *)
Module Samples.

(** A bucket with the files [a/x.txt] and [a/y.txt], the marker [a/], a
    blob with an empty path segment and a file at the top; listings come in
    pages of two. *)
Definition small : MemStore.World :=
  MemStore.withKeys "bkt" ["a/x.txt"; "a/y.txt"; "a/"; "b//c"; "top.txt"] 2.

(** A bucket with one file in one directory. *)
Definition oneFile : MemStore.World :=
  MemStore.withKeys "bkt" ["a/x.txt"] 1000.

(** The keys [obj/10000] to [obj/11000]: 1001 objects under [obj/]. *)
Definition manyKeys : list string :=
  map (fun i => "obj/" +:+ FormatInt (10000 + Z.of_nat i)) (seq 0 1001).

Definition many : MemStore.World := MemStore.withKeys "bkt" manyKeys 1000.

End Samples.





(** A name that ends with one slash and not with two. *)
Definition endsWithOneSlash (name : string) : bool :=
  HasSuffix name "/" && negb (HasSuffix name "//").

(** No path segment of [name] other than the last is empty: the name does
    not start with a slash and has no two slashes in a row. *)
Definition noEmptySegment (name : string) : bool :=
  let parts := Split name slash in
  forallb (fun part => negb (String.eqb part ""))
          (take (length parts - 1) parts).

(** Whether the byte [c] occurs in [s]. *)
Fixpoint hasByte (c : ascii) (s : string) : bool :=
  match s with
  | EmptyString => false
  | String d s' => Ascii.eqb d c || hasByte c s'
  end.

(** The pages a trace of the Azure client fetched, and the blob names
    listed in them. *)
Definition pagesFetched (t : list (Called azblob.Call))
  : list azblob.ListBlobsFlatResponse :=
  omap (fun c =>
          match call_event c in azblob.Call X
                return X -> option azblob.ListBlobsFlatResponse with
          | azblob.ListBlobsFlatSegment _ _ _ =>
              fun r => match r with Ok page => Some page | Err _ => None end
          | _ => fun _ => None
          end (call_answer c)) t.

Definition blobNames (pages : list azblob.ListBlobsFlatResponse)
  : list string :=
  flat_map (fun page => omap azblob.Name (azblob.BlobItems page)) pages.

(** The common prefixes the OSS answers of a trace carried, and those of the
    OBS answers. *)
Definition ossCommonPrefixes (t : list (Called oss.Call)) : list string :=
  flat_map (fun c =>
              match call_event c in oss.Call X return X -> list string with
              | oss.ListObjects _ _ =>
                  fun r => match r with
                           | Ok lsRes => oss.CommonPrefixes lsRes
                           | Err _ => []
                           end
              | _ => fun _ => []
              end (call_answer c)) t.


(** The keys the MinIO listings of a trace delivered. *)
Definition minioKeys (t : list (Called minio.Call)) : list string :=
  flat_map (fun c =>
              match call_event c in minio.Call X return X -> list string with
              | minio.ListObjects _ _ => map minio.Key
              | _ => fun _ => []
              end (call_answer c)) t.

(** How [EnsurePathExists] can go once the parent is not the root: the
    marker is found by the probe; the probe reports the key missing and the
    marker is written; the probe fails otherwise and its error is
    returned. *)
Inductive EnsureOutcome (probe create : StoreOp) (notFound : error -> bool)
  : list (StoreOp * list error) -> option error -> Prop :=
| ensure_found :
    EnsureOutcome probe create notFound [(probe, [])] None
| ensure_created (e : error) (r : option error) :
    notFound e = true ->
    EnsureOutcome probe create notFound
      [(probe, [e]); (create, option_list r)] r
| ensure_failed (e : error) :
    notFound e = false ->
    EnsureOutcome probe create notFound [(probe, [e])] (Some e).

Definition isRootDir (dir : string) : bool :=
  String.eqb dir "." || String.eqb dir "/".

(** [EnsurePathExists] on any provider: nothing is called for a parent that
    is ["."] or ["/"], nor when the SDK rejects the bucket name ([precheck]);
    otherwise the marker key is the parent made to end with ["/"], the
    probe is [probe bucket key] and the write, if any, puts the empty
    object of type [application/directory] at that key. *)
Definition EnsuresPath {E : Type -> Type} `{Provider E} (S : Storage E)
  (probe : string -> string -> StoreOp) (notFound : error -> bool)
  (precheck : string -> option error) : Prop :=
  forall (W : Type) (h : Handler E W) (w : W) (bucket objectPath : string),
    let dir := Dir objectPath in
    let key := withTrailingSlash dir in
    let res := (run h (EnsurePathExists bucket objectPath) w).1.1 in
    let w' := (run h (EnsurePathExists bucket objectPath) w).1.2 in
    let t := (run h (EnsurePathExists bucket objectPath) w).2 in
    if isRootDir dir then res = None /\ w' = w /\ t = []
    else
      match precheck bucket with
      | Some e => res = Some e /\ w' = w /\ t = []
      | None =>
          EnsureOutcome (probe bucket key)
            (OpPut bucket key "" "application/directory") notFound
            (trace_ops t) res
      end.

(** Two calls in a row on the in-memory store: the second one changes
    nothing and writes nothing, the two together write at most once, and
    after them the marker is in the store unless the first call did not get
    as far as the probe. *)
Definition EnsureIdempotent {E : Type -> Type} `{Provider E} (S : Storage E)
  (handler : Handler E MemStore.World) (precheck : string -> option error)
  : Prop :=
  forall (w : MemStore.World) (bucket objectPath : string),
    let first := run handler (EnsurePathExists bucket objectPath) w in
    let second := run handler (EnsurePathExists bucket objectPath) first.1.2 in
    second.1.2 = first.1.2 /\
    trace_writes second.2 = [] /\
    length (trace_writes (first.2 ++ second.2)) <= 1 /\
    (isRootDir (Dir objectPath) = false -> precheck bucket = None ->
     first.1.1 = None /\ second.1.1 = None /\
     is_Some (MemStore.get bucket (withTrailingSlash (Dir objectPath))
                           first.1.2)).

(** The state of the loop of the Azure [ListDirectories], [due] being the
    directory paths derived from the blob names gone through so far: the
    map holds exactly the names recorded, no name is recorded twice, and
    the records are the directory records of the paths due, each of them
    recorded. *)
Definition DirState (due : list string)
  (st : gmap string bool * list FileObject) : Prop :=
  (forall n : string,
      default false (st.1 !! n) = true <-> In n (map Name st.2)) /\
  NoDup (map Name st.2) /\
  Forall (fun d => d = directoryRecord (Name d)) st.2 /\
  (forall n : string, In n (map Name st.2) <-> In n due).

(** The directory paths of the blob names of a listing. *)
Definition directoriesOf (names : list string) : list string :=
  flat_map AzureStorage.parentDirs names.

(** [ListDirectories] of the Azure adapter: the names returned are the
    parent paths of the blob names listed, each once; so every name ends
    with a slash, and with one slash only when no blob name listed has an
    empty path segment before its last. *)
Definition AzureDirectoryNames : Prop :=
  forall (fuel : nat) (W : Type) (h : Handler azblob.Call W) (w : W)
         (bucket prefix : string) (dirs : list FileObject),
    let r := run h (ListDirectories (Storage := Azure_Storage fuel)
                                    bucket prefix) w in
    r.1.1 = Done (Ok dirs) ->
    NoDup (map Name dirs) /\
    (forall n : string,
        In n (map Name dirs)
        <-> In n (directoriesOf (blobNames (pagesFetched r.2)))) /\
    Forall (fun d => HasSuffix (Name d) "/" = true) dirs /\
    (forallb noEmptySegment (blobNames (pagesFetched r.2)) = true ->
     Forall (fun d => endsWithOneSlash (Name d) = true) dirs).





(** The first call of [EnsurePathExists], for a parent that is not the
    root, is a metadata request for the marker key: the claim of the probe,
    as stated. *)
Definition ProbesWithStat {E : Type -> Type} `{Provider E} (S : Storage E)
  : Prop :=
  forall (W : Type) (h : Handler E W) (w : W) (bucket objectPath : string),
    isRootDir (Dir objectPath) = false ->
    head (map call_op (run h (EnsurePathExists bucket objectPath) w).2)
    = Some (OpStat bucket (withTrailingSlash (Dir objectPath))).

(* ===================================================================== *)
(** * Paging *)
(* ===================================================================== *)

(** Whether a page of blobs names a page after it. *)
Definition pageHasNext (page : azblob.ListBlobsFlatResponse) : bool :=
  match azblob.NextMarker page with
  | Some m => negb (String.eqb m "")
  | None => false
  end.

(** [pager.More()] for a pager whose last page is [cur]. *)
Definition moreAfter (cur : option azblob.ListBlobsFlatResponse) : bool :=
  match cur with
  | None => true
  | Some page => pageHasNext page
  end.

(** Each page of [pages] was fetched because the page before it ([cur] for
    the first) named a next page. *)
Fixpoint chainFrom (cur : option azblob.ListBlobsFlatResponse)
  (pages : list azblob.ListBlobsFlatResponse) : bool :=
  match pages with
  | [] => true
  | page :: rest => moreAfter cur && chainFrom (Some page) rest
  end.

(** The markers of the requests for [pages]: that of [cur], then that of
    each page for the request after it. *)
Fixpoint markersFrom (cur : option azblob.ListBlobsFlatResponse)
  (pages : list azblob.ListBlobsFlatResponse) : list (option string) :=
  match pages with
  | [] => []
  | page :: rest =>
      match cur with
      | None => None
      | Some c => azblob.NextMarker c
      end :: markersFrom (Some page) rest
  end.

(** The last page fetched, [cur] if none was. *)
Definition lastPage (cur : option azblob.ListBlobsFlatResponse)
  (pages : list azblob.ListBlobsFlatResponse)
  : option azblob.ListBlobsFlatResponse :=
  match last pages with
  | Some page => Some page
  | None => cur
  end.

(** The markers of the page requests of a trace that were answered with a
    page. *)
Definition markersRequested (t : list (Called azblob.Call))
  : list (option string) :=
  omap (fun c =>
          match call_event c in azblob.Call X
                return X -> option (option string) with
          | azblob.ListBlobsFlatSegment _ _ marker =>
              fun r => match r with Ok _ => Some marker | Err _ => None end
          | _ => fun _ => None
          end (call_answer c)) t.

(** A loop over the pager of a container: when it returns a value it has
    followed the pages from the first to one that names no next page,
    asking each with the marker of the page before; it runs out of fuel
    only after fetching as many pages as it had fuel, each asked for by the
    page before. *)
Definition FollowsPager {R : Type}
  (loop : nat -> string -> string -> Prog azblob.Call (Exec (Result R)))
  : Prop :=
  forall (fuel : nat) (W : Type) (h : Handler azblob.Call W) (w : W)
         (containerName prefix : string),
    let r := run h (loop fuel containerName prefix) w in
    let pages := pagesFetched r.2 in
    (forall x : R,
        r.1.1 = Done (Ok x) ->
        chainFrom None pages = true /\
        moreAfter (lastPage None pages) = false /\
        markersRequested r.2 = markersFrom None pages) /\
    (r.1.1 = OutOfFuel ->
     length pages = fuel /\ chainFrom None pages = true).






(** [List] of the Azure adapter returns a record for every blob of every
    page, in order. *)
Definition AzureListComplete : Prop :=
  forall (fuel : nat) (W : Type) (h : Handler azblob.Call W) (w : W)
         (containerName prefix : string) (objects : list FileObject),
    let r := run h (List (Storage := Azure_Storage fuel)
                         containerName prefix) w in
    r.1.1 = Done (Ok objects) ->
    map Name objects = blobNames (pagesFetched r.2) /\
    length objects
    = length (flat_map azblob.BlobItems (pagesFetched r.2)).

(** [List] of the MinIO adapter returns a record for every object the
    listing delivered, in order. *)
Definition MinIOListComplete : Prop :=
  forall (W : Type) (h : Handler minio.Call W) (w : W)
         (bucket prefix : string) (objects : list FileObject),
    let r := run h (List (Storage := MinIO_Storage) bucket prefix) w in
    r.1.1 = Done (Ok objects) ->
    map Name objects = minioKeys r.2.

(* ===================================================================== *)
(** * The metadata map of the records *)
(* ===================================================================== *)

(** The records of [List] and [GetObjectInfo] carry a map. *)
Definition RecordsCarryMetadata {E : Type -> Type} (S : Storage E) : Prop :=
  forall (W : Type) (h : Handler E W) (w : W) (bucket name : string),
    (forall objects : list FileObject,
        (run h (List bucket name) w).1.1 = Done (Ok objects) ->
        Forall (fun o => is_Some (Metadata o)) objects) /\
    (forall info : FileObject,
        (run h (GetObjectInfo bucket name) w).1.1 = Ok info ->
        is_Some (Metadata info)).

(** The records of [ListDirectories] carry a map. *)
Definition DirectoriesCarryMetadata {E : Type -> Type} (S : Storage E)
  : Prop :=
  forall (W : Type) (h : Handler E W) (w : W) (bucket prefix : string)
         (dirs : list FileObject),
    (run h (ListDirectories bucket prefix) w).1.1 = Done (Ok dirs) ->
    Forall (fun d => is_Some (Metadata d)) dirs.

(** The records of [ListDirectories] have the nil map. *)
Definition DirectoriesWithoutMetadata {E : Type -> Type} (S : Storage E)
  : Prop :=
  forall (W : Type) (h : Handler E W) (w : W) (bucket prefix : string)
         (dirs : list FileObject),
    (run h (ListDirectories bucket prefix) w).1.1 = Done (Ok dirs) ->
    Forall (fun d => Metadata d = None) dirs.


(* ===================================================================== *)
(** * The adapters, further: records, markers and listings *)
(* ===================================================================== *)

(** [OSSStorage.ListObjects] (storage/oss.go), a method beside those of the
    [Storage] interface: one request with the delimiter ["/"]; the common
    prefixes are appended first, as directory records, then the objects,
    with the record [List] builds and [IsDir: false]. *)
Definition OSSStorage_ListObjects (o : oss.Client)
  (bucketName prefix : string) : Prog oss.Call (Result (list FileObject)) :=
  match oss.GetBucket o bucketName with
  | Err err => Ret (Err err)
  | Ok bucket =>
      r <- call (oss.ListObjects bucket
                   [oss.Prefix prefix; oss.Delimiter "/"]) ;;
      match r with
      | Err err => Ret (Err err)
      | Ok lsRes =>
          let objects :=
            fold_left (fun objects prefix =>
                         objects ++ [directoryRecord prefix])
                      (oss.CommonPrefixes lsRes) [] in
          let objects :=
            fold_left (fun objects object =>
                         objects ++ [OSSStorage.fileRecord object])
                      (oss.Objects lsRes) objects in
          Ret (Ok objects)
      end
  end.

(** The record the MinIO adapter builds for a delivered object: [List]
    leaves [IsDir] out, [ListDirectories] sets it. *)
Definition minioRecord (isDir : bool) (object : minio.ObjectInfo)
  : FileObject :=
  {| Name := minio.Key object;
     Size := minio.Size object;
     ContentType := minio.ContentType object;
     LastModified := minio.LastModified object;
     Metadata := MinIOStorage.convertMetadata (minio.UserMetadata object);
     IsDir := isDir |}.

(** What the MinIO loops return for the items delivered: the first error
    among them if there is one, else the records of the items [keep]
    selects. *)
Definition minioListing (isDir : bool) (keep : minio.ObjectInfo -> bool)
  (items : list minio.ObjectInfo) : Result (list FileObject) :=
  match head (omap minio.Err items) with
  | Some err => Err err
  | None => Ok (map (minioRecord isDir) (List.filter keep items))
  end.

(** A blob item the Azure [List] cannot convert: it dereferences
    [blob.Properties] and [blob.Name], and one of them is nil. *)
Definition nilField (blob : azblob.BlobItem) : bool :=
  match azblob.Properties blob, azblob.Name blob with
  | Some _, Some _ => false
  | _, _ => true
  end.

(** [CreateDirectory] on any provider: unless the SDK rejects the bucket
    name ([precheck]), one request, which puts the empty object of type
    [application/directory] at the name made to end with ["/"], and whose
    answer is the result; a name and the same name with its slash give the
    same program. *)
Definition CreatesMarker {E : Type -> Type} `{Provider E} (S : Storage E)
  (precheck : string -> option error) : Prop :=
  (forall (W : Type) (h : Handler E W) (w : W) (bucket name : string),
      let r := run h (CreateDirectory bucket name) w in
      match precheck bucket with
      | Some e => r = (Some e, w, [])
      | None =>
          trace_ops r.2
          = [(OpPut bucket (withTrailingSlash name) ""
                    "application/directory", option_list r.1.1)]
      end) /\
  (forall bucket name : string,
      CreateDirectory bucket (withTrailingSlash name)
      = CreateDirectory bucket name).

(** [EnsurePathExists] makes no call and succeeds. *)
Definition EnsuresNothing {E : Type -> Type} (S : Storage E)
  (objectPath : string) : Prop :=
  forall (W : Type) (h : Handler E W) (w : W) (bucket : string),
    run h (EnsurePathExists bucket objectPath) w = (None, w, []).

(** The first value of each header that has one: what a
    [map[string]string] can keep of an [http.Header]. *)
Definition firstValues (props : gmap string (list string)) (k : string)
  : option string :=
  props !! k ≫= head.

(* ===================================================================== *)
(** * Reading a trace of handler calls, further *)
(* ===================================================================== *)

Module HandlerTrace.
Import api.

(** The [Upload] calls: bucket, object name, stream, size and content
    type. *)
Definition uploadsAttempted (t : list (Called api.Call))
  : list (string * string * Reader * Z * string) :=
  omap (fun c =>
          match call_event c with
          | StorageUpload b n reader size ct => Some (b, n, reader, size, ct)
          | _ => None
          end) t.

(** The answers the [Upload] calls got. *)
Definition uploadAnswers (t : list (Called api.Call)) : list (option error) :=
  omap (fun c =>
          match call_event c in api.Call X return X -> option (option error)
          with
          | StorageUpload _ _ _ _ _ => fun r => Some r
          | _ => fun _ => None
          end (call_answer c)) t.

(** The [EnsurePathExists] calls, each with its answer. *)
Definition ensureCalls (t : list (Called api.Call))
  : list (string * string * option error) :=
  omap (fun c =>
          match call_event c in api.Call X
                return X -> option (string * string * option error) with
          | StorageEnsurePathExists b p => fun r => Some (b, p, r)
          | _ => fun _ => None
          end (call_answer c)) t.

(** The [GetObjectInfo] calls: bucket and object name. *)
Definition infoCalls (t : list (Called api.Call)) : list (string * string) :=
  omap (fun c =>
          match call_event c with
          | StorageGetObjectInfo b n => Some (b, n)
          | _ => None
          end) t.

(** The headers set with [c.Header], in order. *)
Definition headersSent (t : list (Called api.Call))
  : list (string * string) :=
  omap (fun c =>
          match call_event c with
          | Header key value => Some (key, value)
          | _ => None
          end) t.

(** The status codes set with [c.Status]. *)
Definition statusSent (t : list (Called api.Call)) : list Z :=
  omap (fun c =>
          match call_event c with
          | Status code => Some code
          | _ => None
          end) t.

(** The streams copied to the response body. *)
Definition copiedToResponse (t : list (Called api.Call)) : list Reader :=
  omap (fun c =>
          match call_event c with
          | CopyToResponse reader => Some reader
          | _ => None
          end) t.

(** A call on the zip writer. *)
Definition isZipCall (c : Called api.Call) : bool :=
  match call_event c with
  | ZipCreate _ => true
  | ZipCopy _ _ => true
  | ZipClose => true
  | _ => false
  end.

(** A call on the storage. *)
Definition isStorageCall (c : Called api.Call) : bool :=
  match ApiTrace.storageBucket c with
  | Some _ => true
  | None => false
  end.

(** The header of an [X-Meta-] entry. *)
Definition metaHeader (entry : string * string) : string * string :=
  ("X-Meta-" +:+ entry.1, entry.2).

(** The value of [Content-Disposition] for an archive named [name]. *)
Definition attachment (name : string) : string :=
  "attachment; filename=" +:+ quote +:+ name +:+ ".zip" +:+ quote.

End HandlerTrace.

(** A storage that cannot be reached: every call on it fails. *)
Module Offline.
Import api.

Definition refused : error := errorString "connection refused".

Definition handler : Handler api.Call unit :=
  fun X e =>
    match e in api.Call X return unit -> X * unit with
    | StorageEnsurePathExists _ _ => fun w => (Some refused, w)
    | StorageUpload _ _ _ _ _ => fun w => (Some refused, w)
    | StorageDownload _ _ => fun w => (Err refused, w)
    | StorageDelete _ _ => fun w => (Some refused, w)
    | StorageList _ _ => fun w => (Err refused, w)
    | StorageGetObjectInfo _ _ => fun w => (Err refused, w)
    | Printf _ => fun w => (tt, w)
    | Header _ _ => fun w => (tt, w)
    | JSON _ _ => fun w => (tt, w)
    | Status _ => fun w => (tt, w)
    | ZipCreate _ => fun w => (None, w)
    | ZipCopy _ _ => fun w => (None, w)
    | ZipClose => fun w => (tt, w)
    | CopyToResponse _ => fun w => (None, w)
    | ReaderClose _ => fun w => (tt, w)
    end.

End Offline.

(** A request with the given path parameters, query values and headers. *)
Definition requestWith (params query headers : list (string * string))
  (body : Reader) : gin.Context :=
  let find name kvs :=
    default "" (snd <$> List.find (fun kv => String.eqb (fst kv) name) kvs) in
  {| gin.Param name := find name params;
     gin.Query name := find name query;
     gin.GetHeader name := find name headers;
     gin.Request_Body := body |}.

(* ===================================================================== *)
(** * The configuration, the middleware and the making of the server *)
(* ===================================================================== *)

(** Package [config], struct by struct. [AuthConfig] is the type of
    [s.config.Auth] in [api/server.go], which reads its [Enabled] flag and
    looks the presented key up in its [APIKeys] map (from key to
    description in the configuration file). *)
Module cfg.

Record ServerConfig : Type := mkServerConfig { Port : Z }.

Record MinIOConfig : Type := mkMinIOConfig {
  minio_Endpoint : string;
  minio_AccessKey : string;
  minio_SecretKey : string;
  minio_UseSSL : bool
}.

Record OSSConfig : Type := mkOSSConfig {
  oss_Endpoint : string;
  oss_AccessKey : string;
  oss_SecretKey : string;
  oss_UseSSL : bool
}.

Record OBSConfig : Type := mkOBSConfig {
  obs_Endpoint : string;
  obs_AccessKey : string;
  obs_SecretKey : string;
  obs_UseSSL : bool
}.

Record AzureConfig : Type := mkAzureConfig {
  azure_Endpoint : string;
  AccountName : string;
  AccountKey : string;
  ConnectionString : string
}.

Record StorageConfig : Type := mkStorageConfig {
  Type_ : string;
  Bucket : string;
  MinIO : MinIOConfig;
  OSS : OSSConfig;
  OBS : OBSConfig;
  Azure : AzureConfig
}.

Record LogConfig : Type := mkLogConfig { Level : string }.

Record AuthConfig : Type := mkAuthConfig {
  Enabled : bool;
  APIKeys : gmap string string
}.

Record Config : Type := mkConfig {
  Server : ServerConfig;
  Storage : StorageConfig;
  Log : LogConfig;
  Auth : AuthConfig
}.

(** The two fields the request handlers read. *)
Definition forHandlers (c : Config) : config.Config :=
  {| config.Storage_Type := Type_ (Storage c);
     config.Storage_Bucket := Bucket (Storage c) |}.

End cfg.

(** The calls made while the server is put together: the constructors of
    the provider SDKs, which answer with their error if they fail, and the
    set-up of viper and gin. *)
Module sdk.

(** [oss.HTTPClient(new(http.Client))], the one client option used. *)
Inductive ClientOption : Type := HTTPClient.

Inductive Call : Type -> Type :=
| minio_New (endpoint accessKeyID secretAccessKey : string) (secure : bool)
    : Call (option error)
| oss_New (endpoint accessKey secretKey : string)
          (options : list ClientOption) : Call (option error)
| obs_New (accessKey secretKey endpoint : string) : Call (option error)
| azblob_NewSharedKeyCredential (accountName accountKey : string)
    : Call (option error)
| azblob_NewClientWithSharedKeyCredential
    (serviceURL accountName accountKey : string) : Call (option error)
| viper_GetString (key : string) : Call string
| gin_SetMode (mode : string) : Call unit
| gin_New : Call unit
| engine_Use (middleware : string) : Call unit.

(** A call that makes a provider client. *)
Definition makesClient {X : Type} (e : Call X) : bool :=
  match e with
  | minio_New _ _ _ _ => true
  | oss_New _ _ _ _ => true
  | obs_New _ _ _ => true
  | azblob_NewSharedKeyCredential _ _ => true
  | azblob_NewClientWithSharedKeyCredential _ _ _ => true
  | _ => false
  end.

End sdk.

(** The adapter behind a [storage.Storage] value. *)
Inductive Adapter : Type :=
| MinIOAdapter
| OSSAdapter
| OBSAdapter
| AzureAdapter.

(** The value of [storage.type] that selects an adapter. *)
Definition adapterType (a : Adapter) : string :=
  match a with
  | MinIOAdapter => "minio"
  | OSSAdapter => "oss"
  | OBSAdapter => "obs"
  | AzureAdapter => "azure"
  end.

(** [NewMinIOStorage], [NewOSSStorage], [NewOBStorage], [NewAzureStorage]:
    the constructors of the adapters. *)
Definition NewMinIOStorage (endpoint accessKeyID secretAccessKey : string)
  (useSSL : bool) : Prog sdk.Call (Result Adapter) :=
  r <- call (sdk.minio_New endpoint accessKeyID secretAccessKey useSSL) ;;
  match r with
  | Some err => Ret (Err err)
  | None => Ret (Ok MinIOAdapter)
  end.

Definition NewOSSStorage (endpoint accessKey secretKey : string)
  (useSSL : bool) : Prog sdk.Call (Result Adapter) :=
  let options := if negb useSSL then [sdk.HTTPClient] else [] in
  r <- call (sdk.oss_New endpoint accessKey secretKey options) ;;
  match r with
  | Some err => Ret (Err err)
  | None => Ret (Ok OSSAdapter)
  end.

Definition NewOBStorage (endpoint accessKey secretKey : string)
  (useSSL : bool) : Prog sdk.Call (Result Adapter) :=
  let endpoint :=
    if negb useSSL then "http://" +:+ endpoint else "https://" +:+ endpoint in
  r <- call (sdk.obs_New accessKey secretKey endpoint) ;;
  match r with
  | Some err => Ret (Err err)
  | None => Ret (Ok OBSAdapter)
  end.

Definition NewAzureStorage (accountName accountKey serviceURL : string)
  : Prog sdk.Call (Result Adapter) :=
  r <- call (sdk.azblob_NewSharedKeyCredential accountName accountKey) ;;
  match r with
  | Some err => Ret (Err err)
  | None =>
      r <- call (sdk.azblob_NewClientWithSharedKeyCredential
                   serviceURL accountName accountKey) ;;
      match r with
      | Some err => Ret (Err err)
      | None => Ret (Ok AzureAdapter)
      end
  end.

(** The rest of [api/server.go]: the server value, the middleware and the
    construction. *)
Module server.

Record Server : Type := mkServer {
  routes : list api.Route;      (* what [registerRoutes] put on the engine *)
  storage : Adapter;
  config : cfg.Config
}.

(** The server as the request handlers see it. *)
Definition forHandlers (s : Server) : api.Server :=
  {| api.server_config := cfg.forHandlers (config s) |}.

Definition StatusUnauthorized : Z := 401.

(** [AuthMiddleware]. [next] is the rest of the chain: [c.Next()] runs it
    within the call; after [c.Abort()] gin runs none of it. *)
Definition AuthMiddleware (s : Server) (c : gin.Context)
  (next : Prog api.Call (Exec unit)) : Prog api.Call (Exec unit) :=
  if negb (cfg.Enabled (cfg.Auth (config s))) then next
  else
    let apiKey := gin.GetHeader c "X-API-Key" in
    let apiKey :=
      if String.eqb apiKey "" then gin.Query c "api_key" else apiKey in
    if String.eqb apiKey "" then
      _ <- call (api.JSON StatusUnauthorized
                   (gin.H_error "API key is required")) ;;
      Ret (Done tt)
    else
      match cfg.APIKeys (cfg.Auth (config s)) !! apiKey with
      | None =>
          _ <- call (api.JSON StatusUnauthorized
                       (gin.H_error "Invalid API key")) ;;
          Ret (Done tt)
      | Some _ => next
      end.

(** [createStorage]. *)
Definition createStorage (c : cfg.Config) : Prog sdk.Call (Result Adapter) :=
  let st := cfg.Storage c in
  if String.eqb (cfg.Type_ st) "minio" then
    NewMinIOStorage (cfg.minio_Endpoint (cfg.MinIO st))
                    (cfg.minio_AccessKey (cfg.MinIO st))
                    (cfg.minio_SecretKey (cfg.MinIO st))
                    (cfg.minio_UseSSL (cfg.MinIO st))
  else if String.eqb (cfg.Type_ st) "oss" then
    NewOSSStorage (cfg.oss_Endpoint (cfg.OSS st))
                  (cfg.oss_AccessKey (cfg.OSS st))
                  (cfg.oss_SecretKey (cfg.OSS st))
                  (cfg.oss_UseSSL (cfg.OSS st))
  else if String.eqb (cfg.Type_ st) "obs" then
    NewOBStorage (cfg.obs_Endpoint (cfg.OBS st))
                 (cfg.obs_AccessKey (cfg.OBS st))
                 (cfg.obs_SecretKey (cfg.OBS st))
                 (cfg.obs_UseSSL (cfg.OBS st))
  else if String.eqb (cfg.Type_ st) "azure" then
    let endpoint := cfg.azure_Endpoint (cfg.Azure st) in
    let endpoint :=
      if String.eqb endpoint ""
         && negb (String.eqb (cfg.AccountName (cfg.Azure st)) "")
      then "https://" +:+ cfg.AccountName (cfg.Azure st)
           +:+ ".blob.core.windows.net"
      else endpoint in
    NewAzureStorage (cfg.AccountName (cfg.Azure st))
                    (cfg.AccountKey (cfg.Azure st)) endpoint
  else
    Ret (Err (errorString ("unsupported storage type: " +:+ cfg.Type_ st))).

(** [NewServer]. *)
Definition NewServer (c : cfg.Config) : Prog sdk.Call (Result Server) :=
  level <- call (sdk.viper_GetString "log.level") ;;
  _ <- (if negb (String.eqb level "debug")
        then call (sdk.gin_SetMode "release") else Ret tt) ;;
  _ <- call sdk.gin_New ;;
  _ <- call (sdk.engine_Use "Logger") ;;
  _ <- call (sdk.engine_Use "Recovery") ;;
  r <- createStorage c ;;
  match r with
  | Err err =>
      Ret (Err (wrapError ("failed to create storage: " +:+ Error err) err))
  | Ok store =>
      Ret (Ok {| routes := api.registerRoutes; storage := store;
                 config := c |})
  end.

(** The address [Start] listens on: [fmt.Sprintf(":%d", port)]. *)
Definition listenAddress (s : Server) : string :=
  ":" +:+ FormatInt (cfg.Port (cfg.Server (config s))).

(** The route the engine selects for a request: the first registered one
    with the request's method whose pattern matches the path. *)
Definition findRoute (matches : string -> string -> bool)
  (routes : list api.Route) (method path : string) : option api.Route :=
  head (List.filter (fun r => String.eqb (api.route_method r) method
                              && matches (api.route_path r) path) routes).

(** The handlers run for a request on route [r]: [AuthMiddleware] before
    the route's handler for the routes of the [authorized] group, the
    handler alone for the others. *)
Definition routeChain (s : Server) (r : api.Route) (c : gin.Context)
  : Prog api.Call (Exec unit) :=
  let handler := api.handlerOf (api.route_handler r) (forHandlers s) c in
  if api.route_authorized r then AuthMiddleware s c handler else handler.

(** The key a request presents: the [X-API-Key] header, or the [api_key]
    query value when the header is empty. *)
Definition presentedKey (c : gin.Context) : string :=
  if String.eqb (gin.GetHeader c "X-API-Key") ""
  then gin.Query c "api_key" else gin.GetHeader c "X-API-Key".

End server.

(** The values of [storage.type] that [createStorage] knows. *)
Definition supportedTypes : list string := ["minio"; "oss"; "obs"; "azure"].

(** The client constructors called, read off a trace. *)
Definition clientsMade (t : list (Called sdk.Call)) : nat :=
  length (List.filter (fun c => sdk.makesClient (call_event c)) t).

(** A configuration as the README gives it, for the storage type [type],
    with authentication on or off. *)
Module Deployment.

Definition config (type : string) (authEnabled : bool) : cfg.Config :=
  {| cfg.Server := {| cfg.Port := 8080 |};
     cfg.Storage :=
       {| cfg.Type_ := type;
          cfg.Bucket := "test";
          cfg.MinIO := cfg.mkMinIOConfig "localhost:9000" "your-access-key"
                                         "your-secret-key" false;
          cfg.OSS := cfg.mkOSSConfig "oss-cn-hangzhou.aliyuncs.com"
                                     "your-access-key" "your-secret-key" true;
          cfg.OBS := cfg.mkOBSConfig "obs.cn-east-3.myhuaweicloud.com"
                                     "your-access-key" "your-secret-key" true;
          cfg.Azure := cfg.mkAzureConfig "" "your-account-name"
                                         "your-account-key"
                                         "your-connection-string" |};
     cfg.Log := {| cfg.Level := "info" |};
     cfg.Auth :=
       {| cfg.Enabled := authEnabled;
          cfg.APIKeys := {[ "sk-1234567890abcdef" := "Default admin key";
                            "sk-0987654321fedcba" := "Another user key" ]} |}
  |}.

Definition built (authEnabled : bool) : server.Server :=
  {| server.routes := api.registerRoutes;
     server.storage := MinIOAdapter;
     server.config := config "minio" authEnabled |}.

(** SDKs whose constructors succeed. *)
Definition sdks : Handler sdk.Call unit :=
  fun X e =>
    match e in sdk.Call X return unit -> X * unit with
    | sdk.minio_New _ _ _ _ => fun w => (None, w)
    | sdk.oss_New _ _ _ _ => fun w => (None, w)
    | sdk.obs_New _ _ _ => fun w => (None, w)
    | sdk.azblob_NewSharedKeyCredential _ _ => fun w => (None, w)
    | sdk.azblob_NewClientWithSharedKeyCredential _ _ _ => fun w => (None, w)
    | sdk.viper_GetString _ => fun w => ("info", w)
    | sdk.gin_SetMode _ => fun w => (tt, w)
    | sdk.gin_New => fun w => (tt, w)
    | sdk.engine_Use _ => fun w => (tt, w)
    end.

End Deployment.

(* ===================================================================== *)
(** * The handlers over an adapter *)
(* ===================================================================== *)

(** The calls of a handler whose [s.storage] is an adapter over the SDK
    [E]: those the adapter makes on the provider, and the handler's own
    calls on the response. *)
Inductive Linked (E : Type -> Type) : Type -> Type :=
| OnProvider {X : Type} (e : E X) : Linked E X
| OnResponse {X : Type} (e : api.Call X) : Linked E X.

Arguments OnProvider {E X} e.
Arguments OnResponse {E X} e.

Fixpoint onProvider {E : Type -> Type} {R : Type} (p : Prog E R)
  : Prog (Linked E) R :=
  match p with
  | Ret r => Ret r
  | Vis e k => Vis (OnProvider e) (fun x => onProvider (k x))
  end.

(** The method of the adapter behind a storage call of a handler. *)
Definition storageMethod {E : Type -> Type} `{Storage E} {X : Type}
  (e : api.Call X) : option (Prog E (Exec X)) :=
  match e in api.Call X return option (Prog E (Exec X)) with
  | api.StorageEnsurePathExists bucket objectPath =>
      Some (r <- EnsurePathExists bucket objectPath ;; Ret (Done r))
  | api.StorageUpload bucket objectName reader size contentType =>
      Some (r <- Upload bucket objectName reader size contentType ;;
            Ret (Done r))
  | api.StorageDownload bucket objectName =>
      Some (r <- Download bucket objectName ;; Ret (Done r))
  | api.StorageDelete bucket objectName =>
      Some (r <- Delete bucket objectName ;; Ret (Done r))
  | api.StorageList bucket prefix => Some (List bucket prefix)
  | api.StorageGetObjectInfo bucket objectName =>
      Some (r <- GetObjectInfo bucket objectName ;; Ret (Done r))
  | _ => None
  end.

(** A handler with the adapter put in for its storage: each storage call
    is the adapter's method, run on the provider; a panic in the adapter,
    or a listing that does not end, ends the handler. *)
Fixpoint withStorage {E : Type -> Type} `{Storage E} {R : Type}
  (p : Prog api.Call R) : Prog (Linked E) (Exec R) :=
  match p with
  | Ret r => Ret (Done r)
  | Vis e k =>
      match storageMethod e with
      | Some method =>
          x <- onProvider method ;;
          match x with
          | Done a => withStorage (k a)
          | Panic => Ret Panic
          | OutOfFuel => Ret OutOfFuel
          end
      | None => Vis (OnResponse e) (fun x => withStorage (k x))
      end
  end.

(** The provider and the response side together. *)
Definition linkedHandler {E : Type -> Type} {W V : Type}
  (provider : Handler E W) (response : Handler api.Call V)
  : Handler (Linked E) (W * V) :=
  fun X e wv =>
    match e in Linked _ X return X * (W * V) with
    | OnProvider e => let '(x, w) := provider _ e wv.1 in (x, (w, wv.2))
    | OnResponse e => let '(x, v) := response _ e wv.2 in (x, (wv.1, v))
    end.

(** The two sides of a trace. *)
Definition providerCalls {E : Type -> Type} (t : list (Called (Linked E)))
  : list (Called E) :=
  omap (fun c =>
          match call_event c in Linked _ X return X -> option (Called E) with
          | OnProvider e => fun x => Some (mkCall e x)
          | OnResponse _ => fun _ => None
          end (call_answer c)) t.

Definition responseCalls {E : Type -> Type} (t : list (Called (Linked E)))
  : list (Called api.Call) :=
  omap (fun c =>
          match call_event c in Linked _ X
                return X -> option (Called api.Call) with
          | OnProvider _ => fun _ => None
          | OnResponse e => fun x => Some (mkCall e x)
          end (call_answer c)) t.

(** A call of the adapter, as a call of the handler over it. *)
Definition liftProvider {E : Type -> Type} (c : Called E)
  : Called (Linked E) :=
  mkCall (OnProvider (call_event c)) (call_answer c).

Definition liftResponse {E : Type -> Type} (c : Called api.Call)
  : Called (Linked E) :=
  mkCall (OnResponse (call_event c)) (call_answer c).

(** [Upload] on any provider, for a content type that is not empty: unless
    the SDK rejects the bucket name ([precheck]), one request, which puts
    the stream at the object's name with that content type, and whose
    answer is the result. *)
Definition UploadsObject {E : Type -> Type} `{Provider E} (S : Storage E)
  (precheck : string -> option error) : Prop :=
  forall (W : Type) (h : Handler E W) (w : W) (bucket name : string)
         (reader : Reader) (size : Z) (contentType : string),
    contentType <> "" ->
    let r := run h (Upload bucket name reader size contentType) w in
    match precheck bucket with
    | Some e => r = (Some e, w, [])
    | None =>
        trace_ops r.2
        = [(OpPut bucket name reader contentType, option_list r.1.1)]
    end.

(** The content type [uploadFile] passes on. *)
Definition uploadContentType (c : gin.Context) : string :=
  if String.eqb (gin.GetHeader c "Content-Type") ""
  then "application/octet-stream" else gin.GetHeader c "Content-Type".

(** The writes of an upload through an adapter: at most the marker of the
    object's parent directory and then the object itself, and no
    deletion. *)
Definition UploadWrites {E : Type -> Type} `{Provider E} (S : Storage E)
  : Prop :=
  forall (W V : Type) (provider : Handler E W) (response : Handler api.Call V)
         (w : W) (v : V) (s : api.Server) (c : gin.Context),
    let bucket := gin.Param c "bucket" in
    let object := api.stripLeadingSlash (gin.Param c "object") in
    let t := (run (linkedHandler provider response)
                  (withStorage (api.uploadFile s c)) (w, v)).2 in
    sublist (trace_writes (providerCalls t))
            [OpPut bucket (withTrailingSlash (Dir object)) ""
                   "application/directory";
             OpPut bucket object (gin.Request_Body c) (uploadContentType c)].

(** An upload and then a download of the same object through an adapter
    over the in-memory store, for a request that names its bucket: the
    upload is answered 200, and the download serves the uploaded bytes with
    the uploaded content type and closes the stream. *)
Definition RoundTrip {E : Type -> Type} (S : Storage E)
  (provider : Handler E MemStore.World) (precheck : string -> option error)
  : Prop :=
  forall (V : Type) (response : Handler api.Call V) (w : MemStore.World)
         (v : V) (s : api.Server) (up down : gin.Context),
    let bucket := gin.Param up "bucket" in
    let object := api.stripLeadingSlash (gin.Param up "object") in
    let contentLength := gin.GetHeader up "Content-Length" in
    bucket <> "" ->
    precheck bucket = None ->
    contentLength = "" \/ (ParseInt contentLength).2 = false ->
    gin.Param down "bucket" = bucket ->
    api.stripLeadingSlash (gin.Param down "object") = object ->
    gin.Query down "directory" <> "true" ->
    let uploaded := run (linkedHandler provider response)
                        (withStorage (api.uploadFile s up)) (w, v) in
    let served := run (linkedHandler provider response)
                      (withStorage (api.downloadFile s down))
                      uploaded.1.2 in
    ApiTrace.jsonSent (responseCalls uploaded.2)
    = [(api.StatusOK,
        gin.H_message "File uploaded successfully" bucket object)] /\
    served.1.1 = Done (Done tt) /\
    HandlerTrace.headersSent (responseCalls served.2)
    = [("Content-Type", uploadContentType up)] /\
    HandlerTrace.copiedToResponse (responseCalls served.2)
    = [gin.Request_Body up] /\
    ApiTrace.readersClosed (responseCalls served.2) = [gin.Request_Body up].

(** What the round trip needs of an adapter over the in-memory store:
    [EnsurePathExists] succeeds, [Upload] stores the object, [Download]
    and [GetObjectInfo] read it back. *)
Definition ServesObjects {E : Type -> Type} (S : Storage E)
  (provider : Handler E MemStore.World) (precheck : string -> option error)
  : Prop :=
  (forall (w : MemStore.World) (bucket objectPath : string),
      precheck bucket = None ->
      (run provider (EnsurePathExists bucket objectPath) w).1.1 = None) /\
  (forall (w : MemStore.World) (bucket name : string) (reader : Reader)
          (size : Z) (contentType : string),
      precheck bucket = None -> contentType <> "" ->
      (run provider (Upload bucket name reader size contentType) w).1
      = (None,
         MemStore.put bucket name
           (MemStore.mkObject reader contentType (MemStore.clock w)) w)) /\
  (forall (w : MemStore.World) (bucket name : string) (o : MemStore.Object),
      precheck bucket = None ->
      MemStore.get bucket name w = Some o ->
      (run provider (Download bucket name) w).1 = (Ok (MemStore.body o), w)) /\
  (forall (w : MemStore.World) (bucket name : string) (o : MemStore.Object),
      precheck bucket = None ->
      MemStore.get bucket name w = Some o ->
      MemStore.contentType o <> "" ->
      exists info : FileObject,
        (run provider (GetObjectInfo bucket name) w).1 = (Ok info, w) /\
        ContentType info = MemStore.contentType o).

(* ===================================================================== *)
(** * The models of Go's library functions, on sample values *)
(* ===================================================================== *)

Example Dir_nested : Dir "a/b/c.txt" = "a/b". Proof. reflexivity. Qed.
Example Dir_plain : Dir "file.txt" = ".". Proof. reflexivity. Qed.
Example Dir_rooted : Dir "/file.txt" = "/". Proof. reflexivity. Qed.
Example Dir_empty : Dir "" = ".". Proof. reflexivity. Qed.
Example Dir_double_slash : Dir "a//b" = "a". Proof. reflexivity. Qed.
Example Dir_dotdot_inner : Dir "a/../b/c" = "b". Proof. reflexivity. Qed.
Example Dir_dotdot_first : Dir "../x/y" = "../x". Proof. reflexivity. Qed.
Example Dir_trailing : Dir "/a/b/" = "/a/b". Proof. reflexivity. Qed.
Example Clean_up : Clean "a/c/../../../d" = "../d". Proof. reflexivity. Qed.
Example Clean_rooted : Clean "/../a/./b//c/.." = "/a/b".
Proof. reflexivity. Qed.
Example Clean_dots : Clean "abc/./../def" = "def". Proof. reflexivity. Qed.
Example Clean_empty : Clean "" = ".". Proof. reflexivity. Qed.
Example Base_trailing : Base "a/b/" = "b". Proof. reflexivity. Qed.
Example Base_slashes : Base "//" = "/". Proof. reflexivity. Qed.
Example Base_plain : Base "x" = "x". Proof. reflexivity. Qed.
Example Base_empty : Base "" = ".". Proof. reflexivity. Qed.
Example Split_empty_part : Split "a//b" slash = ["a"; ""; "b"].
Proof. reflexivity. Qed.
Example Split_trailing : Split "a/" slash = ["a"; ""].
Proof. reflexivity. Qed.
Example Split_none : Split "abc" slash = ["abc"]. Proof. reflexivity. Qed.
Example Join_parts : Join ["a"; "b"; "c"] "/" = "a/b/c".
Proof. reflexivity. Qed.
Example HasSuffix_slash : HasSuffix "a/b/" "/" = true.
Proof. reflexivity. Qed.
Example HasSuffix_empty : HasSuffix "" "/" = false. Proof. reflexivity. Qed.
Example TrimSuffix_slash : TrimSuffix "a/b/" "/" = "a/b".
Proof. reflexivity. Qed.
Example slice_from_inside : slice_from "a/x.txt" 2 = Some "x.txt".
Proof. reflexivity. Qed.
Example slice_from_beyond : slice_from "ab" 3 = None.
Proof. reflexivity. Qed.
Example ParseInt_digits : ParseInt "123" = (123%Z, false).
Proof. reflexivity. Qed.
Example ParseInt_below : ParseInt "-9223372036854775809"
                         = ((- 2 ^ 63)%Z, true).
Proof. reflexivity. Qed.
Example ParseInt_max : ParseInt "9223372036854775807"
                       = ((2 ^ 63 - 1)%Z, false).
Proof. reflexivity. Qed.
Example ParseInt_syntax : ParseInt "12a" = (0%Z, true).
Proof. reflexivity. Qed.
Example ParseInt_empty : ParseInt "" = (0%Z, true). Proof. reflexivity. Qed.
Example FormatInt_positive : FormatInt 120 = "120". Proof. reflexivity. Qed.
Example FormatInt_negative : FormatInt (-7) = "-7". Proof. reflexivity. Qed.
Example parentDirs_nested :
  AzureStorage.parentDirs "a/b/c.txt" = ["a/"; "a/b/"].
Proof. reflexivity. Qed.
Example parentDirs_flat : AzureStorage.parentDirs "top.txt" = [].
Proof. reflexivity. Qed.

(* ===================================================================== *)
(** * Running programs *)
(* ===================================================================== *)

Section RunFacts.
Context {E : Type -> Type} {W : Type} (h : Handler E W).

Lemma run_bind {A B : Type} (p : Prog E A) (f : A -> Prog E B) (w : W) :
  run h (bind p f) w =
  let '(a, w1, t1) := run h p w in
  let '(b, w2, t2) := run h (f a) w1 in
  (b, w2, t1 ++ t2).
Proof.
  revert w. induction p as [a | X e k IH]; intros w; simpl.
  - destruct (run h (f a) w) as [[b w2] t2]. reflexivity.
  - destruct (h X e w) as [x w1]. rewrite IH.
    destruct (run h (k x) w1) as [[a w2] t1].
    destruct (run h (f a) w2) as [[b w3] t2]. reflexivity.
Qed.

Lemma run_call {X : Type} (e : E X) (w : W) :
  run h (call e) w = let '(x, w1) := h X e w in (x, w1, [mkCall e x]).
Proof. simpl. destruct (h X e w). reflexivity. Qed.

Lemma run_vis {X R : Type} (e : E X) (k : X -> Prog E R) (w : W) :
  run h (Vis e k) w =
  let '(x, w1) := h X e w in
  let '(r, w2, t) := run h (k x) w1 in
  (r, w2, mkCall e x :: t).
Proof. reflexivity. Qed.

End RunFacts.

(** Run the program of the goal up to its next call, and name the answer of
    the handler [h] to it. *)
Ltac run_step h :=
  cbn [run bind call];
  match goal with
  | |- context [h ?X ?e ?w] =>
      let r := fresh "r" in
      let w' := fresh "w" in
      destruct (h X e w) as [r w'] eqn:?
  end.

(* ===================================================================== *)
(** * Strings *)
(* ===================================================================== *)

Lemma append_cons (c : ascii) (s t : string) :
  String c s +:+ t = String c (s +:+ t).
Proof. reflexivity. Qed.

Lemma append_nil_l (t : string) : "" +:+ t = t.
Proof. reflexivity. Qed.

Lemma length_append (s t : string) :
  String.length (s +:+ t) = String.length s + String.length t.
Proof.
  induction s as [| c s IH]; [reflexivity |].
  rewrite append_cons. simpl. rewrite IH. reflexivity.
Qed.

Lemma drop_bytes_append (s t : string) :
  drop_bytes (String.length s) (s +:+ t) = t.
Proof.
  induction s as [| c s IH]; [destruct t; reflexivity |].
  rewrite append_cons. simpl. exact IH.
Qed.

Lemma HasSuffix_append (s t : string) : HasSuffix (s +:+ t) t = true.
Proof.
  unfold HasSuffix. rewrite length_append.
  replace (String.length s + String.length t - String.length t)
    with (String.length s) by lia.
  rewrite drop_bytes_append, String.eqb_refl, andb_true_r.
  apply Nat.leb_le. lia.
Qed.

Lemma HasPrefix_split (s p : string) :
  HasPrefix s p = true -> s = p +:+ drop_bytes (String.length p) s.
Proof.
  unfold HasPrefix. revert s.
  induction p as [| c p IH]; intros s Hp.
  - destruct s; reflexivity.
  - destruct s as [| d s]; simpl in Hp; [discriminate |].
    destruct (ascii_dec c d) as [-> | ]; [| discriminate].
    rewrite append_cons. simpl. f_equal. apply IH. exact Hp.
Qed.

Lemma HasPrefix_length (s p : string) :
  HasPrefix s p = true -> String.length p <= String.length s.
Proof.
  intros Hp. apply HasPrefix_split in Hp.
  apply (f_equal String.length) in Hp. rewrite length_append in Hp. lia.
Qed.

Lemma slice_from_prefix (s p : string) :
  HasPrefix s p = true ->
  slice_from s (String.length p) = Some (drop_bytes (String.length p) s).
Proof.
  intros Hp. unfold slice_from.
  apply HasPrefix_length, Nat.leb_le in Hp. rewrite Hp. reflexivity.
Qed.

Lemma withTrailingSlash_suffix (s : string) :
  HasSuffix (withTrailingSlash s) "/" = true.
Proof.
  unfold withTrailingSlash.
  destruct (HasSuffix s "/") eqn:Hs; simpl; [exact Hs |].
  apply HasSuffix_append.
Qed.

Lemma withTrailingSlash_idem (s : string) :
  withTrailingSlash (withTrailingSlash s) = withTrailingSlash s.
Proof.
  unfold withTrailingSlash at 1.
  rewrite withTrailingSlash_suffix. reflexivity.
Qed.

(* ===================================================================== *)
(** * The handlers of api/server.go *)
(* ===================================================================== *)

Section ServerFacts.
Import api ApiTrace.
Context {W : Type} (h : Handler api.Call W).

(** ** Route registration *)

Lemma dispatch_registered (matches : string -> string -> bool)
  (routes : list Route) (method path : string) (f : HandlerFunc) :
  dispatch matches routes method path = Some f ->
  exists r, In r routes /\ route_method r = method /\ route_handler r = f.
Proof.
  unfold dispatch.
  destruct (List.filter _ routes) as [| r rs] eqn:Hf; [discriminate |].
  intros [= <-]. exists r.
  assert (Hin : In r (List.filter
                        (fun r => String.eqb (route_method r) method
                                  && matches (route_path r) path) routes))
    by (rewrite Hf; left; reflexivity).
  apply filter_In in Hin as [Hin Hm].
  apply andb_true_iff in Hm as [Hm _]. apply String.eqb_eq in Hm.
  auto.
Qed.

Lemma registered_handlers (r : Route) :
  In r registerRoutes ->
  route_handler r <> deleteObjects_ /\
  (route_method r = "DELETE" -> route_handler r = deleteFile_).
Proof.
  unfold registerRoutes. simpl.
  intros Hin.
  repeat (destruct Hin as [<- | Hin];
          [split; [discriminate | simpl; first [reflexivity | discriminate]] |]).
  contradiction.
Qed.

(** ** The prefix delete *)

Lemma deletedNames_nil : deletedNames [] [] = [].
Proof. reflexivity. Qed.

Lemma run_deleteEach (bucket : string) (objects : list FileObject) :
  forall (deleted errors : list string) (w : W),
  exists (answers : list (option error)) (w' : W),
    length answers = length objects /\
    run h (deleteEach bucket objects deleted errors) w =
      ((deleted ++ deletedNames objects answers,
        errors ++ deleteErrors objects answers),
       w', deleteCalls bucket objects answers).
Proof.
  induction objects as [| obj rest IH]; intros deleted errors w.
  - exists [], w. simpl. rewrite !app_nil_r. auto.
  - simpl. destruct (h _ (StorageDelete bucket (Name obj)) w) as [r w1] eqn:Hd.
    destruct r as [err |].
    + destruct (IH deleted
                   (errors ++ ["Failed to delete " +:+ Name obj +:+ ": "
                               +:+ Error err]) w1)
        as (answers & w' & Hlen & Hrun).
      exists (Some err :: answers), w'. split; [simpl; lia |].
      rewrite Hrun. unfold deletedNames, deleteErrors, deleteCalls. simpl.
      rewrite <- app_assoc. reflexivity.
    + destruct (IH (deleted ++ [Name obj]) errors w1)
        as (answers & w' & Hlen & Hrun).
      exists (None :: answers), w'. split; [simpl; lia |].
      rewrite Hrun. unfold deletedNames, deleteErrors, deleteCalls. simpl.
      rewrite <- app_assoc. reflexivity.
Qed.

Lemma delete_report_length (objects : list FileObject) :
  forall answers : list (option error),
    length answers = length objects ->
    length (deletedNames objects answers)
    + length (deleteErrors objects answers) = length objects.
Proof.
  unfold deletedNames, deleteErrors, omap.
  induction objects as [| o rest IH]; intros [| r answers] Hlen;
    simpl in Hlen; try discriminate; [reflexivity |].
  injection Hlen as Hlen. specialize (IH answers Hlen).
  destruct r; simpl in *; lia.
Qed.

End ServerFacts.

(** ** Claims about routing, bucket defaulting and the prefix delete *)

Section ServerClaims.
Import api ApiTrace.

(** C10. Every registered route for the DELETE method has the single-object
    handler [deleteFile]; no registered route has the prefix-delete handler
    [deleteObjects]; so whatever the router's pattern matching, no request
    is dispatched to [deleteObjects], and a DELETE request that is
    dispatched goes to [deleteFile]. *)
Theorem C10_delete_routes :
  Forall (fun r => route_handler r <> deleteObjects_) registerRoutes /\
  Forall (fun r => route_method r = "DELETE" -> route_handler r = deleteFile_)
         registerRoutes /\
  (forall (matches : string -> string -> bool) (method path : string),
      dispatch matches registerRoutes method path <> Some deleteObjects_) /\
  (forall (matches : string -> string -> bool) (path : string)
          (f : HandlerFunc),
      dispatch matches registerRoutes "DELETE" path = Some f ->
      f = deleteFile_).
Proof.
  split; [| split; [| split]].
  - apply List.Forall_forall. intros r Hin.
    apply (registered_handlers r Hin).
  - apply List.Forall_forall. intros r Hin.
    apply (registered_handlers r Hin).
  - intros matches method path Hd.
    apply dispatch_registered in Hd as (r & Hin & _ & Hh).
    apply registered_handlers in Hin as [Hne _]. contradiction.
  - intros matches path f Hd.
    apply dispatch_registered in Hd as (r & Hin & Hm & Hh).
    apply registered_handlers in Hin as [_ Hdel]. rewrite <- Hh. auto.
Qed.

(** A DELETE request on the registered pattern reaches [deleteFile], for a
    router that accepts every path. *)
Lemma C10_delete_routes_witness :
  exists f : HandlerFunc,
    dispatch (fun _ _ => true) registerRoutes "DELETE" "/delete/b/a/x.txt"
    = Some f /\ f = deleteFile_.
Proof.
  exists deleteFile_. split; [reflexivity |].
  destruct C10_delete_routes as (_ & _ & _ & Hd).
  apply (Hd (fun _ _ => true) "/delete/b/a/x.txt" deleteFile_).
  reflexivity.
Defined.

(** C8 (at [uploadFile]). Whatever the configured default bucket, every
    storage operation of [uploadFile] is addressed to the bucket parameter
    of the request as it is, so to the empty bucket when the caller gave
    none: [EnsurePathExists] first and, when it succeeds and the
    Content-Length header is valid, [Upload]. For the request
    [POST /upload//file.txt] on a server whose default bucket is [test],
    the two storage operations are addressed to the bucket [""]. *)
Theorem C8_uploadFile_keeps_bucket :
  (forall (W : Type) (h : Handler api.Call W) (w : W)
          (s : Server) (c : gin.Context),
      allStorageCallsUse (gin.Param c "bucket") (run h (uploadFile s c) w).2
      = true) /\
  config.Storage_Bucket (server_config Scripted.server) = "test" /\
  omap storageBucket
       (run Scripted.handler
            (uploadFile Scripted.server
               (Scripted.request [("bucket", ""); ("object", "/file.txt")]
                                    []))
            Scripted.sample).2
  = [""; ""].
Proof.
  split; [| split; reflexivity].
  intros W h w s c. unfold uploadFile, allStorageCallsUse, addressedTo.
  run_step h. run_step h. destruct r0 as [err |].
  - run_step h. simpl. rewrite String.eqb_refl. reflexivity.
  - destruct (if negb _ then ParseInt _ else _) as [n bad].
    cbn [fst snd]. destruct bad.
    + run_step h. simpl. rewrite String.eqb_refl. reflexivity.
    + run_step h. destruct r0; run_step h; simpl;
        rewrite String.eqb_refl; reflexivity.
Qed.

(** The other handlers address every storage operation to the configured
    default bucket when the request gives none. *)
Lemma deleteFile_bucket {W : Type} (h : Handler api.Call W) (w : W)
  (s : Server) (c : gin.Context) :
  allStorageCallsUse (bucketOrDefault s c) (run h (deleteFile s c) w).2
  = true.
Proof.
  unfold deleteFile, allStorageCallsUse, addressedTo.
  run_step h. destruct r; run_step h; simpl;
    rewrite String.eqb_refl; reflexivity.
Qed.

Lemma listObjects_bucket {W : Type} (h : Handler api.Call W) (w : W)
  (s : Server) (c : gin.Context) :
  allStorageCallsUse (bucketOrDefault s c) (run h (listObjects s c) w).2
  = true.
Proof.
  unfold listObjects, allStorageCallsUse, addressedTo.
  run_step h. destruct r; run_step h; simpl;
    rewrite String.eqb_refl; reflexivity.
Qed.

(** C7. [deleteObjects] lists the objects under the prefix in the bucket
    (the default one if the request gives none); when the listing succeeds
    it calls [Delete] once for each listed object, in order, and nothing
    else on the storage, then answers 200 with the names whose deletion
    succeeded and one message per deletion that failed; the two lists
    together account for every listed object. When nothing is listed, both
    lists are empty and the answer is still 200. *)
Theorem C7_deleteObjects_report :
  forall (W : Type) (h : Handler api.Call W) (w w1 : W)
         (s : Server) (c : gin.Context) (objects : list FileObject),
    let bucket := bucketOrDefault s c in
    let prefix := stripLeadingSlash (gin.Param c "prefix") in
    h _ (StorageList bucket prefix) w = (Ok objects, w1) ->
    exists (answers : list (option error)) (w' : W),
      length answers = length objects /\
      run h (deleteObjects s c) w =
        (tt, w',
         mkCall (StorageList bucket prefix) (Ok objects)
         :: deleteCalls bucket objects answers
         ++ [mkCall (JSON StatusOK
                       (gin.H_deleted bucket prefix
                          (deletedNames objects answers)
                          (deleteErrors objects answers))) tt]) /\
      length (deletedNames objects answers)
      + length (deleteErrors objects answers) = length objects /\
      (objects = [] ->
       deletedNames objects answers = [] /\
       deleteErrors objects answers = []).
Proof.
  intros W h w w1 s c objects bucket prefix Hlist.
  destruct (run_deleteEach h bucket objects [] [] w1)
    as (answers & w2 & Hlen & Hrun).
  destruct (h _ (JSON StatusOK
                   (gin.H_deleted bucket prefix
                      (deletedNames objects answers)
                      (deleteErrors objects answers))) w2)
    as [[] w3] eqn:Hjson.
  exists answers, w3. split; [exact Hlen |]. split; [| split].
  - unfold deleteObjects. fold bucket. fold prefix.
    rewrite run_bind, run_call, Hlist.
    rewrite run_bind, Hrun. cbn [fst snd app].
    rewrite run_call, Hjson. reflexivity.
  - apply delete_report_length. exact Hlen.
  - intros ->. destruct answers; [split; reflexivity | discriminate].
Qed.

(** A prefix delete over four listed objects, one of which cannot be
    deleted. *)
Lemma C7_deleteObjects_report_witness :
  let c := Scripted.request [("bucket", ""); ("prefix", "/a/")] [] in
  Scripted.handler _ (StorageList "test" "a/") Scripted.sample
  = (Ok Scripted.sampleUnderA, Scripted.sample) /\
  exists answers w',
    length answers = 4 /\
    run Scripted.handler (deleteObjects Scripted.server c)
        Scripted.sample =
      (tt, w',
       mkCall (StorageList "test" "a/") (Ok Scripted.sampleUnderA)
       :: deleteCalls "test" Scripted.sampleUnderA answers
       ++ [mkCall (JSON StatusOK
                     (gin.H_deleted "test" "a/"
                        (deletedNames Scripted.sampleUnderA answers)
                        (deleteErrors Scripted.sampleUnderA answers)))
                  tt]) /\
    length (deletedNames Scripted.sampleUnderA answers)
    + length (deleteErrors Scripted.sampleUnderA answers) = 4 /\
    (Scripted.sampleUnderA = [] ->
     deletedNames Scripted.sampleUnderA answers = [] /\
     deleteErrors Scripted.sampleUnderA answers = []).
Proof.
  intros c. split; [reflexivity |].
  exact (C7_deleteObjects_report _ Scripted.handler Scripted.sample
           Scripted.sample Scripted.server c Scripted.sampleUnderA
           eq_refl).
Defined.

End ServerClaims.

(** ** The archive download *)

Section ArchiveFacts.
Import api ApiTrace.
Context {W : Type} (h : Handler api.Call W).
Variables bucket prefix : string.


(** The last test of an iteration, [if err != nil { continue }], changes
    nothing: the loop goes on either way. *)
Lemma copy_result_ignored {R : Type} (r : option error) (p : Prog api.Call R) :
  match r with Some _ => p | None => p end = p.
Proof. destruct r; reflexivity. Qed.







End ArchiveFacts.

Section ArchiveClaims.
Import api ApiTrace.







End ArchiveClaims.

(** ** The bucket of the other handlers *)

Section BucketFacts.
Import api ApiTrace.

Lemma metadataHeaders_no_storage {W : Type} (h : Handler api.Call W)
  (bucket : string) (entries : list (string * string)) :
  forall w : W,
    forallb (addressedTo bucket) (run h (metadataHeaders entries) w).2 = true.
Proof.
  induction entries as [| [key value] rest IH]; intros w; [reflexivity |].
  cbn [metadataHeaders]. run_step h.
  specialize (IH w0).
  destruct (run h (metadataHeaders rest) w0) as [[? ?] t]. exact IH.
Qed.

Lemma getObjectInfo_bucket {W : Type} (h : Handler api.Call W) (w : W)
  (s : Server) (c : gin.Context) :
  allStorageCallsUse (bucketOrDefault s c) (run h (getObjectInfo s c) w).2
  = true.
Proof.
  unfold getObjectInfo, allStorageCallsUse.
  run_step h. destruct r as [info | err].
  - run_step h. run_step h. run_step h. cbn [run bind call].
    rewrite run_bind.
    match goal with
    | |- context [run h (metadataHeaders ?es) ?wr] =>
        pose proof (metadataHeaders_no_storage h (bucketOrDefault s c) es wr)
          as Hmeta;
        destruct (run h (metadataHeaders es) wr) as [[? wm] t]
    end.
    run_step h.
    cbn [snd] in Hmeta |- *.
    cbn [forallb existsb storageBucket call_event addressedTo orb andb].
    rewrite String.eqb_refl, forallb_app, Hmeta. reflexivity.
  - run_step h. cbn. unfold addressedTo. cbn.
    rewrite String.eqb_refl. reflexivity.
Qed.

Lemma archiveObjects_bucket {W : Type} (h : Handler api.Call W)
  (bucket prefix : string) (objects : list FileObject) :
  forall w : W,
    forallb (addressedTo bucket)
            (run h (archiveObjects bucket prefix objects) w).2 = true.
Proof.
  induction objects as [| obj rest IH]; intros w; [reflexivity |].
  cbn [archiveObjects].
  destruct (IsDir obj || HasSuffix (Name obj) "/"); [apply IH |].
  run_step h. destruct r as [reader | e].
  - destruct (slice_from (Name obj) (String.length prefix)) as [entry |].
    + run_step h. destruct r as [e |].
      * run_step h.
        match goal with
        | |- context [run h (archiveObjects bucket prefix rest) ?wr] =>
            specialize (IH wr);
            destruct (run h (archiveObjects bucket prefix rest) wr)
              as [[? ?] t]
        end.
        cbn in IH |- *. unfold addressedTo at 1. cbn.
        rewrite String.eqb_refl. exact IH.
      * run_step h. run_step h. rewrite copy_result_ignored.
        match goal with
        | |- context [run h (archiveObjects bucket prefix rest) ?wr] =>
            specialize (IH wr);
            destruct (run h (archiveObjects bucket prefix rest) wr)
              as [[? ?] t]
        end.
        cbn in IH |- *. unfold addressedTo at 1. cbn.
        rewrite String.eqb_refl. exact IH.
    + cbn. unfold addressedTo. cbn. rewrite String.eqb_refl. reflexivity.
  - match goal with
    | |- context [run h (archiveObjects bucket prefix rest) ?wr] =>
        specialize (IH wr);
        destruct (run h (archiveObjects bucket prefix rest) wr)
          as [[? ?] t]
    end.
    cbn in IH |- *. unfold addressedTo at 1. cbn.
    rewrite String.eqb_refl. exact IH.
Qed.

Lemma downloadFile_bucket {W : Type} (h : Handler api.Call W) (w : W)
  (s : Server) (c : gin.Context) :
  allStorageCallsUse (bucketOrDefault s c) (run h (downloadFile s c) w).2
  = true.
Proof.
  unfold downloadFile, allStorageCallsUse.
  destruct (String.eqb (gin.Query c "directory") "true").
  - run_step h. destruct r as [objects | err].
    + run_step h. run_step h. cbn [run bind call]. rewrite run_bind.
      match goal with
      | |- context [run h (archiveObjects ?b ?p objects) ?wr] =>
          pose proof (archiveObjects_bucket h b p objects wr) as Harch;
          destruct (run h (archiveObjects b p objects) wr) as [[? wz] t]
      end.
      run_step h.
      cbn [snd run app] in Harch |- *.
      cbn [forallb existsb storageBucket call_event addressedTo orb andb].
      rewrite String.eqb_refl, forallb_app, Harch. reflexivity.
    + run_step h. cbn. unfold addressedTo. cbn.
      rewrite String.eqb_refl. reflexivity.
  - run_step h. destruct r as [reader | err].
    + run_step h. destruct r as [info | err].
      * run_step h. run_step h. destruct r0 as [err |].
        -- run_step h. run_step h. cbn. unfold addressedTo. cbn.
           rewrite String.eqb_refl. reflexivity.
        -- run_step h. cbn. unfold addressedTo. cbn.
           rewrite String.eqb_refl. reflexivity.
      * run_step h. run_step h. cbn. unfold addressedTo. cbn.
        rewrite String.eqb_refl. reflexivity.
    + run_step h. cbn. unfold addressedTo. cbn.
      rewrite String.eqb_refl. reflexivity.
Qed.

End BucketFacts.

(* ===================================================================== *)
(** * The adapters: metadata of the records *)
(* ===================================================================== *)

Section MetadataFacts.

Lemma directoryRecord_metadata (n : string) :
  Metadata (directoryRecord n) = None.
Proof. reflexivity. Qed.

Lemma convertMetadata_not_nil (m : option (gmap string string)) :
  is_Some (MinIOStorage.convertMetadata m).
Proof. unfold MinIOStorage.convertMetadata. eauto. Qed.

(** [convertMetadata] copies the map. *)
Lemma convertMetadata_copy (m : option (gmap string string)) :
  MinIOStorage.convertMetadata m = Some (default ∅ m).
Proof.
  unfold MinIOStorage.convertMetadata. f_equal.
  generalize (default ∅ m). clear m. intros m.
  apply (map_fold_weak_ind (fun r m' => r = m')); [reflexivity |].
  intros k v m' r _ ->. reflexivity.
Qed.

(** [GetObjectInfo] returns a record with a map, in every adapter. *)
Lemma GetObjectInfo_metadata_MinIO {W : Type} (h : Handler minio.Call W)
  (w : W) (bucket name : string) (info : FileObject) :
  (run h (MinIOStorage.GetObjectInfo bucket name) w).1.1 = Ok info ->
  is_Some (Metadata info).
Proof.
  unfold MinIOStorage.GetObjectInfo. run_step h.
  destruct r; cbn; intros [= <-]; [apply convertMetadata_not_nil].
Qed.

Lemma GetObjectInfo_metadata_OSS {W : Type} (h : Handler oss.Call W)
  (w : W) (o : oss.Client) (bucket name : string) (info : FileObject) :
  (run h (OSSStorage.GetObjectInfo o bucket name) w).1.1 = Ok info ->
  is_Some (Metadata info).
Proof.
  unfold OSSStorage.GetObjectInfo.
  destruct (oss.GetBucket o bucket); [| cbn; discriminate].
  run_step h. destruct r; cbn; intros [= <-]. cbn. eauto.
Qed.

Lemma GetObjectInfo_metadata_OBS {W : Type} (h : Handler obs.Call W)
  (w : W) (bucket name : string) (info : FileObject) :
  (run h (OBStorage.GetObjectInfo bucket name) w).1.1 = Ok info ->
  is_Some (Metadata info).
Proof.
  unfold OBStorage.GetObjectInfo. run_step h.
  destruct r; cbn; intros [= <-]. cbn. eauto.
Qed.

Lemma GetObjectInfo_metadata_Azure {W : Type} (h : Handler azblob.Call W)
  (w : W) (bucket name : string) (info : FileObject) :
  (run h (AzureStorage.GetObjectInfo bucket name) w).1.1 = Ok info ->
  is_Some (Metadata info).
Proof.
  unfold AzureStorage.GetObjectInfo. run_step h.
  destruct r; [| cbn; discriminate].
  run_step h. cbn. intros [= <-]. cbn. eauto.
Qed.

(** The records of the MinIO listings carry a map. *)
Lemma MinIO_List_loop_metadata (objectCh : list minio.ObjectInfo) :
  forall objects result : list FileObject,
    Forall (fun o => is_Some (Metadata o)) objects ->
    MinIOStorage.List_loop objectCh objects = Ok result ->
    Forall (fun o => is_Some (Metadata o)) result.
Proof.
  induction objectCh as [| object rest IH]; intros objects result Hacc;
    cbn.
  - intros [= <-]. exact Hacc.
  - destruct (minio.Err object); [discriminate |].
    apply IH. apply Forall_app. split; [exact Hacc |].
    constructor; [apply convertMetadata_not_nil | constructor].
Qed.

Lemma MinIO_ListDirectories_loop_metadata (objectCh : list minio.ObjectInfo) :
  forall dirs result : list FileObject,
    Forall (fun o => is_Some (Metadata o)) dirs ->
    MinIOStorage.ListDirectories_loop objectCh dirs = Ok result ->
    Forall (fun o => is_Some (Metadata o)) result.
Proof.
  induction objectCh as [| object rest IH]; intros dirs result Hacc; cbn.
  - intros [= <-]. exact Hacc.
  - destruct (minio.Err object); [discriminate |].
    destruct (HasSuffix (minio.Key object) "/"); [| apply IH; exact Hacc].
    apply IH. apply Forall_app. split; [exact Hacc |].
    constructor; [apply convertMetadata_not_nil | constructor].
Qed.

End MetadataFacts.

(* ===================================================================== *)
(** * The adapters: how much of a listing [List] returns *)
(* ===================================================================== *)

Section ListFacts.

Lemma fold_append_map {A B : Type} (f : A -> B) (l : list A) :
  forall acc : list B,
    fold_left (fun acc x => acc ++ [f x]) l acc = acc ++ map f l.
Proof.
  induction l as [| x l IH]; intros acc; cbn.
  - rewrite app_nil_r. reflexivity.
  - rewrite IH, <- app_assoc. reflexivity.
Qed.

(** [List] of the OSS adapter sends one request, for at most 1000 keys from
    the start of the listing, and returns the objects of its answer,
    truncated or not. *)
Lemma OSS_List_one_request {W : Type} (h : Handler oss.Call W) (w : W)
  (o : oss.Client) (bucket prefix : string) (lsRes : oss.ListObjectsResult)
  (w1 : W) :
  oss.CheckBucketName o bucket = None ->
  h _ (oss.ListObjects bucket [oss.Prefix prefix; oss.MaxKeys 1000]) w
  = (Ok lsRes, w1) ->
  run h (OSSStorage.List o bucket prefix) w =
    (Done (Ok (map OSSStorage.fileRecord (oss.Objects lsRes))), w1,
     [mkCall (oss.ListObjects bucket [oss.Prefix prefix; oss.MaxKeys 1000])
             (Ok lsRes)]).
Proof.
  intros Hcheck Hls. unfold OSSStorage.List, oss.GetBucket.
  rewrite Hcheck. cbn [run bind call]. rewrite Hls. cbn.
  rewrite fold_append_map. reflexivity.
Qed.

(** So does [List] of the OBS adapter. *)
Lemma OBS_List_one_request {W : Type} (h : Handler obs.Call W) (w : W)
  (bucket prefix : string) (output : obs.ListObjectsOutput) (w1 : W) :
  h _ (obs.ListObjects {| obs.ls_Bucket := bucket; obs.ls_Prefix := prefix;
                          obs.ls_Delimiter := "" |}) w
  = (Ok output, w1) ->
  run h (OBStorage.List bucket prefix) w =
    (Done (Ok (map OBStorage.fileRecord (obs.Contents output))), w1,
     [mkCall (obs.ListObjects {| obs.ls_Bucket := bucket;
                                 obs.ls_Prefix := prefix;
                                 obs.ls_Delimiter := "" |}) (Ok output)]).
Proof.
  intros Hls. unfold OBStorage.List. cbn [run bind call]. rewrite Hls. cbn.
  rewrite fold_append_map. reflexivity.
Qed.

End ListFacts.

(** C1 (at [List] of the OSS adapter). The bucket holds 1001 objects under
    [obj/]; the provider answers the one request of [List] with the first
    1000 and marks the answer truncated; [List] returns those 1000 records
    and sends no further request. *)
Theorem C1_OSS_List_first_page_only :
  let listing :=
    run MemStore.oss_handler
        (List (Storage := OSS_Storage MemStore.oss_client 0) "bkt" "obj/")
        Samples.many in
  length (MemStore.keys "bkt" "obj/" Samples.many) = 1001 /\
  exists (objects : list FileObject) (lsRes : oss.ListObjectsResult),
    listing.1.1 = Done (Ok objects) /\
    length objects = 1000 /\
    listing.2 =
      [mkCall (oss.ListObjects "bkt" [oss.Prefix "obj/"; oss.MaxKeys 1000])
              (Ok lsRes)] /\
    oss.IsTruncated lsRes = true /\
    ~ In "obj/11000" (map Name objects).
Proof.
  intros listing. split; [vm_compute; reflexivity |].
  destruct (MemStore.oss_handler _
              (oss.ListObjects "bkt" [oss.Prefix "obj/"; oss.MaxKeys 1000])
              Samples.many) as [r w1] eqn:Hls.
  assert (Hr : exists lsRes, r = Ok lsRes /\ oss.IsTruncated lsRes = true /\
                 length (oss.Objects lsRes) = 1000 /\
                 forallb (fun o => negb (String.eqb (oss.Key o) "obj/11000"))
                         (oss.Objects lsRes) = true).
  { apply (f_equal fst) in Hls. cbn [fst] in Hls. subst r.
    eexists. split; [reflexivity |]. vm_compute. auto. }
  destruct Hr as (lsRes & -> & Htrunc & Hlen & Hnot).
  exists (map OSSStorage.fileRecord (oss.Objects lsRes)), lsRes.
  subst listing.
  change (@List _ _ "bkt" "obj/")
    with (OSSStorage.List MemStore.oss_client "bkt" "obj/").
  rewrite (OSS_List_one_request MemStore.oss_handler Samples.many
             MemStore.oss_client "bkt" "obj/" lsRes w1 eq_refl Hls).
  cbn [fst snd]. repeat split; try reflexivity.
  - rewrite length_map. exact Hlen.
  - exact Htrunc.
  - rewrite map_map. cbn [OSSStorage.fileRecord Name].
    intros Hin. apply in_map_iff in Hin as (o & Hk & Hin).
    rewrite forallb_forall in Hnot. specialize (Hnot o Hin).
    rewrite Hk, String.eqb_refl in Hnot. discriminate.
Qed.

(* ===================================================================== *)
(** * The adapters: the errors they return *)
(* ===================================================================== *)

Section ErrorFacts.

(** Take the next call of the running program, whichever handler runs it. *)
Ltac answer h :=
  cbn [run bind call];
  match goal with
  | |- context [h ?X ?e ?w] => destruct (h X e w) as [? ?]
  end.












End ErrorFacts.




(* ===================================================================== *)
(** * The adapters: the names [ListDirectories] returns *)
(* ===================================================================== *)

Section SegmentFacts.

Lemma append_assoc (a b c : string) : (a +:+ b) +:+ c = a +:+ (b +:+ c).
Proof.
  induction a as [| x a IH]; [reflexivity |].
  rewrite !append_cons, IH. reflexivity.
Qed.

Lemma append_nil_r (a : string) : a +:+ "" = a.
Proof.
  induction a as [| x a IH]; [reflexivity |].
  rewrite append_cons, IH. reflexivity.
Qed.

(** A string that is not empty has a last byte. *)
Lemma string_snoc (s : string) :
  s <> "" -> exists (front : string) (c : ascii), s = front +:+ String c "".
Proof.
  induction s as [| x s IH]; [congruence |]. intros _.
  destruct s as [| y s].
  - exists "", x. reflexivity.
  - destruct IH as (front & c & Hs); [discriminate |].
    exists (String x front), c. rewrite append_cons, <- Hs. reflexivity.
Qed.

Lemma hasByte_append (c : ascii) (a b : string) :
  hasByte c (a +:+ b) = hasByte c a || hasByte c b.
Proof.
  induction a as [| x a IH]; [reflexivity |].
  rewrite append_cons. cbn. rewrite IH, orb_assoc. reflexivity.
Qed.

(** The parts [strings.Split] gives do not contain the separator. *)
Lemma Split_parts_no_sep (sep : ascii) (s : string) :
  Forall (fun part => hasByte sep part = false) (Split s sep).
Proof.
  induction s as [| c s IH]; cbn.
  - repeat constructor.
  - destruct (Ascii.eqb c sep) eqn:Hc.
    + constructor; [reflexivity | exact IH].
    + destruct (Split s sep) as [| p ps].
      * repeat constructor. cbn. rewrite Hc. reflexivity.
      * inversion IH as [| ? ? Hp Hps]; subst.
        constructor; [| exact Hps]. cbn. rewrite Hc, Hp. reflexivity.
Qed.

Lemma Split_not_nil (sep : ascii) (s : string) : Split s sep <> [].
Proof.
  destruct s as [| c s]; cbn; [discriminate |].
  destruct (Ascii.eqb c sep); [discriminate |].
  destruct (Split s sep); discriminate.
Qed.

(** [strings.Join] ends with its last element. *)
Lemma Join_snoc (elems : list string) (e sep : string) :
  exists front : string, Join (elems ++ [e]) sep = front +:+ e.
Proof.
  induction elems as [| x elems IH].
  - exists "". reflexivity.
  - destruct IH as (front & Hj).
    exists (x +:+ sep +:+ front).
    cbn [app Join]. destruct (elems ++ [e]) as [| y rest] eqn:Hl.
    + destruct elems; discriminate.
    + rewrite Hj, !append_assoc. reflexivity.
Qed.

(** A name whose byte before the final slash is not a slash ends with one
    slash only. *)
Lemma endsWithOneSlash_snoc (front : string) (c : ascii) :
  c <> slash -> endsWithOneSlash ((front +:+ String c "") +:+ "/") = true.
Proof.
  intros Hc. unfold endsWithOneSlash.
  rewrite HasSuffix_append. cbn [andb].
  rewrite append_assoc.
  change (String c "" +:+ "/") with (String c "/").
  unfold HasSuffix. rewrite length_append. cbn [String.length].
  replace (String.length front + 2 - 2) with (String.length front) by lia.
  rewrite drop_bytes_append.
  replace (Nat.leb 2 (String.length front + 2)) with true
    by (symmetry; apply Nat.leb_le; lia).
  cbn. destruct (Ascii.eqb_spec c "/"); [contradiction | reflexivity].
Qed.

(** The directory paths derived from a blob name: the first [i] parts
    joined, with a slash, for [i] from 1 to one less than their number. *)
Lemma parentDirs_spec (name d : string) :
  In d (AzureStorage.parentDirs name) <->
  exists i : nat,
    1 <= i < length (Split name slash) /\
    d = Join (take i (Split name slash)) "/" +:+ "/".
Proof.
  unfold AzureStorage.parentDirs.
  destruct (Nat.ltb_spec 1 (length (Split name slash))) as [Hlt | Hge].
  - rewrite in_map_iff. split.
    + intros (i & <- & Hi). apply in_seq in Hi. exists i. split; [lia | auto].
    + intros (i & Hi & ->). exists i. split; [reflexivity |].
      apply in_seq. lia.
  - split; [intros [] |]. intros (i & Hi & _). lia.
Qed.

Lemma parentDirs_suffix (name d : string) :
  In d (AzureStorage.parentDirs name) -> HasSuffix d "/" = true.
Proof.
  intros Hd. apply parentDirs_spec in Hd as (i & _ & ->).
  apply HasSuffix_append.
Qed.

Lemma parentDirs_one_slash (name d : string) :
  noEmptySegment name = true ->
  In d (AzureStorage.parentDirs name) -> endsWithOneSlash d = true.
Proof.
  unfold noEmptySegment. intros Hseg Hd.
  apply parentDirs_spec in Hd as (i & Hi & ->).
  destruct i as [| j]; [lia |].
  destruct (lookup_lt_is_Some_2 (Split name slash) j ltac:(lia)) as [e He].
  rewrite (take_S_r _ _ _ He).
  destruct (Join_snoc (take j (Split name slash)) e "/") as (front & ->).
  assert (Hne : e <> "").
  { rewrite forallb_forall in Hseg.
    assert (Hin : In e (take (length (Split name slash) - 1)
                             (Split name slash))).
    { apply list_elem_of_In, list_elem_of_lookup. exists j.
      rewrite lookup_take_lt by lia. exact He. }
    specialize (Hseg e Hin). intros ->. discriminate. }
  destruct (string_snoc e Hne) as (efront & c & ->).
  rewrite <- append_assoc. apply endsWithOneSlash_snoc.
  pose proof (Split_parts_no_sep slash name) as Hparts.
  rewrite List.Forall_forall in Hparts.
  assert (Hin : In (efront +:+ String c "") (Split name slash))
    by (apply list_elem_of_In, list_elem_of_lookup; eauto).
  specialize (Hparts _ Hin). rewrite hasByte_append in Hparts.
  apply orb_false_iff in Hparts as [_ Hc]. cbn in Hc.
  rewrite orb_false_r in Hc. intros ->. rewrite Ascii.eqb_refl in Hc.
  discriminate.
Qed.

End SegmentFacts.

(* ===================================================================== *)
(** * The adapters: following the pages of a listing *)
(* ===================================================================== *)

Section PagingFacts.

Lemma More_current (p : azblob.Pager) :
  azblob.More p = moreAfter (azblob.current p).
Proof. reflexivity. Qed.

Lemma lastPage_cons (cur : option azblob.ListBlobsFlatResponse)
  (page : azblob.ListBlobsFlatResponse)
  (rest : list azblob.ListBlobsFlatResponse) :
  lastPage cur (page :: rest) = lastPage (Some page) rest.
Proof. unfold lastPage. rewrite last_cons. destruct (last rest); reflexivity. Qed.




(** The conversion of the blobs of a page fetches no page; it gives one
    record per blob, named as the blob. *)
Lemma Azure_List_items_run {W : Type} (h : Handler azblob.Call W)
  (items : list azblob.BlobItem) :
  forall (objects : list FileObject) (w : W),
    let r := run h (AzureStorage.List_items items objects) w in
    pagesFetched r.2 = [] /\
    markersRequested r.2 = [] /\
    (forall result,
        r.1.1 = Some result ->
        map Name result = map Name objects ++ omap azblob.Name items /\
        length result = length objects + length items).
Proof.
  induction items as [| blob rest IH]; intros objects w.
  - cbn. repeat split; try reflexivity.
    + inversion H. subst. rewrite app_nil_r. reflexivity.
    + inversion H. subst. lia.
  - cbn [AzureStorage.List_items].
    destruct (azblob.Properties blob);
      [| cbn; repeat split; intros; discriminate || auto].
    run_step h. destruct (azblob.Name blob) as [name |] eqn:Hname;
      [| cbn; repeat split; intros; discriminate || auto].
    match goal with
    | |- context [run h (AzureStorage.List_items rest ?o) ?w1] =>
        specialize (IH o w1);
        destruct (run h (AzureStorage.List_items rest o) w1) as [[res ?] t2]
    end.
    cbn [fst snd] in IH |- *. destruct IH as (Hp & Hm & Hres).
    unfold pagesFetched, markersRequested in *.
    cbn [omap list_omap call_event call_answer].
    change (list_omap _ _ ?f ?l) with (omap f l).
    split; [exact Hp |]. split; [exact Hm |].
    intros result Hr. destruct (Hres result Hr) as (Hn & Hl).
    rewrite Hn, Hl, map_app, length_app, <- app_assoc. cbn.
    rewrite Hname. split; [reflexivity | lia].
Qed.

Lemma Azure_List_loop_paging {W : Type} (h : Handler azblob.Call W)
  (fuel : nat) :
  forall (pager : azblob.Pager) (objects : list FileObject) (w : W),
    let r := run h (AzureStorage.List_loop fuel pager objects) w in
    let pages := pagesFetched r.2 in
    (forall result,
        r.1.1 = Done (Ok result) ->
        (chainFrom (azblob.current pager) pages = true /\
         moreAfter (lastPage (azblob.current pager) pages) = false /\
         markersRequested r.2 = markersFrom (azblob.current pager) pages) /\
        map Name result = map Name objects ++ blobNames pages /\
        length result
        = length objects + length (flat_map azblob.BlobItems pages)) /\
    (r.1.1 = OutOfFuel ->
     length pages = fuel /\
     chainFrom (azblob.current pager) pages = true).
Proof.
  induction fuel as [| fuel IH]; intros pager objects w;
    [cbn; repeat split; intros; discriminate || auto |].
  cbn [AzureStorage.List_loop]. rewrite More_current.
  destruct (moreAfter (azblob.current pager)) eqn:Hmore.
  2:{ cbn. rewrite Hmore. split; [| intros; discriminate].
      intros result [= <-]. rewrite app_nil_r. repeat split; auto. }
  unfold azblob.NextPage. run_step h.
  destruct r as [resp | err];
    [| cbn; repeat split; intros; discriminate || auto].
  cbn [run bind call]. rewrite run_bind.
  destruct (Azure_List_items_run h (azblob.BlobItems resp) objects w0)
    as (Hip & Him & Hitems).
  destruct (run h (AzureStorage.List_items (azblob.BlobItems resp) objects)
                w0) as [[res w1] t1].
  cbn [fst snd] in Hip, Him, Hitems.
  destruct res as [objects' |].
  2:{ cbn. split; intros; discriminate. }
  destruct (Hitems objects' eq_refl) as (Hnames & Hlen).
  match goal with
  | |- context [run h (AzureStorage.List_loop fuel ?p ?o) ?wl] =>
      specialize (IH p o wl);
      destruct (run h (AzureStorage.List_loop fuel p o) wl)
        as [[res ?] t2]
  end.
  cbn [fst snd azblob.current] in IH |- *.
  destruct IH as (Hdone & Hout).
  assert (Hpages :
    pagesFetched
      (mkCall (azblob.ListBlobsFlatSegment (azblob.pager_container pager)
                 (azblob.pager_prefix pager)
                 match azblob.current pager with
                 | Some page => azblob.NextMarker page
                 | None => None
                 end) (Ok resp) :: t1 ++ t2)
    = resp :: pagesFetched t2).
  { unfold pagesFetched in *.
    cbn [omap list_omap call_event call_answer].
    change (list_omap _ _ ?f ?l) with (omap f l).
    rewrite omap_app, Hip. reflexivity. }
  assert (Hmarkers :
    markersRequested
      (mkCall (azblob.ListBlobsFlatSegment (azblob.pager_container pager)
                 (azblob.pager_prefix pager)
                 match azblob.current pager with
                 | Some page => azblob.NextMarker page
                 | None => None
                 end) (Ok resp) :: t1 ++ t2)
    = match azblob.current pager with
      | Some page => azblob.NextMarker page
      | None => None
      end :: markersRequested t2).
  { unfold markersRequested in *.
    cbn [omap list_omap call_event call_answer].
    change (list_omap _ _ ?f ?l) with (omap f l).
    rewrite omap_app, Him. reflexivity. }
  rewrite Hpages, Hmarkers. split.
  - intros result Hres.
    destruct (Hdone result Hres) as ((Hchain & Hlast & Hmark) & Hn & Hl).
    cbn [chainFrom markersFrom]. rewrite Hmore, lastPage_cons, Hmark.
    repeat split; auto.
    + rewrite Hn, Hnames, <- app_assoc. reflexivity.
    + rewrite Hl, Hlen. cbn [flat_map]. rewrite length_app. lia.
  - intros Hres. destruct (Hout Hres) as (Hlen' & Hchain).
    cbn [length chainFrom]. rewrite Hmore, Hlen'. auto.
Qed.

Lemma Azure_List_follows_pager : FollowsPager AzureStorage.List.
Proof.
  intros fuel W h w containerName prefix.
  destruct (Azure_List_loop_paging h fuel
              (azblob.NewListBlobsFlatPager containerName prefix) [] w)
    as (Hdone & Hout).
  split; [| exact Hout].
  intros x Hx. apply (Hdone x Hx).
Qed.

Lemma Azure_List_complete : AzureListComplete.
Proof.
  intros fuel W h w containerName prefix objects r Hres.
  destruct (Azure_List_loop_paging h fuel
              (azblob.NewListBlobsFlatPager containerName prefix) [] w)
    as (Hdone & _).
  destruct (Hdone objects Hres) as (_ & Hn & Hl).
  split; [exact Hn | exact Hl].
Qed.

Lemma MinIO_List_loop_names (objectCh : list minio.ObjectInfo) :
  forall objects result : list FileObject,
    MinIOStorage.List_loop objectCh objects = Ok result ->
    map Name result = map Name objects ++ map minio.Key objectCh.
Proof.
  induction objectCh as [| object rest IH]; intros objects result; cbn.
  - intros [= <-]. rewrite app_nil_r. reflexivity.
  - destruct (minio.Err object); [discriminate |].
    intros Hloop. rewrite (IH _ _ Hloop), map_app, <- app_assoc.
    reflexivity.
Qed.

Lemma MinIO_List_complete : MinIOListComplete.
Proof.
  intros W h w bucket prefix objects r. subst r.
  cbn [List MinIO_Storage]. unfold MinIOStorage.List.
  run_step h. cbn. intros [= Hloop].
  rewrite (MinIO_List_loop_names _ _ _ Hloop), app_nil_r. reflexivity.
Qed.



End PagingFacts.

Section DirectoryFacts.

Lemma NoDup_snoc {A : Type} (l : list A) (x : A) :
  NoDup l -> ~ In x l -> NoDup (l ++ [x]).
Proof.
  intros Hl Hx. apply NoDup_app. split; [exact Hl |]. split.
  - intros y Hy Hyx. apply list_elem_of_In in Hy.
    apply list_elem_of_In in Hyx. destruct Hyx as [-> | []]. contradiction.
  - apply NoDup_singleton.
Qed.

Lemma addDir_state (due : list string) (d : string)
  (st : gmap string bool * list FileObject) :
  DirState due st -> DirState (due ++ [d]) (AzureStorage.addDir st d).
Proof.
  intros (Hmap & Hnd & Hrec & Hdue). destruct st as [dirMap dirs].
  cbn [fst snd] in *. unfold AzureStorage.addDir.
  destruct (default false (dirMap !! d)) eqn:Hseen; cbn [negb].
  - split; [exact Hmap |]. split; [exact Hnd |]. split; [exact Hrec |].
    cbn [fst snd]. intros n. rewrite in_app_iff, Hdue. cbn [In].
    split; [tauto |]. intros [Hn | [<- | []]]; [exact Hn |].
    apply Hdue, Hmap. exact Hseen.
  - assert (Hfresh : ~ In d (map Name dirs)).
    { intros Hin. apply Hmap in Hin. congruence. }
    split; [| split; [| split]]; cbn [fst snd].
    + intros n. rewrite map_app, in_app_iff. cbn [map In Name directoryRecord].
      destruct (decide (d = n)) as [-> | Hne].
      * rewrite lookup_insert_eq. cbn. tauto.
      * rewrite lookup_insert_ne by exact Hne. rewrite Hmap.
        split; [tauto |]. intros [Hn | [Hn | []]]; [exact Hn | contradiction].
    + rewrite map_app. cbn [map Name directoryRecord].
      apply NoDup_snoc; assumption.
    + apply Forall_app. split; [exact Hrec |]. repeat constructor.
    + intros n. rewrite map_app, !in_app_iff, Hdue. reflexivity.
Qed.

Lemma addDirs_state (ds : list string) :
  forall (due : list string) (st : gmap string bool * list FileObject),
    DirState due st ->
    DirState (due ++ ds) (fold_left AzureStorage.addDir ds st).
Proof.
  induction ds as [| d ds IH]; intros due st Hst.
  - rewrite app_nil_r. exact Hst.
  - cbn [fold_left].
    replace (due ++ d :: ds) with ((due ++ [d]) ++ ds)
      by (rewrite <- app_assoc; reflexivity).
    apply IH, addDir_state, Hst.
Qed.

Lemma ListDirectories_items_state (items : list azblob.BlobItem) :
  forall (due : list string) (st : gmap string bool * list FileObject),
    DirState due st ->
    DirState (due ++ directoriesOf (omap azblob.Name items))
             (AzureStorage.ListDirectories_items items st).
Proof.
  unfold AzureStorage.ListDirectories_items, directoriesOf.
  induction items as [| blob rest IH]; intros due st Hst.
  - cbn. rewrite app_nil_r. exact Hst.
  - cbn [fold_left]. destruct (azblob.Name blob) as [name |] eqn:Hname.
    + replace (omap azblob.Name (blob :: rest))
        with (name :: omap azblob.Name rest)
        by (cbn; rewrite Hname; reflexivity).
      cbn [flat_map]. rewrite app_assoc. apply IH, addDirs_state, Hst.
    + replace (omap azblob.Name (blob :: rest))
        with (omap azblob.Name rest)
        by (cbn; rewrite Hname; reflexivity).
      apply IH, Hst.
Qed.

Lemma directoriesOf_app (a b : list string) :
  directoriesOf (a ++ b) = directoriesOf a ++ directoriesOf b.
Proof. unfold directoriesOf. apply flat_map_app. Qed.

Lemma Azure_ListDirectories_loop_state {W : Type}
  (h : Handler azblob.Call W) (fuel : nat) :
  forall (pager : azblob.Pager) (st : gmap string bool * list FileObject)
         (due : list string) (w : W) (dirs : list FileObject),
    DirState due st ->
    (run h (AzureStorage.ListDirectories_loop fuel pager st) w).1.1
    = Done (Ok dirs) ->
    exists dirMap : gmap string bool,
      DirState
        (due ++ directoriesOf
           (blobNames
              (pagesFetched
                 (run h (AzureStorage.ListDirectories_loop fuel pager st)
                      w).2)))
        (dirMap, dirs).
Proof.
  induction fuel as [| fuel IH]; intros pager st due w dirs Hst;
    [cbn; discriminate |].
  cbn [AzureStorage.ListDirectories_loop].
  destruct (azblob.More pager).
  - unfold azblob.NextPage. run_step h.
    destruct r as [resp | err]; [| cbn; discriminate].
    cbn [run bind call].
    match goal with
    | |- context [run h (AzureStorage.ListDirectories_loop fuel ?p ?s) ?wl] =>
        specialize (IH p s
                       (due ++ directoriesOf
                                 (omap azblob.Name (azblob.BlobItems resp)))
                       wl dirs
                       (ListDirectories_items_state _ _ _ Hst));
        destruct (run h (AzureStorage.ListDirectories_loop fuel p s) wl)
          as [[? ?] t2]
    end.
    cbn [fst snd] in IH |- *. intros Hres.
    destruct (IH Hres) as (dirMap & Hfinal). exists dirMap.
    unfold pagesFetched, blobNames in *.
    cbn [omap list_omap call_event call_answer flat_map].
    change (list_omap _ _ ?f ?l) with (omap f l).
    rewrite directoriesOf_app, app_assoc. exact Hfinal.
  - cbn. intros [= <-]. exists st.1. rewrite app_nil_r.
    destruct st. exact Hst.
Qed.

Lemma DirState_empty : DirState [] (∅, []).
Proof.
  split; [| split; [| split]].
  - intros n. cbn. rewrite lookup_empty. cbn. split; [discriminate | tauto].
  - constructor.
  - constructor.
  - intros n. cbn. tauto.
Qed.

Lemma Azure_directory_names : AzureDirectoryNames.
Proof.
  intros fuel W h w bucket prefix dirs r Hres. subst r.
  cbn [ListDirectories Azure_Storage] in *.
  unfold AzureStorage.ListDirectories in *.
  destruct (Azure_ListDirectories_loop_state h fuel _ _ [] w dirs
              DirState_empty Hres) as (dirMap & _ & Hnd & _ & Hdue).
  cbn [fst snd app] in *.
  assert (Hparent : forall d, In d dirs ->
            exists b, In b (blobNames
                              (pagesFetched
                                 (run h (AzureStorage.ListDirectories_loop
                                           fuel
                                           (azblob.NewListBlobsFlatPager
                                              bucket prefix) (∅, [])) w).2))
                      /\ In (Name d) (AzureStorage.parentDirs b)).
  { intros d Hd. apply (in_map Name) in Hd. apply Hdue in Hd.
    unfold directoriesOf in Hd. apply in_flat_map in Hd. exact Hd. }
  split; [exact Hnd |]. split; [exact Hdue |]. split.
  - apply List.Forall_forall. intros d Hd.
    destruct (Hparent d Hd) as (b & _ & Hp).
    apply (parentDirs_suffix b). exact Hp.
  - intros Hseg. rewrite forallb_forall in Hseg.
    apply List.Forall_forall. intros d Hd.
    destruct (Hparent d Hd) as (b & Hb & Hp).
    apply (parentDirs_one_slash b); [apply Hseg; exact Hb | exact Hp].
Qed.





(** OSS. *)
Lemma OSS_ListDirectories_loop_names {W : Type} (h : Handler oss.Call W)
  (bucketClient : oss.Bucket) (prefix : string) (fuel : nat) :
  forall (marker : string) (dirs result : list FileObject) (w : W),
    (run h (OSSStorage.ListDirectories_loop fuel bucketClient prefix marker
                                            dirs) w).1.1 = Done (Ok result) ->
    result
    = dirs ++ map directoryRecord
        (ossCommonPrefixes
           (run h (OSSStorage.ListDirectories_loop fuel bucketClient prefix
                                                   marker dirs) w).2).
Proof.
  induction fuel as [| fuel IH]; intros marker dirs result w;
    [cbn; discriminate |].
  cbn [OSSStorage.ListDirectories_loop]. run_step h.
  destruct r as [lsRes | err]; [| cbn; discriminate].
  rewrite (fold_append_map directoryRecord).
  destruct (oss.IsTruncated lsRes).
  - match goal with
    | |- context [run h (OSSStorage.ListDirectories_loop fuel bucketClient
                           prefix ?m ?d) ?w1] =>
        specialize (IH m d result w1);
        destruct (run h (OSSStorage.ListDirectories_loop fuel bucketClient
                           prefix m d) w1) as [[? ?] t2]
    end.
    cbn [fst snd] in IH |- *. intros Hres. rewrite (IH Hres).
    unfold ossCommonPrefixes. cbn [flat_map call_event call_answer].
    rewrite map_app, app_assoc. reflexivity.
  - cbn. intros [= <-]. rewrite app_nil_r. reflexivity.
Qed.





End DirectoryFacts.




(* ===================================================================== *)
(** * The adapters: which records carry a metadata map *)
(* ===================================================================== *)

Section MetadataByAdapter.

Lemma Forall_map_records {A : Type} (P : FileObject -> Prop)
  (f : A -> FileObject) (l : list A) :
  (forall x, P (f x)) -> Forall P (map f l).
Proof.
  intros Hf. apply List.Forall_forall. intros o Ho.
  apply in_map_iff in Ho as (x & <- & _). apply Hf.
Qed.

Lemma MinIO_records_carry_metadata : RecordsCarryMetadata MinIO_Storage.
Proof.
  intros W h w bucket name. split.
  - intros objects. cbn [List MinIO_Storage]. unfold MinIOStorage.List.
    run_step h. cbn. intros [= Hloop].
    apply (MinIO_List_loop_metadata _ _ _ (List.Forall_nil _) Hloop).
  - intros info. apply GetObjectInfo_metadata_MinIO.
Qed.

Lemma MinIO_directories_carry_metadata :
  DirectoriesCarryMetadata MinIO_Storage.
Proof.
  intros W h w bucket prefix dirs.
  cbn [ListDirectories MinIO_Storage]. unfold MinIOStorage.ListDirectories.
  run_step h. cbn. intros [= Hloop].
  apply (MinIO_ListDirectories_loop_metadata _ _ _ (List.Forall_nil _) Hloop).
Qed.

Lemma OSS_records_carry_metadata (o : oss.Client) (fuel : nat) :
  RecordsCarryMetadata (OSS_Storage o fuel).
Proof.
  intros W h w bucket name. split.
  - intros objects. cbn [List OSS_Storage].
    unfold OSSStorage.List, oss.GetBucket.
    destruct (oss.CheckBucketName o bucket); [cbn; discriminate |].
    run_step h. destruct r as [lsRes | err]; [| cbn; discriminate].
    cbn. rewrite (fold_append_map OSSStorage.fileRecord). intros [= <-].
    apply Forall_map_records. intros x. cbn. eauto.
  - intros info. apply GetObjectInfo_metadata_OSS.
Qed.

Lemma OBS_records_carry_metadata : RecordsCarryMetadata OBS_Storage.
Proof.
  intros W h w bucket name. split.
  - intros objects. cbn [List OBS_Storage]. unfold OBStorage.List.
    run_step h. destruct r as [output | err]; [| cbn; discriminate].
    cbn. rewrite (fold_append_map OBStorage.fileRecord). intros [= <-].
    apply Forall_map_records. intros x. cbn. eauto.
  - intros info. apply GetObjectInfo_metadata_OBS.
Qed.

Lemma Azure_List_items_metadata {W : Type} (h : Handler azblob.Call W)
  (items : list azblob.BlobItem) :
  forall (objects result : list FileObject) (w : W),
    Forall (fun o => is_Some (Metadata o)) objects ->
    (run h (AzureStorage.List_items items objects) w).1.1 = Some result ->
    Forall (fun o => is_Some (Metadata o)) result.
Proof.
  induction items as [| blob rest IH]; intros objects result w Hacc.
  - cbn. intros [= <-]. exact Hacc.
  - cbn [AzureStorage.List_items].
    destruct (azblob.Properties blob); [| cbn; discriminate].
    run_step h. destruct (azblob.Name blob); [| cbn; discriminate].
    match goal with
    | |- context [run h (AzureStorage.List_items rest ?o) ?w1] =>
        specialize (IH o result w1);
        destruct (run h (AzureStorage.List_items rest o) w1) as [[res ?] t2]
    end.
    cbn [fst snd] in IH |- *. apply IH.
    apply Forall_app. split; [exact Hacc |]. repeat constructor. cbn. eauto.
Qed.

Lemma Azure_List_loop_metadata {W : Type} (h : Handler azblob.Call W)
  (fuel : nat) :
  forall (pager : azblob.Pager) (objects result : list FileObject) (w : W),
    Forall (fun o => is_Some (Metadata o)) objects ->
    (run h (AzureStorage.List_loop fuel pager objects) w).1.1
    = Done (Ok result) ->
    Forall (fun o => is_Some (Metadata o)) result.
Proof.
  induction fuel as [| fuel IH]; intros pager objects result w Hacc;
    [cbn; discriminate |].
  cbn [AzureStorage.List_loop].
  destruct (azblob.More pager); [| cbn; intros [= <-]; exact Hacc].
  unfold azblob.NextPage. run_step h.
  destruct r as [resp | err]; [| cbn; discriminate].
  cbn [run bind call]. rewrite run_bind.
  pose proof (Azure_List_items_metadata h (azblob.BlobItems resp) objects)
    as Hitems.
  match goal with
  | |- context [run h (AzureStorage.List_items ?i ?o) ?wl] =>
      specialize (fun res => Hitems res wl Hacc);
      destruct (run h (AzureStorage.List_items i o) wl) as [[res w1] t1]
  end.
  cbn [fst snd] in Hitems.
  destruct res as [objects' |]; [| cbn; discriminate].
  match goal with
  | |- context [run h (AzureStorage.List_loop fuel ?p ?o) ?wl] =>
      specialize (IH p o result wl (Hitems objects' eq_refl));
      destruct (run h (AzureStorage.List_loop fuel p o) wl) as [[? ?] t2]
  end.
  cbn [fst snd] in IH |- *. exact IH.
Qed.

Lemma Azure_records_carry_metadata (fuel : nat) :
  RecordsCarryMetadata (Azure_Storage fuel).
Proof.
  intros W h w bucket name. split.
  - intros objects. cbn [List Azure_Storage].
    apply Azure_List_loop_metadata. constructor.
  - intros info. apply GetObjectInfo_metadata_Azure.
Qed.

Lemma OSS_directories_without_metadata (o : oss.Client) (fuel : nat) :
  DirectoriesWithoutMetadata (OSS_Storage o fuel).
Proof.
  intros W h w bucket prefix dirs.
  cbn [ListDirectories OSS_Storage].
  unfold OSSStorage.ListDirectories, oss.GetBucket.
  destruct (oss.CheckBucketName o bucket); [cbn; discriminate |].
  intros Hres. apply OSS_ListDirectories_loop_names in Hres.
  rewrite Hres. cbn [app]. apply Forall_map_records. reflexivity.
Qed.

Lemma OBS_directories_without_metadata :
  DirectoriesWithoutMetadata OBS_Storage.
Proof.
  intros W h w bucket prefix dirs.
  cbn [ListDirectories OBS_Storage]. unfold OBStorage.ListDirectories.
  run_step h. destruct r as [result | err]; [| cbn; discriminate].
  cbn. rewrite (fold_append_map directoryRecord). intros [= <-].
  cbn [app]. apply Forall_map_records. reflexivity.
Qed.

Lemma Azure_directories_without_metadata (fuel : nat) :
  DirectoriesWithoutMetadata (Azure_Storage fuel).
Proof.
  intros W h w bucket prefix dirs Hres.
  cbn [ListDirectories Azure_Storage] in *.
  unfold AzureStorage.ListDirectories in *.
  destruct (Azure_ListDirectories_loop_state h fuel _ _ [] w dirs
              DirState_empty Hres) as (dirMap & _ & _ & Hrec & _).
  cbn [fst snd] in Hrec.
  eapply List.Forall_impl; [| exact Hrec].
  intros d ->. reflexivity.
Qed.

End MetadataByAdapter.

(** C9 (at [ListDirectories] of the Azure, OSS and OBS adapters). Every
    record these three adapters return from [ListDirectories] has the nil
    metadata map, the record being built without a [Metadata] field; for a
    container holding the one blob [a/x.txt], each of them returns the
    directory record [a/], whose map is nil. *)
Theorem C9_directory_records_nil_metadata :
  (forall fuel, DirectoriesWithoutMetadata (Azure_Storage fuel)) /\
  (forall o fuel, DirectoriesWithoutMetadata (OSS_Storage o fuel)) /\
  DirectoriesWithoutMetadata OBS_Storage /\
  (run MemStore.azblob_handler (ListDirectories (Storage := Azure_Storage 2)
                                  "bkt" "") Samples.oneFile).1.1
  = Done (Ok [directoryRecord "a/"]) /\
  (run MemStore.oss_handler
       (ListDirectories (Storage := OSS_Storage MemStore.oss_client 2) "bkt" "")
       Samples.oneFile).1.1
  = Done (Ok [directoryRecord "a/"]) /\
  (run MemStore.obs_handler (ListDirectories (Storage := OBS_Storage) "bkt" "")
       Samples.oneFile).1.1
  = Done (Ok [directoryRecord "a/"]) /\
  Metadata (directoryRecord "a/") = None.
Proof.
  split; [exact Azure_directories_without_metadata |].
  split; [exact OSS_directories_without_metadata |].
  split; [exact OBS_directories_without_metadata |].
  repeat split; vm_compute; reflexivity.
Qed.

(** The other records carry a map: those of [List] and [GetObjectInfo] in
    every adapter, and those of [ListDirectories] in the MinIO adapter. *)
Lemma other_records_carry_metadata :
  RecordsCarryMetadata MinIO_Storage /\
  (forall o fuel, RecordsCarryMetadata (OSS_Storage o fuel)) /\
  RecordsCarryMetadata OBS_Storage /\
  (forall fuel, RecordsCarryMetadata (Azure_Storage fuel)) /\
  DirectoriesCarryMetadata MinIO_Storage.
Proof.
  split; [exact MinIO_records_carry_metadata |].
  split; [exact OSS_records_carry_metadata |].
  split; [exact OBS_records_carry_metadata |].
  split; [exact Azure_records_carry_metadata |].
  exact MinIO_directories_carry_metadata.
Qed.



(* ===================================================================== *)
(** * The adapters: [EnsurePathExists] *)
(* ===================================================================== *)

Section EnsureFacts.

Lemma minio_notFound_code (e : error) :
  String.eqb (minio.ToErrorResponse_Code e) "NoSuchKey" = minio_notFound e.
Proof. destruct e; reflexivity. Qed.

Lemma MinIO_ensures_path :
  EnsuresPath MinIO_Storage OpStat minio_notFound (fun _ => None).
Proof.
  intros W h w bucket objectPath dir key res w' t. subst res w' t.
  cbn [EnsurePathExists MinIO_Storage]. unfold MinIOStorage.EnsurePathExists.
  fold dir. unfold isRootDir.
  destruct (String.eqb dir "." || String.eqb dir "/"); [cbn; auto |].
  fold key. run_step h. destruct r as [info | err].
  - cbn. apply ensure_found.
  - rewrite minio_notFound_code.
    destruct (minio_notFound err) eqn:Hnf; cbn [negb].
    + unfold MinIOStorage.CreateDirectory. subst key.
      rewrite withTrailingSlash_idem. run_step h. cbn.
      apply ensure_created. exact Hnf.
    + cbn. apply ensure_failed. exact Hnf.
Qed.

Lemma OSS_ensures_path (o : oss.Client) (fuel : nat) :
  EnsuresPath (OSS_Storage o fuel) OpStat oss_notFound
              (oss.CheckBucketName o).
Proof.
  intros W h w bucket objectPath dir key res w' t. subst res w' t.
  cbn [EnsurePathExists OSS_Storage]. unfold OSSStorage.EnsurePathExists.
  fold dir. unfold isRootDir.
  destruct (String.eqb dir "." || String.eqb dir "/"); [cbn; auto |].
  fold key. unfold OSSStorage.CreateDirectory, oss.GetBucket.
  destruct (oss.CheckBucketName o bucket); [cbn; auto |].
  run_step h. destruct r as [props | err].
  - cbn. apply ensure_found.
  - destruct err; cbn [oss.as_ServiceError];
      try (cbn; apply ensure_failed; reflexivity).
    destruct (String.eqb Code "NoSuchKey") eqn:Hnf.
    + subst key. rewrite withTrailingSlash_idem. run_step h. cbn.
      apply ensure_created. exact Hnf.
    + cbn. apply ensure_failed. exact Hnf.
Qed.

Lemma OBS_ensures_path :
  EnsuresPath OBS_Storage OpStat obs_notFound (fun _ => None).
Proof.
  intros W h w bucket objectPath dir key res w' t. subst res w' t.
  cbn [EnsurePathExists OBS_Storage]. unfold OBStorage.EnsurePathExists.
  fold dir. unfold isRootDir.
  destruct (String.eqb dir "." || String.eqb dir "/"); [cbn; auto |].
  fold key. unfold OBStorage.CreateDirectory.
  run_step h. destruct r as [output | err].
  - cbn. apply ensure_found.
  - destruct err; cbn [obs.as_ObsError];
      try (cbn; apply ensure_failed; reflexivity).
    destruct (String.eqb Code "NoSuchKey" || String.eqb Code "404") eqn:Hnf.
    + subst key. rewrite withTrailingSlash_idem. run_step h. cbn.
      apply ensure_created. exact Hnf.
    + cbn. apply ensure_failed. exact Hnf.
Qed.

Lemma Azure_ensures_path (fuel : nat) :
  EnsuresPath (Azure_Storage fuel) OpGet azblob_notFound (fun _ => None).
Proof.
  intros W h w bucket objectPath dir key res w' t. subst res w' t.
  cbn [EnsurePathExists Azure_Storage]. unfold AzureStorage.EnsurePathExists.
  fold dir. unfold isRootDir.
  destruct (String.eqb dir "." || String.eqb dir "/"); [cbn; auto |].
  fold key. unfold AzureStorage.CreateDirectory.
  run_step h. destruct r as [body | err].
  - cbn. apply ensure_found.
  - destruct (azblob.as_ResponseError err) as [status |] eqn:Has.
    + destruct (Z.eqb status 404) eqn:Hnf.
      * subst key. rewrite withTrailingSlash_idem. run_step h. cbn.
        apply ensure_created. unfold azblob_notFound. rewrite Has. exact Hnf.
      * cbn. apply ensure_failed. unfold azblob_notFound. rewrite Has.
        exact Hnf.
    + cbn. apply ensure_failed. unfold azblob_notFound. rewrite Has.
      reflexivity.
Qed.

(** The in-memory store shows an object to the request after its write. *)
Lemma get_put (bucket key : string) (o : MemStore.Object)
  (w : MemStore.World) :
  MemStore.get bucket key (MemStore.put bucket key o w) = Some o.
Proof. unfold MemStore.get, MemStore.put. cbn. apply lookup_insert_eq. Qed.

Lemma MinIO_ensure_idempotent :
  EnsureIdempotent MinIO_Storage MemStore.minio_handler (fun _ => None).
Proof.
  intros w bucket objectPath first second. subst first second.
  cbn [EnsurePathExists MinIO_Storage]. unfold MinIOStorage.EnsurePathExists.
  unfold isRootDir.
  destruct (String.eqb (Dir objectPath) "." || String.eqb (Dir objectPath) "/");
    [cbn; repeat split; auto; discriminate |].
  set (key := withTrailingSlash (Dir objectPath)).
  cbn [run bind call MemStore.minio_handler].
  destruct (MemStore.get bucket key w) as [o |] eqn:Hget.
  - cbn [fst snd run bind call MemStore.minio_handler]. rewrite Hget.
    cbn. repeat split; intros; rewrite ?Hget; eauto.
  - cbn [negb minio.ToErrorResponse_Code MemStore.minio_missing String.eqb
         Ascii.eqb Bool.eqb].
    unfold MinIOStorage.CreateDirectory. subst key.
    rewrite withTrailingSlash_idem.
    cbn [fst snd run bind call MemStore.minio_handler].
    rewrite get_put.
    cbn. repeat split; intros; rewrite ?get_put; eauto.
Qed.

Lemma OSS_ensure_idempotent (fuel : nat) :
  EnsureIdempotent (OSS_Storage MemStore.oss_client fuel)
    MemStore.oss_handler (oss.CheckBucketName MemStore.oss_client).
Proof.
  intros w bucket objectPath first second. subst first second.
  cbn [EnsurePathExists OSS_Storage]. unfold OSSStorage.EnsurePathExists.
  unfold isRootDir.
  destruct (String.eqb (Dir objectPath) "." || String.eqb (Dir objectPath) "/");
    [cbn; repeat split; auto; discriminate |].
  set (key := withTrailingSlash (Dir objectPath)).
  unfold OSSStorage.CreateDirectory, oss.GetBucket.
  destruct (oss.CheckBucketName MemStore.oss_client bucket) as [e |];
    [cbn; repeat split; auto; discriminate |].
  cbn [run bind call MemStore.oss_handler].
  destruct (MemStore.get bucket key w) as [o |] eqn:Hget.
  - cbn [fst snd run bind call MemStore.oss_handler]. rewrite Hget.
    cbn. repeat split; intros; rewrite ?Hget; eauto.
  - cbn [oss.as_ServiceError MemStore.oss_missing String.eqb
         Ascii.eqb Bool.eqb].
    subst key. rewrite withTrailingSlash_idem.
    cbn [fst snd run bind call MemStore.oss_handler].
    rewrite get_put.
    cbn. repeat split; intros; rewrite ?get_put; eauto.
Qed.

Lemma OBS_ensure_idempotent :
  EnsureIdempotent OBS_Storage MemStore.obs_handler (fun _ => None).
Proof.
  intros w bucket objectPath first second. subst first second.
  cbn [EnsurePathExists OBS_Storage]. unfold OBStorage.EnsurePathExists.
  unfold isRootDir.
  destruct (String.eqb (Dir objectPath) "." || String.eqb (Dir objectPath) "/");
    [cbn; repeat split; auto; discriminate |].
  set (key := withTrailingSlash (Dir objectPath)).
  unfold OBStorage.CreateDirectory.
  cbn [run bind call MemStore.obs_handler].
  destruct (MemStore.get bucket key w) as [o |] eqn:Hget.
  - cbn [fst snd run bind call MemStore.obs_handler]. rewrite Hget.
    cbn. repeat split; intros; rewrite ?Hget; eauto.
  - cbn [obs.as_ObsError MemStore.obs_missing String.eqb
         Ascii.eqb Bool.eqb orb].
    subst key. rewrite withTrailingSlash_idem.
    cbn [fst snd run bind call MemStore.obs_handler obs.put_Bucket
         obs.put_Key obs.put_Body obs.put_ContentType].
    rewrite get_put.
    cbn. repeat split; intros; rewrite ?get_put; eauto.
Qed.

Lemma Azure_ensure_idempotent (fuel : nat) :
  EnsureIdempotent (Azure_Storage fuel) MemStore.azblob_handler
                   (fun _ => None).
Proof.
  intros w bucket objectPath first second. subst first second.
  cbn [EnsurePathExists Azure_Storage]. unfold AzureStorage.EnsurePathExists.
  unfold isRootDir.
  destruct (String.eqb (Dir objectPath) "." || String.eqb (Dir objectPath) "/");
    [cbn; repeat split; auto; discriminate |].
  set (key := withTrailingSlash (Dir objectPath)).
  unfold AzureStorage.CreateDirectory.
  cbn [run bind call MemStore.azblob_handler].
  destruct (MemStore.get bucket key w) as [o |] eqn:Hget.
  - cbn [fst snd run bind call MemStore.azblob_handler]. rewrite Hget.
    cbn. repeat split; intros; rewrite ?Hget; eauto.
  - cbn [azblob.as_ResponseError MemStore.azblob_missing Z.eqb Pos.eqb].
    subst key. rewrite withTrailingSlash_idem.
    cbn [fst snd run bind call MemStore.azblob_handler].
    rewrite get_put.
    cbn. repeat split; intros; rewrite ?get_put; eauto.
Qed.

End EnsureFacts.

(** C3 (as amended). [EnsurePathExists] takes the parent directory of the
    path ([path.Dir]). If it is ["."] or ["/"] it succeeds with no call at
    all. Otherwise the marker key is the parent made to end with ["/"]; the
    OSS adapter first has its client check the bucket name and returns the
    client's error, with no request sent, if the check fails; then the
    adapter probes that exact key (a metadata request in the MinIO, OSS and
    OBS adapters, a download request in the Azure adapter): if the probe
    succeeds it returns success and writes nothing; if the probe fails with
    the provider's error for a missing key it creates the marker, an empty
    object of type [application/directory] at that same key, and returns
    the result of the write; any other probe error is returned as it is. On
    a store that shows a written object to the next request, two calls in a
    row on the same path leave one marker, and the second call writes
    nothing. *)
Theorem C3_EnsurePathExists :
  (EnsuresPath MinIO_Storage OpStat minio_notFound (fun _ => None) /\
   (forall o fuel,
       EnsuresPath (OSS_Storage o fuel) OpStat oss_notFound
                   (oss.CheckBucketName o)) /\
   EnsuresPath OBS_Storage OpStat obs_notFound (fun _ => None) /\
   (forall fuel,
       EnsuresPath (Azure_Storage fuel) OpGet azblob_notFound
                   (fun _ => None))) /\
  (forall objectPath : string,
      HasSuffix (withTrailingSlash (Dir objectPath)) "/" = true) /\
  (EnsureIdempotent MinIO_Storage MemStore.minio_handler (fun _ => None) /\
   (forall fuel,
       EnsureIdempotent (OSS_Storage MemStore.oss_client fuel)
         MemStore.oss_handler (oss.CheckBucketName MemStore.oss_client)) /\
   EnsureIdempotent OBS_Storage MemStore.obs_handler (fun _ => None) /\
   (forall fuel,
       EnsureIdempotent (Azure_Storage fuel) MemStore.azblob_handler
                        (fun _ => None))).
Proof.
  split; [| split].
  - split; [exact MinIO_ensures_path |].
    split; [exact OSS_ensures_path |].
    split; [exact OBS_ensures_path | exact Azure_ensures_path].
  - intros objectPath. apply withTrailingSlash_suffix.
  - split; [exact MinIO_ensure_idempotent |].
    split; [exact OSS_ensure_idempotent |].
    split; [exact OBS_ensure_idempotent | exact Azure_ensure_idempotent].
Qed.

(** An upload to [q/r/s.txt] in a bucket without the marker [q/r/], through
    the MinIO adapter: the probe finds nothing and the marker is written;
    called again, the adapter finds it and writes nothing. *)
Lemma C3_EnsurePathExists_witness :
  let first := run MemStore.minio_handler
                   (EnsurePathExists (Storage := MinIO_Storage)
                                     "bkt" "q/r/s.txt") Samples.small in
  let second := run MemStore.minio_handler
                    (EnsurePathExists (Storage := MinIO_Storage)
                                      "bkt" "q/r/s.txt") first.1.2 in
  (isRootDir (Dir "q/r/s.txt") = false /\
   trace_ops first.2
   = [(OpStat "bkt" "q/r/", [MemStore.minio_missing]);
      (OpPut "bkt" "q/r/" "" "application/directory", [])]) /\
  EnsureOutcome (OpStat "bkt" "q/r/")
    (OpPut "bkt" "q/r/" "" "application/directory") minio_notFound
    (trace_ops first.2) first.1.1 /\
  second.1.2 = first.1.2 /\
  trace_writes second.2 = [] /\
  is_Some (MemStore.get "bkt" "q/r/" first.1.2).
Proof.
  intros first second.
  split; [split; reflexivity |].
  destruct C3_EnsurePathExists as ((Hminio & _) & _ & (Hidem & _)).
  split; [exact (Hminio _ MemStore.minio_handler Samples.small "bkt"
                        "q/r/s.txt") |].
  destruct (Hidem Samples.small "bkt" "q/r/s.txt")
    as (Hsame & Hnowrite & _ & Hmarker).
  split; [exact Hsame |]. split; [exact Hnowrite |].
  apply (Hmarker eq_refl eq_refl).
Defined.

(** The claim as stated fails at the probe. Through the Azure adapter the
    probe is a download of the marker, not a metadata request: for
    [q/r/s.txt] the calls are the download of [q/r/] and the write of
    [q/r/]. Through the OSS adapter a bucket name the client rejects ends
    the call with the client's error before any probe. *)
Lemma C3_counterexample :
  ~ ProbesWithStat (Azure_Storage 0) /\
  ~ ProbesWithStat (OSS_Storage MemStore.oss_client 0) /\
  map call_op
      (run MemStore.azblob_handler
           (EnsurePathExists (Storage := Azure_Storage 0) "bkt" "q/r/s.txt")
           Samples.small).2
  = [OpGet "bkt" "q/r/"; OpPut "bkt" "q/r/" "" "application/directory"] /\
  run MemStore.oss_handler
      (EnsurePathExists (Storage := OSS_Storage MemStore.oss_client 0)
                        "b" "q/r/s.txt") Samples.small
  = (Some (errorString "bucket name b is invalid"), Samples.small, []).
Proof.
  split; [| split; [| split; reflexivity]].
  - intros Hstat.
    specialize (Hstat _ MemStore.azblob_handler Samples.small "bkt"
                      "q/r/s.txt" eq_refl).
    vm_compute in Hstat. discriminate.
  - intros Hstat.
    specialize (Hstat _ MemStore.oss_handler Samples.small "b"
                      "q/r/s.txt" eq_refl).
    vm_compute in Hstat. discriminate.
Qed.

(* ===================================================================== *)
(** * The adapters: further properties *)
(* ===================================================================== *)

Section MoreSegmentFacts.

Lemma Split_snoc_slash (d : string) :
  Split (d +:+ "/") slash = Split d slash ++ [""].
Proof.
  induction d as [| c d IH]; [reflexivity |].
  rewrite append_cons. cbn [Split]. rewrite IH.
  destruct (Ascii.eqb c slash); [reflexivity |].
  destruct (Split d slash) as [| p ps] eqn:Hs; [| reflexivity].
  exfalso. exact (Split_not_nil slash d Hs).
Qed.

Lemma Join_cons (e : string) (rest : list string) (sep : string) :
  rest <> [] -> Join (e :: rest) sep = e +:+ sep +:+ Join rest sep.
Proof. destruct rest; [congruence | reflexivity]. Qed.

Lemma Join_app (a b : list string) (sep : string) :
  a <> [] -> b <> [] ->
  Join (a ++ b) sep = Join a sep +:+ sep +:+ Join b sep.
Proof.
  intros Ha Hb. induction a as [| x a IH]; [congruence |].
  destruct a as [| y a].
  - cbn [app]. rewrite Join_cons by exact Hb. reflexivity.
  - cbn [app] in *. rewrite Join_cons by discriminate.
    rewrite IH by discriminate.
    rewrite (Join_cons x (y :: a)) by discriminate.
    rewrite !append_assoc. reflexivity.
Qed.

(** [strings.Join(strings.Split(s, "/"), "/")] is [s]. *)
Lemma Join_Split (s : string) : Join (Split s slash) "/" = s.
Proof.
  induction s as [| c s IH]; [reflexivity |].
  cbn [Split]. destruct (Ascii.eqb_spec c slash) as [-> | Hc].
  - rewrite Join_cons by apply Split_not_nil. rewrite IH. reflexivity.
  - destruct (Split s slash) as [| p ps] eqn:Hs;
      [exfalso; exact (Split_not_nil slash s Hs) |].
    destruct ps as [| q ps].
    + cbn in *. rewrite IH. reflexivity.
    + rewrite Join_cons in * by discriminate.
      rewrite append_cons, IH. reflexivity.
Qed.

Lemma take_drop_bytes (n : nat) (s : string) :
  take_bytes n s +:+ drop_bytes n s = s.
Proof.
  revert n. induction s as [| c s IH]; intros [| n]; cbn; try reflexivity.
  rewrite append_cons, IH. reflexivity.
Qed.

Lemma HasSuffix_split (s t : string) :
  HasSuffix s t = true -> exists front : string, s = front +:+ t.
Proof.
  unfold HasSuffix. intros Hs. apply andb_true_iff in Hs as [_ Heq].
  apply String.eqb_eq in Heq.
  exists (take_bytes (String.length s - String.length t) s).
  rewrite <- Heq at 2. symmetry. apply take_drop_bytes.
Qed.

Lemma HasPrefix_append (a b : string) : HasPrefix (a +:+ b) a = true.
Proof.
  unfold HasPrefix. induction a as [| c a IH]; [destruct b; reflexivity |].
  rewrite append_cons. cbn. destruct (ascii_dec c c); [exact IH | congruence].
Qed.

(** Two prefixes of one string: one is a prefix of the other. *)
Lemma HasPrefix_comparable (s p q : string) :
  HasPrefix s p = true -> HasPrefix s q = true ->
  HasPrefix p q = true \/ HasPrefix q p = true.
Proof.
  unfold HasPrefix. revert p q.
  induction s as [| c s IH]; intros [| x p] [| y q] Hp Hq; cbn in *;
    try discriminate; auto.
  destruct (ascii_dec x c) as [-> |]; [| discriminate].
  destruct (ascii_dec y c) as [-> |]; [| discriminate].
  destruct (ascii_dec c c); [| congruence]. apply IH; assumption.
Qed.

(** A directory path derived from a blob name is the start of that name. *)
Lemma parentDirs_prefix (name d : string) :
  In d (AzureStorage.parentDirs name) -> HasPrefix name d = true.
Proof.
  intros Hd. apply parentDirs_spec in Hd as (i & Hi & ->).
  rewrite <- (Join_Split name) at 1.
  rewrite <- (take_drop i (Split name slash)) at 1.
  rewrite Join_app.
  - rewrite <- append_assoc. apply HasPrefix_append.
  - intros Hnil. apply (f_equal length) in Hnil.
    rewrite length_take in Hnil. cbn in Hnil. lia.
  - intros Hnil. apply (f_equal length) in Hnil.
    rewrite length_drop in Hnil. cbn in Hnil. lia.
Qed.

(** A blob name that ends with a slash is among its own directory paths. *)
Lemma parentDirs_marker (name : string) :
  HasSuffix name "/" = true -> In name (AzureStorage.parentDirs name).
Proof.
  intros Hs. apply HasSuffix_split in Hs as (front & ->).
  apply parentDirs_spec. exists (length (Split front slash)).
  rewrite Split_snoc_slash, length_app. cbn [length].
  pose proof (Split_not_nil slash front) as Hne.
  split.
  - destruct (Split front slash); [congruence | cbn; lia].
  - rewrite take_app_length, Join_Split. reflexivity.
Qed.

(** A name without a slash has no directory path. *)
Lemma Split_no_slash (s : string) :
  hasByte slash s = false -> Split s slash = [s].
Proof.
  induction s as [| c s IH]; [reflexivity |].
  cbn. intros Hs. apply orb_false_iff in Hs as [Hc Hs].
  rewrite Hc, (IH Hs). reflexivity.
Qed.

End MoreSegmentFacts.

Section AzureListings.

(** A blob whose name ends with a slash (a directory marker, as
    [CreateDirectory] writes it) is returned by the Azure [ListDirectories]
    as a directory of that very name, whenever a page lists it. *)
Theorem Azure_ListDirectories_lists_markers :
  forall (fuel : nat) (W : Type) (h : Handler azblob.Call W) (w : W)
         (bucket prefix : string) (dirs : list FileObject),
    let r := run h (AzureStorage.ListDirectories fuel bucket prefix) w in
    r.1.1 = Done (Ok dirs) ->
    forall name : string,
      In name (blobNames (pagesFetched r.2)) ->
      HasSuffix name "/" = true ->
      In (directoryRecord name) dirs.
Proof.
  intros fuel W h w bucket prefix dirs r Hres name Hin Hs. subst r.
  unfold AzureStorage.ListDirectories in *.
  destruct (Azure_ListDirectories_loop_state h fuel _ _ [] w dirs
              DirState_empty Hres) as (dirMap & _ & _ & Hrec & Hdue).
  cbn [fst snd app] in *.
  assert (Hname : In name (map Name dirs)).
  { apply Hdue. unfold directoriesOf. apply in_flat_map.
    exists name. split; [exact Hin | apply parentDirs_marker, Hs]. }
  apply in_map_iff in Hname as (d & <- & Hd).
  rewrite List.Forall_forall in Hrec. rewrite <- (Hrec d Hd). exact Hd.
Qed.

(** The sample container holds the marker [a/]; the listing returns it. *)
Lemma Azure_ListDirectories_lists_markers_witness :
  let r := run MemStore.azblob_handler
               (AzureStorage.ListDirectories 4 "bkt" "") Samples.small in
  let dirs := [directoryRecord "a/"; directoryRecord "b/";
               directoryRecord "b//"] in
  (r.1.1 = Done (Ok dirs) /\
   In "a/" (blobNames (pagesFetched r.2)) /\
   HasSuffix "a/" "/" = true) /\
  In (directoryRecord "a/") dirs.
Proof.
  intros r dirs.
  assert (Hres : r.1.1 = Done (Ok dirs)) by (vm_compute; reflexivity).
  assert (Hin : In "a/" (blobNames (pagesFetched r.2)))
    by (vm_compute; auto).
  assert (Hs : HasSuffix "a/" "/" = true) by reflexivity.
  split; [auto |].
  exact (Azure_ListDirectories_lists_markers 4 _ MemStore.azblob_handler
           Samples.small "bkt" "" dirs Hres "a/" Hin Hs).
Defined.

(** Every name the Azure [ListDirectories] returns is the start of the
    name of a listed blob. So when the provider lists only blobs under the
    prefix asked for, each name returned either lies under that prefix or is
    an ancestor of it: the directories above the prefix are returned
    too. *)
Theorem Azure_ListDirectories_names_start_blobs :
  forall (fuel : nat) (W : Type) (h : Handler azblob.Call W) (w : W)
         (bucket prefix : string) (dirs : list FileObject),
    let r := run h (AzureStorage.ListDirectories fuel bucket prefix) w in
    r.1.1 = Done (Ok dirs) ->
    Forall (fun d => exists blob : string,
                In blob (blobNames (pagesFetched r.2)) /\
                HasPrefix blob (Name d) = true) dirs /\
    (Forall (fun blob => HasPrefix blob prefix = true)
            (blobNames (pagesFetched r.2)) ->
     Forall (fun d => HasPrefix (Name d) prefix = true \/
                      HasPrefix prefix (Name d) = true) dirs).
Proof.
  intros fuel W h w bucket prefix dirs r Hres. subst r.
  destruct (Azure_directory_names fuel W h w bucket prefix dirs Hres)
    as (_ & Hdue & _).
  cbn [ListDirectories Azure_Storage] in Hdue.
  assert (Hblob : forall d, In d dirs ->
            exists blob,
              In blob (blobNames
                         (pagesFetched
                            (run h (AzureStorage.ListDirectories fuel bucket
                                                                 prefix)
                                 w).2)) /\
              HasPrefix blob (Name d) = true).
  { intros d Hd. apply (in_map Name) in Hd. apply Hdue in Hd.
    unfold directoriesOf in Hd. apply in_flat_map in Hd as (blob & Hb & Hp).
    exists blob. split; [exact Hb | apply parentDirs_prefix, Hp]. }
  split.
  - apply List.Forall_forall. exact Hblob.
  - intros Hunder. rewrite List.Forall_forall in Hunder.
    apply List.Forall_forall. intros d Hd.
    destruct (Hblob d Hd) as (blob & Hb & Hp).
    destruct (HasPrefix_comparable blob (Name d) prefix Hp (Hunder blob Hb));
      auto.
Qed.

(** A container with the one blob [q/r/s.txt], listed under [q/r/]: the
    names returned are [q/], above the prefix, and [q/r/]. *)
Lemma Azure_ListDirectories_names_start_blobs_witness :
  let w := MemStore.withKeys "bkt" ["q/r/s.txt"] 2 in
  let r := run MemStore.azblob_handler
               (AzureStorage.ListDirectories 4 "bkt" "q/r/") w in
  let dirs := [directoryRecord "q/"; directoryRecord "q/r/"] in
  (r.1.1 = Done (Ok dirs) /\
   Forall (fun blob => HasPrefix blob "q/r/" = true)
          (blobNames (pagesFetched r.2))) /\
  Forall (fun d => exists blob : string,
              In blob (blobNames (pagesFetched r.2)) /\
              HasPrefix blob (Name d) = true) dirs /\
  Forall (fun d => HasPrefix (Name d) "q/r/" = true \/
                   HasPrefix "q/r/" (Name d) = true) dirs.
Proof.
  intros w r dirs.
  assert (Hres : r.1.1 = Done (Ok dirs)) by (vm_compute; reflexivity).
  assert (Hunder : Forall (fun blob => HasPrefix blob "q/r/" = true)
                          (blobNames (pagesFetched r.2)))
    by (vm_compute; repeat constructor).
  split; [auto |].
  destruct (Azure_ListDirectories_names_start_blobs 4 _
              MemStore.azblob_handler w "bkt" "q/r/" dirs Hres)
    as (Hstart & Hcmp).
  split; [exact Hstart | exact (Hcmp Hunder)].
Defined.

(** The conversion of one page by the Azure [List]: it fails exactly when
    an item of the page has a nil field. *)
Lemma Azure_List_items_panics {W : Type} (h : Handler azblob.Call W)
  (items : list azblob.BlobItem) :
  forall (objects : list FileObject) (w : W),
    (run h (AzureStorage.List_items items objects) w).1.1 = None
    <-> existsb nilField items = true.
Proof.
  induction items as [| blob rest IH]; intros objects w.
  - cbn. split; discriminate.
  - cbn [AzureStorage.List_items existsb]. unfold nilField at 1.
    destruct (azblob.Properties blob); [| cbn; tauto].
    run_step h. destruct (azblob.Name blob); [| cbn; tauto].
    match goal with
    | |- context [run h (AzureStorage.List_items rest ?o) ?w1] =>
        specialize (IH o w1);
        destruct (run h (AzureStorage.List_items rest o) w1) as [[res ?] t2]
    end.
    cbn [fst snd orb] in IH |- *. exact IH.
Qed.

Lemma Azure_List_loop_panics {W : Type} (h : Handler azblob.Call W)
  (fuel : nat) :
  forall (pager : azblob.Pager) (objects : list FileObject) (w : W),
    let r := run h (AzureStorage.List_loop fuel pager objects) w in
    r.1.1 = Panic
    <-> existsb nilField (flat_map azblob.BlobItems (pagesFetched r.2))
        = true.
Proof.
  induction fuel as [| fuel IH]; intros pager objects w;
    [cbn; split; discriminate |].
  cbn [AzureStorage.List_loop].
  destruct (azblob.More pager); [| cbn; split; discriminate].
  unfold azblob.NextPage. run_step h.
  destruct r as [resp | err]; [| cbn; split; discriminate].
  cbn [run bind call]. rewrite run_bind.
  pose proof (Azure_List_items_panics h (azblob.BlobItems resp) objects w0)
    as Hitems.
  destruct (Azure_List_items_run h (azblob.BlobItems resp) objects w0)
    as (Hip & _ & _).
  destruct (run h (AzureStorage.List_items (azblob.BlobItems resp) objects)
                w0) as [[res w1] t1].
  cbn [fst snd] in Hitems, Hip.
  destruct res as [objects' |].
  - match goal with
    | |- context [run h (AzureStorage.List_loop fuel ?p ?o) ?wl] =>
        specialize (IH p o wl);
        destruct (run h (AzureStorage.List_loop fuel p o) wl)
          as [[res ?] t2]
    end.
    cbn [fst snd] in IH |- *.
    unfold pagesFetched in *.
    cbn [omap list_omap call_event call_answer].
    change (list_omap _ _ ?f ?l) with (omap f l).
    rewrite omap_app, Hip. cbn [app flat_map].
    rewrite existsb_app.
    destruct (existsb nilField (azblob.BlobItems resp)) eqn:Hbad.
    + destruct Hitems as [_ Hitems]. specialize (Hitems eq_refl).
      discriminate.
    + cbn [orb]. exact IH.
  - cbn [run fst snd]. unfold pagesFetched in *.
    cbn [omap list_omap call_event call_answer].
    change (list_omap _ _ ?f ?l) with (omap f l).
    rewrite app_nil_r, Hip. cbn [flat_map]. rewrite app_nil_r.
    destruct Hitems as [Hitems _]. rewrite (Hitems eq_refl). tauto.
Qed.

(** The Azure [List] ends in a run-time panic exactly when a page it
    fetched holds an item whose [Properties] or [Name] is nil: it
    dereferences both without a check (its [ListDirectories] tests
    [blob.Name != nil] and never panics). *)
Theorem Azure_List_panics_on_nil_field :
  forall (fuel : nat) (W : Type) (h : Handler azblob.Call W) (w : W)
         (containerName prefix : string),
    let r := run h (AzureStorage.List fuel containerName prefix) w in
    r.1.1 = Panic
    <-> existsb nilField (flat_map azblob.BlobItems (pagesFetched r.2))
        = true.
Proof.
  intros fuel W h w containerName prefix.
  apply Azure_List_loop_panics.
Qed.

End AzureListings.

Section AdapterRecords.

Lemma filter_all {A : Type} (l : list A) : List.filter (fun _ => true) l = l.
Proof. induction l as [| x l IH]; cbn; [| rewrite IH]; reflexivity. Qed.

Lemma MinIO_List_loop_listing (items : list minio.ObjectInfo) :
  forall objects : list FileObject,
    MinIOStorage.List_loop items objects
    = match head (omap minio.Err items) with
      | Some err => Err err
      | None => Ok (objects ++ map (minioRecord false) items)
      end.
Proof.
  induction items as [| object rest IH]; intros objects.
  - cbn. rewrite app_nil_r. reflexivity.
  - cbn [MinIOStorage.List_loop omap list_omap].
    change (list_omap _ _ ?f ?l) with (omap f l).
    destruct (minio.Err object); [reflexivity |].
    rewrite IH. destruct (head (omap minio.Err rest)); [reflexivity |].
    cbn [map]. rewrite <- app_assoc. reflexivity.
Qed.

Lemma MinIO_ListDirectories_loop_listing (items : list minio.ObjectInfo) :
  forall dirs : list FileObject,
    MinIOStorage.ListDirectories_loop items dirs
    = match head (omap minio.Err items) with
      | Some err => Err err
      | None =>
          Ok (dirs ++ map (minioRecord true)
                          (List.filter
                             (fun o => HasSuffix (minio.Key o) "/") items))
      end.
Proof.
  induction items as [| object rest IH]; intros dirs.
  - cbn. rewrite app_nil_r. reflexivity.
  - cbn [MinIOStorage.ListDirectories_loop omap list_omap List.filter].
    change (list_omap _ _ ?f ?l) with (omap f l).
    destruct (minio.Err object); [reflexivity |].
    destruct (HasSuffix (minio.Key object) "/"); rewrite IH;
      destruct (head (omap minio.Err rest)); try reflexivity.
    cbn [map]. rewrite <- app_assoc. reflexivity.
Qed.

(** The MinIO [List] and [ListDirectories] send one listing request each
    (recursive for [List], one level for [ListDirectories]) and return
    either the first error the listing delivered, with none of the records
    collected before it, or one record for every item delivered
    ([ListDirectories]: for every item whose key ends with a slash), in the
    order delivered. *)
Theorem MinIO_listings_all_or_nothing :
  forall (W : Type) (h : Handler minio.Call W) (w : W)
         (bucket prefix : string),
    (exists (items : list minio.ObjectInfo) (w' : W),
        run h (MinIOStorage.List bucket prefix) w
        = (Done (minioListing false (fun _ => true) items), w',
           [mkCall (minio.ListObjects bucket
                      {| minio.Prefix := prefix; minio.Recursive := true |})
                   items])) /\
    (exists (items : list minio.ObjectInfo) (w' : W),
        run h (MinIOStorage.ListDirectories bucket prefix) w
        = (Done (minioListing true
                   (fun o => HasSuffix (minio.Key o) "/") items), w',
           [mkCall (minio.ListObjects bucket
                      {| minio.Prefix := prefix; minio.Recursive := false |})
                   items])).
Proof.
  intros W h w bucket prefix. unfold minioListing. split.
  - unfold MinIOStorage.List. run_step h. exists r, w0. cbn.
    rewrite MinIO_List_loop_listing, filter_all. reflexivity.
  - unfold MinIOStorage.ListDirectories. run_step h. exists r, w0. cbn.
    rewrite MinIO_ListDirectories_loop_listing. reflexivity.
Qed.

(** ** [CreateDirectory] *)

Lemma MinIO_creates_marker : CreatesMarker MinIO_Storage (fun _ => None).
Proof.
  split.
  - intros W h w bucket name.
    cbn [CreateDirectory MinIO_Storage]. unfold MinIOStorage.CreateDirectory.
    run_step h. reflexivity.
  - intros bucket name.
    cbn [CreateDirectory MinIO_Storage]. unfold MinIOStorage.CreateDirectory.
    rewrite withTrailingSlash_idem. reflexivity.
Qed.

Lemma OSS_creates_marker (o : oss.Client) (fuel : nat) :
  CreatesMarker (OSS_Storage o fuel) (oss.CheckBucketName o).
Proof.
  split.
  - intros W h w bucket name.
    cbn [CreateDirectory OSS_Storage].
    unfold OSSStorage.CreateDirectory, oss.GetBucket.
    destruct (oss.CheckBucketName o bucket); [reflexivity |].
    run_step h. reflexivity.
  - intros bucket name.
    cbn [CreateDirectory OSS_Storage]. unfold OSSStorage.CreateDirectory.
    rewrite withTrailingSlash_idem. reflexivity.
Qed.

Lemma OBS_creates_marker : CreatesMarker OBS_Storage (fun _ => None).
Proof.
  split.
  - intros W h w bucket name.
    cbn [CreateDirectory OBS_Storage]. unfold OBStorage.CreateDirectory.
    run_step h. reflexivity.
  - intros bucket name.
    cbn [CreateDirectory OBS_Storage]. unfold OBStorage.CreateDirectory.
    rewrite withTrailingSlash_idem. reflexivity.
Qed.

Lemma Azure_creates_marker (fuel : nat) :
  CreatesMarker (Azure_Storage fuel) (fun _ => None).
Proof.
  split.
  - intros W h w bucket name.
    cbn [CreateDirectory Azure_Storage]. unfold AzureStorage.CreateDirectory.
    run_step h. reflexivity.
  - intros bucket name.
    cbn [CreateDirectory Azure_Storage]. unfold AzureStorage.CreateDirectory.
    rewrite withTrailingSlash_idem. reflexivity.
Qed.

(** [CreateDirectory], in every adapter: one write, of the empty object of
    type [application/directory] at the name made to end with a slash (no
    request at all when the OSS client rejects the bucket name); the result
    is the answer to that write; and a name with or without its final slash
    names the same marker. The key written always ends with a slash. *)
Theorem CreateDirectory_writes_marker :
  CreatesMarker MinIO_Storage (fun _ => None) /\
  (forall o fuel, CreatesMarker (OSS_Storage o fuel) (oss.CheckBucketName o)) /\
  CreatesMarker OBS_Storage (fun _ => None) /\
  (forall fuel, CreatesMarker (Azure_Storage fuel) (fun _ => None)) /\
  (forall name : string, HasSuffix (withTrailingSlash name) "/" = true).
Proof.
  split; [exact MinIO_creates_marker |].
  split; [exact OSS_creates_marker |].
  split; [exact OBS_creates_marker |].
  split; [exact Azure_creates_marker | exact withTrailingSlash_suffix].
Qed.

(** ** [GetObjectInfo] of the OSS adapter *)

Lemma headerMetadata_lookup (props : oss.Header) (k : string) :
  OSSStorage.headerMetadata props !! k = firstValues props k.
Proof.
  unfold OSSStorage.headerMetadata, firstValues.
  apply (map_fold_weak_ind
           (fun (r : gmap string string) (m : gmap string (list string)) =>
              r !! k = m !! k ≫= head)).
  - rewrite !lookup_empty. reflexivity.
  - intros i v m r Hfresh IH. cbn beta in *.
    destruct (decide (i = k)) as [-> | Hne].
    + rewrite lookup_insert_eq. rewrite Hfresh in IH.
      destruct v as [| v0 vs]; cbn.
      * exact IH.
      * rewrite lookup_insert_eq. reflexivity.
    + rewrite (lookup_insert_ne m) by exact Hne.
      destruct v as [| v0 vs]; [exact IH |].
      rewrite lookup_insert_ne by exact Hne. exact IH.
Qed.

Lemma Header_Get_first (props : oss.Header) (k : string) :
  oss.Header_Get props k = default "" (firstValues props k).
Proof.
  unfold oss.Header_Get, firstValues, oss.Header in *.
  destruct (props !! k) as [[| v vs] |]; reflexivity.
Qed.

(** [GetObjectInfo] of the OSS adapter, when the request succeeds: the
    record is named as the caller asked; its metadata map holds every
    header of the response that has a value, under the header's own name
    and with its first value (so [Content-Length] and [Content-Type] too,
    not only user metadata); its size is the number read from
    [Content-Length], the error of [strconv.ParseInt] being dropped, so 0
    when the header is absent; no error is returned. *)
Theorem OSS_GetObjectInfo_headers :
  forall (o : oss.Client) (W : Type) (h : Handler oss.Call W) (w w' : W)
         (bucketName objectName : string) (props : oss.Header),
    oss.CheckBucketName o bucketName = None ->
    h _ (oss.GetObjectDetailedMeta bucketName objectName) w
    = (Ok props, w') ->
    exists (info : FileObject) (m : gmap string string),
      (run h (OSSStorage.GetObjectInfo o bucketName objectName) w).1.1
      = Ok info /\
      Name info = objectName /\
      Metadata info = Some m /\
      (forall k : string, m !! k = firstValues props k) /\
      Size info = (ParseInt (default "" (firstValues props "Content-Length"))).1 /\
      (firstValues props "Content-Length" = None -> Size info = 0%Z) /\
      ContentType info = default "" (firstValues props "Content-Type") /\
      LastModified info = default "" (firstValues props "Last-Modified").
Proof.
  intros o W h w w' bucketName objectName props Hcheck Hmeta.
  unfold OSSStorage.GetObjectInfo, oss.GetBucket. rewrite Hcheck.
  cbn [run bind call]. rewrite Hmeta. cbn [fst snd run].
  eexists _, _. split; [reflexivity |]. cbn [Name Metadata Size ContentType
                                             LastModified].
  rewrite !Header_Get_first.
  repeat split; try reflexivity.
  - apply headerMetadata_lookup.
  - intros ->. reflexivity.
Qed.

(** The in-memory store answers the request for [a/x.txt] with the headers
    [Content-Length], [Content-Type] and [Last-Modified]. *)
Lemma OSS_GetObjectInfo_headers_witness :
  let props := MemStore.oss_header
                 (MemStore.stored "bkt" Samples.oneFile "a/x.txt") in
  (oss.CheckBucketName MemStore.oss_client "bkt" = None /\
   MemStore.oss_handler _ (oss.GetObjectDetailedMeta "bkt" "a/x.txt")
                        Samples.oneFile
   = (Ok props, Samples.oneFile)) /\
  exists (info : FileObject) (m : gmap string string),
    (run MemStore.oss_handler
         (OSSStorage.GetObjectInfo MemStore.oss_client "bkt" "a/x.txt")
         Samples.oneFile).1.1 = Ok info /\
    Name info = "a/x.txt" /\
    Metadata info = Some m /\
    (forall k : string, m !! k = firstValues props k) /\
    Size info = (ParseInt (default "" (firstValues props "Content-Length"))).1 /\
    (firstValues props "Content-Length" = None -> Size info = 0%Z) /\
    ContentType info = default "" (firstValues props "Content-Type") /\
    LastModified info = default "" (firstValues props "Last-Modified").
Proof.
  intros props.
  assert (Hcheck : oss.CheckBucketName MemStore.oss_client "bkt" = None)
    by reflexivity.
  assert (Hmeta :
    MemStore.oss_handler _ (oss.GetObjectDetailedMeta "bkt" "a/x.txt")
                         Samples.oneFile
    = (Ok props, Samples.oneFile)) by reflexivity.
  split; [auto |].
  exact (OSS_GetObjectInfo_headers MemStore.oss_client _ MemStore.oss_handler
           Samples.oneFile Samples.oneFile "bkt" "a/x.txt" props
           Hcheck Hmeta).
Defined.

(** ** [OSSStorage.ListObjects] *)

(** [ListObjects] of the OSS adapter: no request when the client rejects
    the bucket name; otherwise one request, with the prefix and the
    delimiter ["/"] and no marker, whose error is returned as it is and
    whose answer gives the result, truncated or not: the directory records
    of the common prefixes first, then the records of the objects. *)
Theorem OSS_ListObjects_one_page :
  forall (o : oss.Client) (W : Type) (h : Handler oss.Call W) (w : W)
         (bucketName prefix : string),
    match oss.CheckBucketName o bucketName with
    | Some err =>
        run h (OSSStorage_ListObjects o bucketName prefix) w = (Err err, w, [])
    | None =>
        exists (answer : Result oss.ListObjectsResult) (w' : W),
          run h (OSSStorage_ListObjects o bucketName prefix) w
          = (match answer with
             | Err err => Err err
             | Ok lsRes =>
                 Ok (map directoryRecord (oss.CommonPrefixes lsRes)
                     ++ map OSSStorage.fileRecord (oss.Objects lsRes))
             end, w',
             [mkCall (oss.ListObjects bucketName
                        [oss.Prefix prefix; oss.Delimiter "/"]) answer])
    end.
Proof.
  intros o W h w bucketName prefix.
  unfold OSSStorage_ListObjects, oss.GetBucket.
  destruct (oss.CheckBucketName o bucketName); [reflexivity |].
  run_step h. exists r, w0. destruct r as [lsRes | err]; [| reflexivity].
  cbn. rewrite !fold_append_map. reflexivity.
Qed.

(** ** [EnsurePathExists] for an object at the top of the bucket *)

Lemma Dir_no_slash (s : string) : hasByte slash s = false -> Dir s = ".".
Proof.
  intros Hs. unfold Dir, split_dir. rewrite (Split_no_slash s Hs).
  reflexivity.
Qed.

Lemma Dir_root_child (s : string) :
  hasByte slash s = false -> Dir ("/" +:+ s) = "/".
Proof.
  intros Hs. unfold Dir, split_dir.
  change ("/" +:+ s) with (String "/" s). cbn [Split].
  change (Ascii.eqb "/" slash) with true. cbn match.
  rewrite (Split_no_slash s Hs). reflexivity.
Qed.

Lemma ensures_nothing_at_root {E : Type -> Type} `{Provider E}
  (S : Storage E) (probe : string -> string -> StoreOp)
  (notFound : error -> bool) (precheck : string -> option error)
  (objectPath : string) :
  EnsuresPath S probe notFound precheck ->
  isRootDir (Dir objectPath) = true ->
  EnsuresNothing S objectPath.
Proof.
  intros Hens Hroot W h w bucket.
  specialize (Hens W h w bucket objectPath). cbv zeta in Hens.
  rewrite Hroot in Hens. destruct Hens as (Hres & Hw & Ht).
  destruct (run h (EnsurePathExists bucket objectPath) w) as [[res w'] t].
  cbn in *. subst. reflexivity.
Qed.

(** For an object directly at the top of the bucket (a path without a
    slash, or with the one slash that starts it), [EnsurePathExists]
    succeeds at once in every adapter: no probe, no marker, and for OSS not
    even the check of the bucket name. *)
Theorem EnsurePathExists_top_level :
  forall name objectPath : string,
    hasByte slash name = false ->
    objectPath = name \/ objectPath = "/" +:+ name ->
    EnsuresNothing MinIO_Storage objectPath /\
    (forall o fuel, EnsuresNothing (OSS_Storage o fuel) objectPath) /\
    EnsuresNothing OBS_Storage objectPath /\
    (forall fuel, EnsuresNothing (Azure_Storage fuel) objectPath).
Proof.
  intros name objectPath Hname Hpath.
  assert (Hroot : isRootDir (Dir objectPath) = true).
  { destruct Hpath as [-> | ->].
    - rewrite (Dir_no_slash name Hname). reflexivity.
    - rewrite (Dir_root_child name Hname). reflexivity. }
  split; [| split; [| split]].
  - exact (ensures_nothing_at_root _ _ _ _ _ MinIO_ensures_path Hroot).
  - intros o fuel.
    exact (ensures_nothing_at_root _ _ _ _ _ (OSS_ensures_path o fuel) Hroot).
  - exact (ensures_nothing_at_root _ _ _ _ _ OBS_ensures_path Hroot).
  - intros fuel.
    exact (ensures_nothing_at_root _ _ _ _ _ (Azure_ensures_path fuel) Hroot).
Qed.

(** The object [top.txt]. *)
Lemma EnsurePathExists_top_level_witness :
  (hasByte slash "top.txt" = false /\
   ("top.txt" = "top.txt" \/ "top.txt" = "/" +:+ "top.txt")) /\
  EnsuresNothing MinIO_Storage "top.txt" /\
  (forall o fuel, EnsuresNothing (OSS_Storage o fuel) "top.txt") /\
  EnsuresNothing OBS_Storage "top.txt" /\
  (forall fuel, EnsuresNothing (Azure_Storage fuel) "top.txt").
Proof.
  split; [split; [reflexivity | left; reflexivity] |].
  exact (EnsurePathExists_top_level "top.txt" "top.txt" eq_refl
           (or_introl eq_refl)).
Defined.

End AdapterRecords.

(* ===================================================================== *)
(** * The handlers: further properties *)
(* ===================================================================== *)

Section UploadFacts.
Import api ApiTrace HandlerTrace.

(** An upload whose [Content-Length] header is present and is not a
    decimal [int64] never reaches [Upload]; but [EnsurePathExists] has
    already been called for the object's path, the header being read after
    it: the answer is 400 when that call succeeded (so with the directory
    marker possibly written), and 500 with its error otherwise. *)
Theorem uploadFile_invalid_content_length :
  forall (W : Type) (h : Handler api.Call W) (w : W)
         (s : Server) (c : gin.Context),
    let bucket := gin.Param c "bucket" in
    let object := stripLeadingSlash (gin.Param c "object") in
    let contentLength := gin.GetHeader c "Content-Length" in
    let t := (run h (uploadFile s c) w).2 in
    contentLength <> "" ->
    (ParseInt contentLength).2 = true ->
    uploadsAttempted t = [] /\
    exists answer : option error,
      ensureCalls t = [(bucket, object, answer)] /\
      jsonSent t
      = [match answer with
         | None =>
             (StatusBadRequest, gin.H_error "Invalid Content-Length header")
         | Some err =>
             (StatusInternalServerError,
              gin.H_error ("Failed to ensure path exists: " +:+ Error err))
         end].
Proof.
  intros W h w s c bucket object contentLength t Hne Hbad. subst t.
  unfold uploadFile. fold bucket. fold object. fold contentLength.
  apply String.eqb_neq in Hne. rewrite Hne. cbn [negb]. rewrite Hbad.
  run_step h. run_step h. destruct r0 as [err |]; run_step h.
  - split; [reflexivity |]. exists (Some err). split; reflexivity.
  - split; [reflexivity |]. exists None. split; reflexivity.
Qed.

(** The header [Content-Length: 12a]. *)
Lemma uploadFile_invalid_content_length_witness :
  let c := requestWith [("bucket", "b"); ("object", "/a/x.txt")] []
                       [("Content-Length", "12a")] "hello" in
  let t := (run Scripted.handler (uploadFile Scripted.server c)
                Scripted.sample).2 in
  ("12a" <> "" /\ (ParseInt "12a").2 = true) /\
  uploadsAttempted t = [] /\
  exists answer : option error,
    ensureCalls t = [("b", "a/x.txt", answer)] /\
    jsonSent t
    = [match answer with
       | None =>
           (StatusBadRequest, gin.H_error "Invalid Content-Length header")
       | Some err =>
           (StatusInternalServerError,
            gin.H_error ("Failed to ensure path exists: " +:+ Error err))
       end].
Proof.
  intros c t.
  assert (Hne : "12a" <> "") by discriminate.
  assert (Hbad : (ParseInt "12a").2 = true) by reflexivity.
  split; [auto |].
  exact (uploadFile_invalid_content_length _ Scripted.handler Scripted.sample
           Scripted.server c Hne Hbad).
Defined.

(** [uploadFile] calls [Upload] at most once, and exactly when
    [EnsurePathExists] returned no error and the [Content-Length] header is
    absent or a decimal [int64]. The call carries the bucket parameter, the
    object parameter without its leading slash, the request body, the size
    read from the header (0 without one) and the [Content-Type] header,
    [application/octet-stream] standing in for an empty one: the content
    type passed is never empty. *)
Theorem uploadFile_upload_arguments :
  forall (W : Type) (h : Handler api.Call W) (w : W)
         (s : Server) (c : gin.Context),
    let bucket := gin.Param c "bucket" in
    let object := stripLeadingSlash (gin.Param c "object") in
    let contentType := gin.GetHeader c "Content-Type" in
    let contentLength := gin.GetHeader c "Content-Length" in
    let t := (run h (uploadFile s c) w).2 in
    let upload :=
      (bucket, object, gin.Request_Body c,
       (if String.eqb contentLength "" then 0%Z
        else (ParseInt contentLength).1),
       (if String.eqb contentType "" then "application/octet-stream"
        else contentType)) in
    (uploadsAttempted t = [] \/ uploadsAttempted t = [upload]) /\
    (uploadsAttempted t = [upload]
     <-> ensureCalls t = [(bucket, object, None)] /\
         (contentLength = "" \/ (ParseInt contentLength).2 = false)) /\
    upload.2 <> "".
Proof.
  intros W h w s c bucket object contentType contentLength t upload.
  subst t upload.
  assert (Hct : (if String.eqb contentType "" then "application/octet-stream"
                 else contentType) <> "").
  { destruct (String.eqb_spec contentType ""); [discriminate | assumption]. }
  split; [| split; [| exact Hct]];
    unfold uploadFile; fold bucket; fold object; fold contentType;
    fold contentLength;
    run_step h; run_step h; destruct r0 as [err |].
  - run_step h. left. reflexivity.
  - destruct (String.eqb_spec contentLength "") as [He | Hne]; cbn [negb].
    + cbn [fst snd]. run_step h. destruct r0; run_step h; right; reflexivity.
    + destruct (ParseInt contentLength) as [n bad]. cbn [fst snd].
      destruct bad.
      * run_step h. left. reflexivity.
      * run_step h. destruct r0; run_step h; right; reflexivity.
  - run_step h. cbn. split; [discriminate |]. intros [[=] _].
  - destruct (String.eqb_spec contentLength "") as [He | Hne]; cbn [negb].
    + cbn [fst snd]. run_step h.
      destruct r0; run_step h; cbn;
        (split; [intros _; split; [reflexivity | auto] | reflexivity]).
    + destruct (ParseInt contentLength) as [n bad]. cbn [fst snd].
      destruct bad.
      * run_step h. cbn. split; [discriminate |].
        intros [_ [? | ?]]; [contradiction | discriminate].
      * run_step h.
        destruct r0; run_step h; cbn;
          (split; [intros _; split; [reflexivity | auto] | reflexivity]).
Qed.

(** Every run of [uploadFile] sends exactly one JSON response and sets no
    header or bare status; the response is 200 exactly when [Upload] was
    called and returned no error. *)
Theorem uploadFile_responds_once :
  forall (W : Type) (h : Handler api.Call W) (w : W)
         (s : Server) (c : gin.Context),
    let t := (run h (uploadFile s c) w).2 in
    exists (code : Z) (obj : gin.H),
      jsonSent t = [(code, obj)] /\
      (code = StatusOK <-> uploadAnswers t = [None]) /\
      headersSent t = [] /\ statusSent t = [].
Proof.
  intros W h w s c t. subst t. unfold uploadFile.
  run_step h. run_step h. destruct r0 as [err |].
  - run_step h. eexists _, _. split; [reflexivity |].
    cbn. repeat split; discriminate.
  - destruct (if negb _ then ParseInt _ else _) as [n bad].
    cbn [fst snd]. destruct bad.
    + run_step h. eexists _, _. split; [reflexivity |].
      cbn. repeat split; discriminate.
    + run_step h. destruct r0 as [err |]; run_step h;
        eexists _, _; (split; [reflexivity |]); cbn; repeat split;
        discriminate || reflexivity.
Qed.

End UploadFacts.

Section DownloadFacts.
Import api ApiTrace HandlerTrace.

(** The download of one object: [Download] is called once, for the object
    asked; the handler ends normally, never touches the zip writer and
    sends at most one JSON response; the stream [Download] returned, if
    any, is closed exactly once on every path (the deferred [Close]), also
    when [GetObjectInfo] or the copy fails; [GetObjectInfo] is asked only
    after [Download] succeeded, for the same object; and what is copied to
    the response is that stream. *)
Theorem downloadFile_single_object :
  forall (W : Type) (h : Handler api.Call W) (w : W)
         (s : Server) (c : gin.Context),
    let bucket := bucketOrDefault s c in
    let object := stripLeadingSlash (gin.Param c "object") in
    let r := run h (downloadFile s c) w in
    gin.Query c "directory" <> "true" ->
    r.1.1 = Done tt /\
    downloadsAttempted r.2 = [object] /\
    readersClosed r.2 = readersOpened r.2 /\
    existsb isZipCall r.2 = false /\
    length (jsonSent r.2) <= 1 /\
    (readersOpened r.2 = [] ->
     infoCalls r.2 = [] /\ headersSent r.2 = [] /\
     copiedToResponse r.2 = [] /\ length (jsonSent r.2) = 1) /\
    (readersOpened r.2 <> [] -> infoCalls r.2 = [(bucket, object)]) /\
    (copiedToResponse r.2 = [] \/ copiedToResponse r.2 = readersOpened r.2).
Proof.
  intros W h w s c bucket object r Hq. subst r.
  unfold downloadFile. fold bucket. fold object.
  apply String.eqb_neq in Hq. rewrite Hq.
  run_step h. destruct r as [reader | err].
  - run_step h. destruct r as [info | err].
    + run_step h. run_step h. destruct r0 as [err |].
      * run_step h. run_step h. cbn.
        repeat split; auto; try discriminate; lia.
      * run_step h. cbn.
        repeat split; auto; try discriminate; lia.
    + run_step h. run_step h. cbn.
      repeat split; auto; try discriminate; lia.
  - run_step h. cbn. repeat split; auto; try congruence.
Qed.

(** A plain download of [a/x.txt] from the sample bucket. *)
Lemma downloadFile_single_object_witness :
  let c := Scripted.request [("bucket", "b"); ("object", "/a/x.txt")] [] in
  let r := run Scripted.handler (downloadFile Scripted.server c)
               Scripted.sample in
  gin.Query c "directory" <> "true" /\
  r.1.1 = Done tt /\
  downloadsAttempted r.2 = ["a/x.txt"] /\
  readersClosed r.2 = readersOpened r.2 /\
  existsb isZipCall r.2 = false /\
  length (jsonSent r.2) <= 1 /\
  (readersOpened r.2 = [] ->
   infoCalls r.2 = [] /\ headersSent r.2 = [] /\
   copiedToResponse r.2 = [] /\ length (jsonSent r.2) = 1) /\
  (readersOpened r.2 <> [] -> infoCalls r.2 = [("b", "a/x.txt")]) /\
  (copiedToResponse r.2 = [] \/ copiedToResponse r.2 = readersOpened r.2).
Proof.
  intros c r.
  assert (Hq : gin.Query c "directory" <> "true") by discriminate.
  split; [exact Hq |].
  exact (downloadFile_single_object _ Scripted.handler Scripted.sample
           Scripted.server c Hq).
Defined.

(** A directory download whose listing fails: the answer is the JSON error
    500 with the storage's message, and nothing else happens: no header is
    set, no archive is started or closed, nothing is downloaded. *)
Theorem downloadFile_directory_list_error :
  forall (W : Type) (h : Handler api.Call W) (w w1 : W)
         (s : Server) (c : gin.Context) (err : error),
    let bucket := bucketOrDefault s c in
    let prefix := archivePrefix c in
    gin.Query c "directory" = "true" ->
    h _ (StorageList bucket prefix) w = (Err err, w1) ->
    exists w2 : W,
      run h (downloadFile s c) w
      = (Done tt, w2,
         [mkCall (StorageList bucket prefix) (Err err);
          mkCall (JSON StatusInternalServerError
                    (gin.H_error ("Failed to list objects: " +:+ Error err)))
                 tt]).
Proof.
  intros W h w w1 s c err bucket prefix Hq Hlist.
  unfold downloadFile. rewrite Hq. cbn [String.eqb Ascii.eqb Bool.eqb].
  change (if negb (String.eqb (stripLeadingSlash (gin.Param c "object")) "")
             && negb (HasSuffix (stripLeadingSlash (gin.Param c "object")) "/")
          then stripLeadingSlash (gin.Param c "object") +:+ "/"
          else stripLeadingSlash (gin.Param c "object"))
    with (archivePrefix c).
  fold bucket. fold prefix.
  rewrite run_bind, run_call, Hlist.
  rewrite run_bind, run_call.
  match goal with
  | |- context [h _ (JSON ?code ?obj) w1] =>
      destruct (h _ (JSON code obj) w1) as [[] w2]
  end.
  exists w2. reflexivity.
Qed.

(** The archive of [a] asked of a storage that cannot be reached. *)
Lemma downloadFile_directory_list_error_witness :
  let c := Scripted.request [("bucket", "b"); ("object", "/a")]
                            [("directory", "true")] in
  (gin.Query c "directory" = "true" /\
   Offline.handler _ (StorageList "b" "a/") tt = (Err Offline.refused, tt)) /\
  exists w2 : unit,
    run Offline.handler (downloadFile Scripted.server c) tt
    = (Done tt, w2,
       [mkCall (StorageList "b" "a/") (Err Offline.refused);
        mkCall (JSON StatusInternalServerError
                  (gin.H_error ("Failed to list objects: "
                                +:+ Error Offline.refused))) tt]).
Proof.
  intros c. split; [split; reflexivity |].
  exact (downloadFile_directory_list_error _ Offline.handler tt tt
           Scripted.server c Offline.refused eq_refl eq_refl).
Defined.

(** ** The name of the archive *)

Lemma Split_app_slash (a b : string) :
  Split (a +:+ "/" +:+ b) slash = Split a slash ++ Split b slash.
Proof.
  induction a as [| x a IH]; [reflexivity |].
  rewrite append_cons. cbn [Split]. rewrite IH.
  destruct (Ascii.eqb x slash); [reflexivity |].
  destruct (Split a slash) as [| p ps] eqn:Hs; [| reflexivity].
  exfalso. exact (Split_not_nil slash a Hs).
Qed.

Lemma take_bytes_append (s t : string) :
  take_bytes (String.length s) (s +:+ t) = s.
Proof.
  induction s as [| x s IH]; [destruct t; reflexivity |].
  rewrite append_cons. cbn. rewrite IH. reflexivity.
Qed.

Lemma TrimSuffix_append (s t : string) : TrimSuffix (s +:+ t) t = s.
Proof.
  unfold TrimSuffix. rewrite HasSuffix_append, length_append.
  replace (String.length s + String.length t - String.length t)
    with (String.length s) by lia.
  apply take_bytes_append.
Qed.

(** A name that ends with a byte other than the slash. *)
Lemma HasSuffix_slash_last (front : string) (x : ascii) :
  x <> slash -> HasSuffix (front +:+ String x "") "/" = false.
Proof.
  intros Hx. unfold HasSuffix. rewrite length_append. cbn [String.length].
  replace (String.length front + 1 - 1) with (String.length front) by lia.
  rewrite drop_bytes_append. cbn.
  destruct (Ascii.eqb_spec x "/"); [contradiction |].
  apply andb_false_r.
Qed.

Lemma no_slash_last (seg : string) :
  seg <> "" -> hasByte slash seg = false ->
  exists (front : string) (x : ascii),
    seg = front +:+ String x "" /\ x <> slash.
Proof.
  intros Hne Hs. destruct (string_snoc seg Hne) as (front & x & ->).
  exists front, x. split; [reflexivity |].
  rewrite hasByte_append in Hs. apply orb_false_iff in Hs as [_ Hx].
  cbn in Hx. rewrite orb_false_r in Hx. intros ->.
  rewrite Ascii.eqb_refl in Hx. discriminate.
Qed.

Lemma append_not_empty_r (a b : string) : b <> "" -> a +:+ b <> "".
Proof.
  intros Hb He. apply (f_equal String.length) in He.
  rewrite length_append in He. destruct b; [congruence | cbn in He; lia].
Qed.

(** [path.Base] of a path that ends with a non-empty element. *)
Lemma Base_last_segment (front seg : string) :
  front = "" \/ HasSuffix front "/" = true ->
  seg <> "" -> hasByte slash seg = false ->
  Base (front +:+ seg) = seg.
Proof.
  intros Hfront Hne Hs. unfold Base.
  destruct (String.eqb_spec (front +:+ seg) "") as [He | _];
    [exfalso; exact (append_not_empty_r front seg Hne He) |].
  assert (Hsplit : exists before, Split (front +:+ seg) slash = before ++ [seg]).
  { destruct Hfront as [-> | Hf].
    - exists []. rewrite append_nil_l, (Split_no_slash seg Hs). reflexivity.
    - apply HasSuffix_split in Hf as (dir & ->).
      exists (Split dir slash). rewrite append_assoc, Split_app_slash.
      rewrite (Split_no_slash seg Hs). reflexivity. }
  destruct Hsplit as (before & ->).
  rewrite rev_app_distr. cbn [rev app List.filter].
  apply String.eqb_neq in Hne. rewrite Hne. reflexivity.
Qed.

(** The calls of the archive loop set no header. *)
Lemma archiveObjects_no_header {W : Type} (h : Handler api.Call W)
  (bucket prefix : string) (objects : list FileObject) :
  forall w : W,
    headersSent (run h (archiveObjects bucket prefix objects) w).2 = [].
Proof.
  induction objects as [| obj rest IH]; intros w; [reflexivity |].
  cbn [archiveObjects].
  destruct (IsDir obj || HasSuffix (Name obj) "/"); [apply IH |].
  run_step h. destruct r as [reader | e].
  - destruct (slice_from (Name obj) (String.length prefix)); [| reflexivity].
    run_step h. destruct r as [e |].
    + run_step h.
      match goal with
      | |- context [run h (archiveObjects bucket prefix rest) ?wr] =>
          specialize (IH wr);
          destruct (run h (archiveObjects bucket prefix rest) wr)
            as [[? ?] t]
      end.
      cbn in IH |- *. exact IH.
    + run_step h. run_step h. rewrite copy_result_ignored.
      match goal with
      | |- context [run h (archiveObjects bucket prefix rest) ?wr] =>
          specialize (IH wr);
          destruct (run h (archiveObjects bucket prefix rest) wr)
            as [[? ?] t]
      end.
      cbn in IH |- *. exact IH.
  - match goal with
    | |- context [run h (archiveObjects bucket prefix rest) ?wr] =>
        specialize (IH wr);
        destruct (run h (archiveObjects bucket prefix rest) wr)
          as [[? ?] t]
    end.
    cbn in IH |- *. exact IH.
Qed.

(** The archive of a directory download is served with two headers, the
    type [application/zip] and an attachment named after the last element
    of the path asked for, with or without its final slash; asked for the
    whole bucket (the empty path), the attachment is named ["..zip"], the
    base of the empty path being the dot. *)
Theorem downloadFile_archive_name :
  forall (W : Type) (h : Handler api.Call W) (w w1 : W)
         (s : Server) (c : gin.Context) (objects : list FileObject),
    let bucket := bucketOrDefault s c in
    let object := stripLeadingSlash (gin.Param c "object") in
    let name := Base (TrimSuffix (archivePrefix c) "/") in
    gin.Query c "directory" = "true" ->
    h _ (StorageList bucket (archivePrefix c)) w = (Ok objects, w1) ->
    headersSent (run h (downloadFile s c) w).2
    = [("Content-Type", "application/zip");
       ("Content-Disposition", attachment name)] /\
    (forall front seg : string,
        front = "" \/ HasSuffix front "/" = true ->
        seg <> "" -> hasByte slash seg = false ->
        object = front +:+ seg \/ object = front +:+ seg +:+ "/" ->
        name = seg) /\
    (object = "" -> name = ".").
Proof.
  intros W h w w1 s c objects bucket object name Hq Hlist.
  split; [| split].
  - unfold downloadFile. rewrite Hq.
    cbn [String.eqb Ascii.eqb Bool.eqb].
    change (if negb (String.eqb (stripLeadingSlash (gin.Param c "object")) "")
               && negb (HasSuffix (stripLeadingSlash (gin.Param c "object"))
                                  "/")
            then stripLeadingSlash (gin.Param c "object") +:+ "/"
            else stripLeadingSlash (gin.Param c "object"))
      with (archivePrefix c).
    fold bucket. rewrite run_bind, run_call, Hlist.
    rewrite run_bind, run_call.
    destruct (h _ (Header "Content-Type" "application/zip") w1) as [[] w2].
    rewrite run_bind, run_call.
    match goal with
    | |- context [h _ (Header "Content-Disposition" ?d) w2] =>
        destruct (h _ (Header "Content-Disposition" d) w2) as [[] w3]
    end.
    rewrite run_bind.
    pose proof (archiveObjects_no_header h bucket (archivePrefix c) objects w3)
      as Hloop.
    destruct (run h (archiveObjects bucket (archivePrefix c) objects) w3)
      as [[r w4] items].
    rewrite run_bind, run_call.
    destruct (h _ ZipClose w4) as [[] w5].
    cbn [run fst snd app] in Hloop |- *.
    unfold headersSent in *. cbn [omap list_omap call_event].
    change (list_omap _ _ ?f ?l) with (omap f l).
    rewrite omap_app, Hloop. reflexivity.
  - intros front seg Hfront Hne Hs Hobj. subst name.
    unfold archivePrefix. fold object.
    destruct (no_slash_last seg Hne Hs) as (sf & x & Hseg & Hx).
    destruct Hobj as [Ho | Ho]; rewrite Ho.
    + assert (Hlast : HasSuffix (front +:+ seg) "/" = false)
        by (rewrite Hseg, <- append_assoc; apply HasSuffix_slash_last, Hx).
      rewrite Hlast.
      destruct (String.eqb_spec (front +:+ seg) "") as [He | _];
        [exfalso; exact (append_not_empty_r front seg Hne He) |].
      cbn [negb andb]. rewrite TrimSuffix_append.
      apply Base_last_segment; assumption.
    + rewrite <- append_assoc, HasSuffix_append, andb_false_r.
      rewrite TrimSuffix_append. apply Base_last_segment; assumption.
  - intros Ho. subst name. unfold archivePrefix. fold object. rewrite Ho.
    reflexivity.
Qed.

(** The archive of [a], and that of the whole bucket. *)
Lemma downloadFile_archive_name_witness :
  let c := Scripted.request [("bucket", "b"); ("object", "/a")]
                            [("directory", "true")] in
  (gin.Query c "directory" = "true" /\
   Scripted.handler _ (StorageList "b" "a/") Scripted.sample
   = (Ok Scripted.sampleUnderA, Scripted.sample)) /\
  headersSent (run Scripted.handler (downloadFile Scripted.server c)
                   Scripted.sample).2
  = [("Content-Type", "application/zip");
     ("Content-Disposition", attachment "a")].
Proof.
  intros c. split; [split; reflexivity |].
  destruct (downloadFile_archive_name _ Scripted.handler Scripted.sample
              Scripted.sample Scripted.server c Scripted.sampleUnderA
              eq_refl eq_refl) as (Hheaders & _ & _).
  exact Hheaders.
Defined.

End DownloadFacts.

Section InfoFacts.
Import api ApiTrace HandlerTrace.

Lemma run_metadataHeaders {W : Type} (h : Handler api.Call W)
  (entries : list (string * string)) :
  forall w : W,
    let r := run h (metadataHeaders entries) w in
    headersSent r.2 = map metaHeader entries /\
    jsonSent r.2 = [] /\ statusSent r.2 = [] /\
    existsb isStorageCall r.2 = false.
Proof.
  induction entries as [| [key value] rest IH]; intros w.
  - cbn. auto.
  - cbn [metadataHeaders]. run_step h.
    specialize (IH w0).
    destruct (run h (metadataHeaders rest) w0) as [[? ?] t].
    cbn [fst snd] in IH |- *. destruct IH as (Hh & Hj & Hs & Hc).
    unfold headersSent, jsonSent, statusSent in *.
    cbn [omap list_omap call_event existsb isStorageCall storageBucket orb].
    change (list_omap _ _ ?f ?l) with (omap f l).
    rewrite Hh, Hj, Hs, Hc. auto.
Qed.

(** [getObjectInfo] asks the storage once. On an error it answers with the
    JSON error 500 and sets no header. Otherwise it sets [Content-Type],
    [Content-Length] (the size in decimal) and [Last-Modified], then one
    [X-Meta-] header for each entry of the record's metadata map (none for
    the nil map), and ends with the bare status 200: no body, no JSON. *)
Theorem getObjectInfo_response :
  forall (W : Type) (h : Handler api.Call W) (w : W)
         (s : Server) (c : gin.Context),
    let bucket := bucketOrDefault s c in
    let object := stripLeadingSlash (gin.Param c "object") in
    let t := (run h (getObjectInfo s c) w).2 in
    exists (answer : Result FileObject) (rest : list (Called api.Call)),
      t = mkCall (StorageGetObjectInfo bucket object) answer :: rest /\
      existsb isStorageCall rest = false /\
      match answer with
      | Err err =>
          rest = [mkCall (JSON StatusInternalServerError
                            (gin.H_error ("Failed to get object info: "
                                          +:+ Error err))) tt]
      | Ok info =>
          headersSent rest
          = [("Content-Type", ContentType info);
             ("Content-Length", FormatInt (Size info));
             ("Last-Modified", LastModified info)]
            ++ map metaHeader (map_to_list (default ∅ (Metadata info))) /\
          jsonSent rest = [] /\
          statusSent rest = [StatusOK] /\
          last rest = Some (mkCall (Status StatusOK) tt)
      end.
Proof.
  intros W h w s c bucket object t. subst t.
  unfold getObjectInfo. fold bucket. fold object.
  run_step h. destruct r as [info | err].
  - run_step h. run_step h. run_step h. rewrite run_bind.
    match goal with
    | |- context [run h (metadataHeaders ?es) ?wm] =>
        destruct (run_metadataHeaders h es wm) as (Hh & Hj & Hs & Hc);
        destruct (run h (metadataHeaders es) wm) as [[[] wn] tm]
    end.
    rewrite run_call. destruct (h _ (Status StatusOK) wn) as [[] wo].
    cbn [fst snd] in *. eexists _, _. split; [reflexivity |].
    unfold headersSent, jsonSent, statusSent in *.
    cbn [omap list_omap call_event existsb isStorageCall storageBucket orb].
    change (list_omap _ _ ?f ?l) with (omap f l).
    rewrite !omap_app, existsb_app, Hh, Hj, Hs, Hc.
    destruct r, r0, r1. cbn. repeat split; rewrite ?app_nil_r; try reflexivity.
    rewrite app_comm_cons. apply last_snoc.
  - run_step h. destruct r. eexists _, _. split; [reflexivity |].
    split; reflexivity.
Qed.

End InfoFacts.

(* ===================================================================== *)
(** * The middleware and the making of the server *)
(* ===================================================================== *)

Section AuthFacts.
Import api ApiTrace HandlerTrace.

Lemma AuthMiddleware_rejects {W : Type} (h : Handler api.Call W) (w : W)
  (s : server.Server) (c : gin.Context)
  (next : Prog api.Call (Exec unit)) :
  cfg.Enabled (cfg.Auth (server.config s)) = true ->
  server.presentedKey c = "" \/
  cfg.APIKeys (cfg.Auth (server.config s)) !! server.presentedKey c = None ->
  exists (msg : string) (w' : W),
    run h (server.AuthMiddleware s c next) w
    = (Done tt, w',
       [mkCall (JSON server.StatusUnauthorized (gin.H_error msg)) tt]).
Proof.
  intros Hon Hkey. unfold server.AuthMiddleware. rewrite Hon. cbn [negb].
  change (if String.eqb (gin.GetHeader c "X-API-Key") ""
          then gin.Query c "api_key" else gin.GetHeader c "X-API-Key")
    with (server.presentedKey c).
  destruct (String.eqb_spec (server.presentedKey c) "") as [He | Hne].
  - run_step h. destruct r. eexists _, _. reflexivity.
  - destruct Hkey as [He | Hnone]; [contradiction |]. rewrite Hnone.
    run_step h. destruct r. eexists _, _. reflexivity.
Qed.

Lemma AuthMiddleware_admits (s : server.Server) (c : gin.Context)
  (next : Prog api.Call (Exec unit)) :
  cfg.Enabled (cfg.Auth (server.config s)) = false \/
  (server.presentedKey c <> "" /\
   is_Some (cfg.APIKeys (cfg.Auth (server.config s))
              !! server.presentedKey c)) ->
  server.AuthMiddleware s c next = next.
Proof.
  unfold server.AuthMiddleware.
  change (if String.eqb (gin.GetHeader c "X-API-Key") ""
          then gin.Query c "api_key" else gin.GetHeader c "X-API-Key")
    with (server.presentedKey c).
  intros [Hoff | [Hne [d Hd]]].
  - rewrite Hoff. reflexivity.
  - destruct (cfg.Enabled _); [| reflexivity]. cbn [negb].
    apply String.eqb_neq in Hne. rewrite Hne, Hd. reflexivity.
Qed.

Lemma registered_authorized (r : Route) :
  In r registerRoutes ->
  route_authorized r = true \/
  (route_handler r = healthCheck_ /\ route_authorized r = false).
Proof.
  unfold registerRoutes. cbn [In].
  intros Hin.
  repeat (destruct Hin as [<- | Hin]; [cbn; auto |]).
  contradiction.
Qed.

Lemma findRoute_registered (matches : string -> string -> bool)
  (routes : list Route) (method path : string) (r : Route) :
  server.findRoute matches routes method path = Some r ->
  In r routes /\ route_method r = method.
Proof.
  unfold server.findRoute.
  destruct (List.filter _ routes) as [| r0 rs] eqn:Hf; [discriminate |].
  cbn. intros [= <-].
  assert (Hin : In r0 (List.filter
                         (fun r => String.eqb (route_method r) method
                                   && matches (route_path r) path) routes))
    by (rewrite Hf; left; reflexivity).
  apply filter_In in Hin as [Hin Hm].
  apply andb_true_iff in Hm as [Hm _]. apply String.eqb_eq in Hm. auto.
Qed.

(** With authentication enabled, a request that presents no key, or a key
    that is not configured, gets the answer 401 and nothing else on every
    registered route but the health check: the route's handler does not
    run and the storage is not called. The key is the [X-API-Key] header,
    the [api_key] query value being read only when the header is empty; so
    a wrong header is refused whatever the query holds. The health check
    is answered without a key. *)
Theorem routes_require_key :
  forall (matches : string -> string -> bool) (s : server.Server)
         (method path : string) (c : gin.Context) (r : Route)
         (W : Type) (h : Handler api.Call W) (w : W),
    server.routes s = registerRoutes ->
    server.findRoute matches (server.routes s) method path = Some r ->
    cfg.Enabled (cfg.Auth (server.config s)) = true ->
    server.presentedKey c = "" \/
    cfg.APIKeys (cfg.Auth (server.config s)) !! server.presentedKey c
    = None ->
    (route_handler r = healthCheck_ ->
     server.routeChain s r c
     = handlerOf healthCheck_ (server.forHandlers s) c) /\
    (route_handler r <> healthCheck_ ->
     exists (msg : string) (w' : W),
       run h (server.routeChain s r c) w
       = (Done tt, w',
          [mkCall (JSON server.StatusUnauthorized (gin.H_error msg)) tt])).
Proof.
  intros matches s method path c r W h w Hroutes Hfind Hon Hkey.
  rewrite Hroutes in Hfind.
  apply findRoute_registered in Hfind as [Hin _].
  unfold server.routeChain.
  destruct (registered_authorized r Hin) as [Hauth | [Hhealth Hopen]].
  - split.
    + intros Hh. exfalso. revert Hin Hh Hauth. unfold registerRoutes.
      cbn [In]. intros Hin.
      repeat (destruct Hin as [<- | Hin]; [cbn; congruence |]).
      contradiction.
    + intros _. rewrite Hauth. apply AuthMiddleware_rejects; assumption.
  - split; [| contradiction].
    intros _. rewrite Hopen, Hhealth. reflexivity.
Qed.

(** A [DELETE] with a wrong [X-API-Key] header and a configured key in the
    query. *)
Lemma routes_require_key_witness :
  let s := Deployment.built true in
  let c := requestWith [("bucket", "b"); ("object", "/a/x.txt")]
                       [("api_key", "sk-1234567890abcdef")]
                       [("X-API-Key", "sk-wrong")] "" in
  let r := mkRoute "DELETE" "/delete/:bucket/*object" true deleteFile_ in
  (server.routes s = registerRoutes /\
   server.findRoute (fun _ _ => true) (server.routes s) "DELETE"
                    "/delete/b/a/x.txt" = Some r /\
   cfg.Enabled (cfg.Auth (server.config s)) = true /\
   cfg.APIKeys (cfg.Auth (server.config s)) !! server.presentedKey c
   = None /\
   route_handler r <> healthCheck_) /\
  exists (msg : string) (w' : Scripted.World),
    run Scripted.handler (server.routeChain s r c) Scripted.sample
    = (Done tt, w',
       [mkCall (JSON server.StatusUnauthorized (gin.H_error msg)) tt]).
Proof.
  intros s c r.
  assert (Hroutes : server.routes s = registerRoutes) by reflexivity.
  assert (Hfind : server.findRoute (fun _ _ => true) (server.routes s)
                    "DELETE" "/delete/b/a/x.txt" = Some r) by reflexivity.
  assert (Hon : cfg.Enabled (cfg.Auth (server.config s)) = true)
    by reflexivity.
  assert (Hkey : cfg.APIKeys (cfg.Auth (server.config s))
                   !! server.presentedKey c = None)
    by (vm_compute; reflexivity).
  assert (Hh : route_handler r <> healthCheck_) by discriminate.
  split; [auto 6 |].
  destruct (routes_require_key (fun _ _ => true) s "DELETE"
              "/delete/b/a/x.txt" c r _ Scripted.handler Scripted.sample
              Hroutes Hfind Hon (or_intror Hkey)) as [_ Hreject].
  exact (Hreject Hh).
Defined.

(** With authentication disabled, or for a request that presents a
    configured key, the middleware adds nothing: the chain of any route is
    the route's handler, with no call before it or after it. *)
Theorem AuthMiddleware_passes_through :
  forall (s : server.Server) (r : Route) (c : gin.Context),
    cfg.Enabled (cfg.Auth (server.config s)) = false \/
    (server.presentedKey c <> "" /\
     is_Some (cfg.APIKeys (cfg.Auth (server.config s))
                !! server.presentedKey c)) ->
    server.routeChain s r c
    = handlerOf (route_handler r) (server.forHandlers s) c.
Proof.
  intros s r c Hpass. unfold server.routeChain.
  destruct (route_authorized r); [| reflexivity].
  apply AuthMiddleware_admits. exact Hpass.
Qed.

(** A listing with a configured key in the query and no header. *)
Lemma AuthMiddleware_passes_through_witness :
  let s := Deployment.built true in
  let c := requestWith [("bucket", "b")]
                       [("api_key", "sk-1234567890abcdef")] [] "" in
  let r := mkRoute "GET" "/list/:bucket" true listObjects_ in
  (server.presentedKey c <> "" /\
   is_Some (cfg.APIKeys (cfg.Auth (server.config s))
              !! server.presentedKey c)) /\
  server.routeChain s r c
  = handlerOf (route_handler r) (server.forHandlers s) c.
Proof.
  intros s c r.
  assert (Hne : server.presentedKey c <> "") by discriminate.
  assert (Hkey : is_Some (cfg.APIKeys (cfg.Auth (server.config s))
                            !! server.presentedKey c))
    by (exists "Default admin key"; vm_compute; reflexivity).
  split; [auto |].
  exact (AuthMiddleware_passes_through s r c (or_intror (conj Hne Hkey))).
Defined.

End AuthFacts.

Section MakingFacts.

Lemma supported_type (type : string) :
  In type supportedTypes <->
  String.eqb type "minio" || String.eqb type "oss" || String.eqb type "obs"
  || String.eqb type "azure" = true.
Proof.
  unfold supportedTypes. cbn [In].
  rewrite !orb_true_iff, !String.eqb_eq. intuition congruence.
Qed.

(** What [createStorage] returns, by the configured type. *)
Lemma createStorage_result {W : Type} (h : Handler sdk.Call W) (w : W)
  (c : cfg.Config) :
  let type := cfg.Type_ (cfg.Storage c) in
  let r := run h (server.createStorage c) w in
  (forall a : Adapter, r.1.1 = Ok a -> adapterType a = type) /\
  (~ In type supportedTypes ->
   r = (Err (errorString ("unsupported storage type: " +:+ type)), w, [])).
Proof.
  intros type r. subst r. unfold server.createStorage. fold type.
  split.
  - intros a.
    destruct (String.eqb_spec type "minio") as [-> | _].
    { unfold NewMinIOStorage. run_step h.
      destruct r; cbn; [discriminate | intros [= <-]; reflexivity]. }
    destruct (String.eqb_spec type "oss") as [-> | _].
    { unfold NewOSSStorage. run_step h.
      destruct r; cbn; [discriminate | intros [= <-]; reflexivity]. }
    destruct (String.eqb_spec type "obs") as [-> | _].
    { unfold NewOBStorage. run_step h.
      destruct r; cbn; [discriminate | intros [= <-]; reflexivity]. }
    destruct (String.eqb_spec type "azure") as [-> | _].
    { unfold NewAzureStorage. run_step h. destruct r; [cbn; discriminate |].
      run_step h.
      destruct r; cbn; [discriminate | intros [= <-]; reflexivity]. }
    cbn. discriminate.
  - intros Hno. rewrite supported_type in Hno.
    apply not_true_is_false in Hno.
    apply orb_false_iff in Hno as [Hno Hazure].
    apply orb_false_iff in Hno as [Hno Hobs].
    apply orb_false_iff in Hno as [Hminio Hoss].
    rewrite Hminio, Hoss, Hobs, Hazure. reflexivity.
Qed.

(** [NewServer] returns a server exactly when [createStorage] made the
    adapter: the server then carries the routes of [registerRoutes], the
    configuration given and the adapter named by [storage.type], which is
    matched as written (["minio"], ["oss"], ["obs"], ["azure"]). Any other
    type is refused with the error
    [failed to create storage: unsupported storage type: <type>], which
    wraps the inner error, and no provider client is made for it. *)
Theorem NewServer_result :
  forall (c : cfg.Config) (W : Type) (h : Handler sdk.Call W) (w : W),
    let type := cfg.Type_ (cfg.Storage c) in
    let r := run h (server.NewServer c) w in
    match r.1.1 with
    | Ok s =>
        server.routes s = api.registerRoutes /\
        server.config s = c /\
        adapterType (server.storage s) = type /\
        In type supportedTypes
    | Err e =>
        exists inner : error,
          e = wrapError ("failed to create storage: " +:+ Error inner) inner /\
          (~ In type supportedTypes ->
           inner = errorString ("unsupported storage type: " +:+ type) /\
           clientsMade r.2 = 0)
    end.
Proof.
  intros c W h w type r. subst r. unfold server.NewServer.
  run_step h.
  assert (Hmode : forall w0 : W,
            exists w1 t,
              run h (if negb (String.eqb r "debug")
                     then call (sdk.gin_SetMode "release") else Ret tt) w0
              = (tt, w1, t) /\ clientsMade t = 0).
  { intros w1. destruct (negb (String.eqb r "debug")).
    - run_step h. destruct r0. eexists _, _. split; reflexivity.
    - eexists _, _. split; reflexivity. }
  rewrite run_bind. destruct (Hmode w0) as (w1 & tmode & -> & Hclients).
  run_step h. run_step h. run_step h. rewrite run_bind.
  destruct (createStorage_result h w4 c) as (Hmade & Hrefused).
  fold type in Hmade, Hrefused.
  destruct (run h (server.createStorage c) w4) as [[res w5] tc] eqn:Hrun.
  cbn [fst snd] in Hmade, Hrefused.
  destruct res as [store | err]; cbn [run fst snd].
  - split; [reflexivity |]. split; [reflexivity |].
    split; [apply Hmade; reflexivity |].
    rewrite <- (Hmade store eq_refl). unfold supportedTypes.
    destruct store; cbn; auto.
  - exists err. split; [reflexivity |]. intros Hno.
    specialize (Hrefused Hno). injection Hrefused as -> _ ->.
    split; [reflexivity |].
    unfold clientsMade in *.
    cbn [List.filter call_event sdk.makesClient app].
    rewrite List.filter_app, length_app, Hclients. reflexivity.
Qed.

(** The making of an Azure storage: the credential is made first, from the
    account name and key, and its error ends the making; the client is then
    made for the configured endpoint or, when that is empty and an account
    name is given, for [https://<account>.blob.core.windows.net]. The
    connection string of the configuration takes no part in it. *)
Theorem createStorage_azure :
  forall (c : cfg.Config) (W : Type) (h : Handler sdk.Call W) (w : W),
    let az := cfg.Azure (cfg.Storage c) in
    let url :=
      if String.eqb (cfg.azure_Endpoint az) ""
      then (if String.eqb (cfg.AccountName az) "" then ""
            else "https://" +:+ cfg.AccountName az
                 +:+ ".blob.core.windows.net")
      else cfg.azure_Endpoint az in
    let credential :=
      sdk.azblob_NewSharedKeyCredential (cfg.AccountName az)
                                        (cfg.AccountKey az) in
    let client :=
      sdk.azblob_NewClientWithSharedKeyCredential
        url (cfg.AccountName az) (cfg.AccountKey az) in
    cfg.Type_ (cfg.Storage c) = "azure" ->
    (exists (first : option error) (w1 : W),
        h _ credential w = (first, w1) /\
        match first with
        | Some err =>
            run h (server.createStorage c) w
            = (Err err, w1, [mkCall credential (Some err)])
        | None =>
            exists (second : option error) (w2 : W),
              run h (server.createStorage c) w
              = (match second with
                 | Some err => Err err
                 | None => Ok AzureAdapter
                 end, w2,
                 [mkCall credential None; mkCall client second])
        end) /\
    (forall connectionString : string,
        server.createStorage
          {| cfg.Server := cfg.Server c;
             cfg.Storage :=
               {| cfg.Type_ := cfg.Type_ (cfg.Storage c);
                  cfg.Bucket := cfg.Bucket (cfg.Storage c);
                  cfg.MinIO := cfg.MinIO (cfg.Storage c);
                  cfg.OSS := cfg.OSS (cfg.Storage c);
                  cfg.OBS := cfg.OBS (cfg.Storage c);
                  cfg.Azure :=
                    {| cfg.azure_Endpoint := cfg.azure_Endpoint az;
                       cfg.AccountName := cfg.AccountName az;
                       cfg.AccountKey := cfg.AccountKey az;
                       cfg.ConnectionString := connectionString |} |};
             cfg.Log := cfg.Log c;
             cfg.Auth := cfg.Auth c |}
        = server.createStorage c).
Proof.
  intros c W h w az url credential client Htype. split.
  - destruct (h _ credential w) as [first w1] eqn:Hcred.
    exists first, w1. split; [reflexivity |].
    assert (Hurl :
      (if String.eqb (cfg.azure_Endpoint az) ""
          && negb (String.eqb (cfg.AccountName az) "")
       then "https://" +:+ cfg.AccountName az +:+ ".blob.core.windows.net"
       else cfg.azure_Endpoint az) = url).
    { subst url. destruct (String.eqb_spec (cfg.azure_Endpoint az) "") as [-> |];
        [| reflexivity].
      destruct (String.eqb (cfg.AccountName az) ""); reflexivity. }
    unfold server.createStorage. rewrite Htype.
    cbn [String.eqb Ascii.eqb Bool.eqb]. fold az. rewrite Hurl.
    unfold NewAzureStorage. fold credential. fold client.
    cbn [run bind call]. rewrite Hcred.
    destruct first as [err |]; [reflexivity |].
    cbn [run bind call].
    destruct (h _ client w1) as [second w2].
    exists second, w2. destruct second; reflexivity.
  - intros connectionString. unfold server.createStorage. reflexivity.
Qed.

(** The configuration of the README for [azure]: no endpoint, the account
    [your-account-name]. *)
Lemma createStorage_azure_witness :
  let c := Deployment.config "azure" false in
  cfg.Type_ (cfg.Storage c) = "azure" /\
  exists (second : option error) (w2 : unit),
    run Deployment.sdks (server.createStorage c) tt
    = (match second with
       | Some err => Err err
       | None => Ok AzureAdapter
       end, w2,
       [mkCall (sdk.azblob_NewSharedKeyCredential "your-account-name"
                                                  "your-account-key") None;
        mkCall (sdk.azblob_NewClientWithSharedKeyCredential
                  "https://your-account-name.blob.core.windows.net"
                  "your-account-name" "your-account-key") second]).
Proof.
  intros c. split; [reflexivity |].
  destruct (createStorage_azure c _ Deployment.sdks tt eq_refl)
    as [(first & w1 & Hcred & Hrun) _].
  cbn in Hcred. injection Hcred as <- <-.
  destruct Hrun as (second & w2 & Hrun).
  exists second, w2. exact Hrun.
Defined.

End MakingFacts.

(* ===================================================================== *)
(** * The handlers over an adapter *)
(* ===================================================================== *)

Section LinkFacts.
Context {E : Type -> Type} {W V : Type}.
Variable provider : Handler E W.
Variable response : Handler api.Call V.

Lemma run_onProvider {R : Type} (m : Prog E R) :
  forall (w : W) (v : V),
    run (linkedHandler provider response) (onProvider m) (w, v)
    = let '(x, w', t) := run provider m w in
      (x, (w', v), map liftProvider t).
Proof.
  induction m as [r | X e k IH]; intros w v; cbn; [reflexivity |].
  destruct (provider X e w) as [x w1]. rewrite IH.
  destruct (run provider (k x) w1) as [[r w2] t]. reflexivity.
Qed.

(** A storage call of a handler, other than a listing: the adapter's method
    runs on the provider, and the handler goes on with its result. *)
Lemma run_storage_call {X R : Type} (m : Prog E X)
  (k : X -> Prog (Linked E) (Exec R)) (w : W) (v : V) :
  run (linkedHandler provider response)
      (x <- onProvider (r <- m ;; Ret (Done r)) ;;
       match x with
       | Done a => k a
       | Panic => Ret Panic
       | OutOfFuel => Ret OutOfFuel
       end) (w, v)
  = let '(a, w1, t1) := run provider m w in
    let '(r, wv, t2) := run (linkedHandler provider response) (k a) (w1, v) in
    (r, wv, map liftProvider t1 ++ t2).
Proof.
  rewrite run_bind, run_onProvider, run_bind.
  destruct (run provider m w) as [[a w1] t1]. cbn [run].
  destruct (run (linkedHandler provider response) (k a) (w1, v))
    as [[r wv] t2].
  rewrite app_nil_r. reflexivity.
Qed.

Lemma providerCalls_lift (t : list (Called E)) :
  providerCalls (map liftProvider t) = t.
Proof.
  induction t as [| [X e x] t IH]; [reflexivity |].
  cbn. unfold providerCalls in IH. rewrite IH. reflexivity.
Qed.

Lemma responseCalls_lift (t : list (Called E)) :
  responseCalls (map liftProvider t) = [].
Proof.
  induction t as [| [X e x] t IH]; [reflexivity |].
  cbn. exact IH.
Qed.

Lemma providerCalls_response {X : Type} (e : api.Call X) (x : X)
  (t : list (Called (Linked E))) :
  providerCalls (mkCall (OnResponse e) x :: t) = providerCalls t.
Proof. reflexivity. Qed.

Lemma responseCalls_response {X : Type} (e : api.Call X) (x : X)
  (t : list (Called (Linked E))) :
  responseCalls (mkCall (OnResponse e) x :: t)
  = mkCall e x :: responseCalls t.
Proof. reflexivity. Qed.

Lemma providerCalls_app (a b : list (Called (Linked E))) :
  providerCalls (a ++ b) = providerCalls a ++ providerCalls b.
Proof. apply omap_app. Qed.

Lemma responseCalls_app (a b : list (Called (Linked E))) :
  responseCalls (a ++ b) = responseCalls a ++ responseCalls b.
Proof. apply omap_app. Qed.

End LinkFacts.

(** Run the linked program of the goal up to its next call on the
    response, and name the answer of [response] to it. *)
Ltac response_step response :=
  cbn [run bind call withStorage storageMethod linkedHandler fst snd];
  match goal with
  | |- context [response ?X ?e ?v] =>
      let r := fresh "r" in
      let v' := fresh "v" in
      destruct (response X e v) as [r v'] eqn:?
  end.

Section UploadWritesFacts.
Import api ApiTrace HandlerTrace.

Lemma trace_writes_app {E : Type -> Type} `{Provider E}
  (a b : list (Called E)) :
  trace_writes (a ++ b) = trace_writes a ++ trace_writes b.
Proof. unfold trace_writes. rewrite map_app. apply List.filter_app. Qed.

Lemma trace_writes_ops {E : Type -> Type} `{Provider E}
  (t : list (Called E)) :
  trace_writes t = List.filter is_write (map fst (trace_ops t)).
Proof.
  unfold trace_writes, trace_ops. rewrite map_map. reflexivity.
Qed.

(** The writes of [EnsurePathExists]: none, or the marker. *)
Lemma ensure_writes {E : Type -> Type} `{Provider E} (S : Storage E)
  (probe : string -> string -> StoreOp) (notFound : error -> bool)
  (precheck : string -> option error) :
  EnsuresPath S probe notFound precheck ->
  (forall b k, is_write (probe b k) = false) ->
  forall (W : Type) (h : Handler E W) (w : W) (bucket objectPath : string),
    let t := (run h (EnsurePathExists bucket objectPath) w).2 in
    trace_writes t = [] \/
    trace_writes t
    = [OpPut bucket (withTrailingSlash (Dir objectPath)) ""
             "application/directory"].
Proof.
  intros Hens Hprobe W h w bucket objectPath t. subst t.
  specialize (Hens W h w bucket objectPath). cbv zeta in Hens.
  rewrite trace_writes_ops.
  destruct (isRootDir (Dir objectPath)).
  - destruct Hens as (_ & _ & ->). left. reflexivity.
  - destruct (precheck bucket).
    + destruct Hens as (_ & _ & ->). left. reflexivity.
    + destruct Hens as [| e r Hnf | e Hnf]; cbn; rewrite Hprobe; auto.
Qed.

Lemma uploadContentType_not_empty (c : gin.Context) :
  uploadContentType c <> "".
Proof.
  unfold uploadContentType.
  destruct (String.eqb_spec (gin.GetHeader c "Content-Type") "");
    [discriminate | assumption].
Qed.

Lemma upload_writes_object {E : Type -> Type} `{Provider E} (S : Storage E)
  (precheck : string -> option error) :
  UploadsObject S precheck ->
  forall (W : Type) (h : Handler E W) (w : W) (bucket name : string)
         (reader : Reader) (size : Z) (contentType : string),
    contentType <> "" ->
    let t := (run h (Upload bucket name reader size contentType) w).2 in
    trace_writes t = [] \/
    trace_writes t = [OpPut bucket name reader contentType].
Proof.
  intros Hup W h w bucket name reader size contentType Hct t. subst t.
  specialize (Hup W h w bucket name reader size contentType Hct).
  cbv zeta in Hup. rewrite trace_writes_ops.
  destruct (precheck bucket).
  - rewrite Hup. left. reflexivity.
  - rewrite Hup. right. reflexivity.
Qed.

Lemma upload_writes {E : Type -> Type} `{Provider E} (S : Storage E)
  (probe : string -> string -> StoreOp) (notFound : error -> bool)
  (precheck : string -> option error) :
  EnsuresPath S probe notFound precheck ->
  (forall b k, is_write (probe b k) = false) ->
  UploadsObject S precheck ->
  UploadWrites S.
Proof.
  intros Hens Hprobe Hup W V provider response w v s c bucket object t.
  subst t. unfold uploadFile. fold bucket. fold object.
  change (if String.eqb (gin.GetHeader c "Content-Type") ""
          then "application/octet-stream"
          else gin.GetHeader c "Content-Type")
    with (uploadContentType c).
  response_step response.
  rewrite run_storage_call.
  pose proof (ensure_writes S probe notFound precheck Hens Hprobe W provider
                w bucket object) as Hmarker.
  destruct (run provider (EnsurePathExists bucket object) w)
    as [[ensured w1] t1].
  cbn [fst snd] in Hmarker.
  assert (Hsub1 : sublist (trace_writes t1)
                    [OpPut bucket (withTrailingSlash (Dir object)) ""
                           "application/directory"]).
  { destruct Hmarker as [-> | ->]; [apply sublist_nil_l | reflexivity]. }
  destruct ensured as [err |].
  - response_step response. cbn [snd].
    rewrite !providerCalls_response, providerCalls_app, providerCalls_lift,
      !providerCalls_response.
    cbn [providerCalls omap list_omap]. rewrite app_nil_r.
    exact (sublist_inserts_r
             [OpPut bucket object (gin.Request_Body c) (uploadContentType c)]
             _ _ Hsub1).
  - destruct (if negb _ then ParseInt _ else _) as [n bad].
    cbn [fst snd]. destruct bad.
    + response_step response. cbn [snd].
      rewrite !providerCalls_response, providerCalls_app, providerCalls_lift,
        !providerCalls_response.
      cbn [providerCalls omap list_omap]. rewrite app_nil_r.
      exact (sublist_inserts_r
             [OpPut bucket object (gin.Request_Body c) (uploadContentType c)]
             _ _ Hsub1).
    + cbn [bind call withStorage storageMethod]. rewrite run_storage_call.
      pose proof (upload_writes_object S precheck Hup W provider w1 bucket
                    object (gin.Request_Body c) n (uploadContentType c)
                    (uploadContentType_not_empty c)) as Hobject.
      destruct (run provider
                    (Upload bucket object (gin.Request_Body c) n
                            (uploadContentType c)) w1)
        as [[uploaded w2] t2].
      cbn [fst snd] in Hobject.
      assert (Hsub2 : sublist (trace_writes t2)
                        [OpPut bucket object (gin.Request_Body c)
                               (uploadContentType c)]).
      { destruct Hobject as [-> | ->]; [apply sublist_nil_l | reflexivity]. }
      assert (Hboth : sublist (trace_writes (t1 ++ t2))
                        ([OpPut bucket (withTrailingSlash (Dir object)) ""
                                "application/directory"]
                         ++ [OpPut bucket object (gin.Request_Body c)
                                   (uploadContentType c)])).
      { rewrite trace_writes_app. apply sublist_app; assumption. }
      destruct uploaded as [err |]; response_step response; cbn [snd];
        rewrite !providerCalls_response, !providerCalls_app,
          !providerCalls_lift, !providerCalls_response;
        cbn [providerCalls omap list_omap]; rewrite app_nil_r;
        exact Hboth.
Qed.

Lemma MinIO_uploads_object : UploadsObject MinIO_Storage (fun _ => None).
Proof.
  intros W h w bucket name reader size contentType Hct.
  cbn [Upload MinIO_Storage]. unfold MinIOStorage.Upload.
  run_step h. reflexivity.
Qed.

Lemma OSS_uploads_object (o : oss.Client) (fuel : nat) :
  UploadsObject (OSS_Storage o fuel) (oss.CheckBucketName o).
Proof.
  intros W h w bucket name reader size contentType Hct.
  cbn [Upload OSS_Storage]. unfold OSSStorage.Upload, oss.GetBucket.
  destruct (oss.CheckBucketName o bucket); [reflexivity |].
  apply String.eqb_neq in Hct. rewrite Hct. cbn [negb].
  run_step h. reflexivity.
Qed.

Lemma OBS_uploads_object : UploadsObject OBS_Storage (fun _ => None).
Proof.
  intros W h w bucket name reader size contentType Hct.
  cbn [Upload OBS_Storage]. unfold OBStorage.Upload.
  apply String.eqb_neq in Hct. rewrite Hct. cbn [negb].
  run_step h. reflexivity.
Qed.

Lemma Azure_uploads_object (fuel : nat) :
  UploadsObject (Azure_Storage fuel) (fun _ => None).
Proof.
  intros W h w bucket name reader size contentType Hct.
  cbn [Upload Azure_Storage]. unfold AzureStorage.Upload.
  apply String.eqb_neq in Hct. rewrite Hct. cbn [negb].
  run_step h. reflexivity.
Qed.

(** An upload through any of the four adapters, whatever the provider
    answers: the requests that change the store are, at most and in this
    order, the write of the marker of the object's parent directory (the
    empty object of type [application/directory]) and the write of the
    object, with the request body and a content type that is not empty;
    nothing is deleted and no other key is written. *)
Theorem uploadFile_writes_marker_then_object :
  UploadWrites MinIO_Storage /\
  (forall o fuel, UploadWrites (OSS_Storage o fuel)) /\
  UploadWrites OBS_Storage /\
  (forall fuel, UploadWrites (Azure_Storage fuel)).
Proof.
  split; [| split; [| split]].
  - exact (upload_writes _ _ _ _ MinIO_ensures_path (fun _ _ => eq_refl)
             MinIO_uploads_object).
  - intros o fuel.
    exact (upload_writes _ _ _ _ (OSS_ensures_path o fuel)
             (fun _ _ => eq_refl) (OSS_uploads_object o fuel)).
  - exact (upload_writes _ _ _ _ OBS_ensures_path (fun _ _ => eq_refl)
             OBS_uploads_object).
  - intros fuel.
    exact (upload_writes _ _ _ _ (Azure_ensures_path fuel)
             (fun _ _ => eq_refl) (Azure_uploads_object fuel)).
Qed.

End UploadWritesFacts.
